(** * Openclawd: the usage-accounting and cost-optimisation core

    A shallow embedding of six classes of the repository, the properties
    its specification states about them and further properties of the code:

    - [CostOptimizedModelSelector] (ai/optimizer/model-selector.ts),
    - [BudgetEnforcer]             (usage/budget-enforcer.ts),
    - [UsageTracker]               (usage/tracker.ts),
    - [ResponseCache]              (ai/cache/response-cache.ts),
    - [UsageDashboard]             (usage/dashboard.ts),
    - [CostOptimizationManager]    (ai/cost-optimization-manager.ts).

    Conventions of the embedding.

    - A JavaScript [number] that carries money, a price, a score or a
      percentage is a binary64 float ([PrimFloat.float]), with the IEEE
      operations of the kernel: these are the operations the runtime performs.
      Counters, token counts, sizes, time stamps (milliseconds since the epoch)
      and time-to-live values (whole seconds) are integers of [Z]; they stay
      far below 2^53, where the two views agree.
    - An optional field or parameter is an [option]; [undefined] is [None].
    - A [Map] and an object used as a dictionary are association lists in
      insertion order, which is the order in which the runtime enumerates
      them (keys are ordinary names, none is an integer index or a member of
      [Object.prototype]).
    - A method that can throw returns a [result]; a method of a class with
      mutable state takes the state and returns the new one.
    - The local zone of the process is a fixed offset from UTC.  The
      module [UsageTracker] reads dates in the zone of UTC; [UsageFiles] and
      the classes that call it take the offset as a parameter. *)

From Stdlib Require Import ZArith List String Ascii Bool Lia Floats.
From Stdlib Require Import Sorted Permutation.
From Stdlib Require Uint63 DecimalString DecimalZ DecimalPos.
Import ListNotations.

Set Warnings "-inexact-float".

(* ------------------------------------------------------------------ *)
(** * The runtime: numbers, exceptions, arrays and maps *)

Module JS.

Definition number := float.

(** [ToBoolean] on a number: false for [+0], [-0] and [NaN]. *)
Definition truthy (x : number) : bool := negb (is_zero x || is_nan x).

(** Truthiness of an optional number: [undefined] is falsy. *)
Definition truthy_opt (x : option number) : bool :=
  match x with Some v => truthy v | None => false end.

(** [a || b] where both sides are optional numbers. *)
Definition or_else (a b : option number) : option number :=
  if truthy_opt a then a else b.

(** [Math.max] of two numbers: [NaN] is contagious and [+0] is above [-0]. *)
Definition Math_max (x y : number) : number :=
  if is_nan x || is_nan y then nan
  else if (x <? y)%float then y
  else if (y <? x)%float then x
  else if get_sign x then y else x.

(** The conversion of an integer counter to a number. *)
Definition of_Z (z : Z) : number := of_uint63 (Uint63.of_Z z).

Inductive result (A : Type) : Type :=
| Ok (a : A)
| Throw (message : string).
Arguments Ok {A} a.
Arguments Throw {A} message.

Definition bind {A B} (r : result A) (k : A -> result B) : result B :=
  match r with Ok a => k a | Throw m => Throw m end.

(** [Array.prototype.toSorted(cmp)]: a stable sort.  [x] moves behind [y]
    only when the comparator is positive on [(x, y)].  Every stable
    algorithm gives this result when the comparator is consistent; the model
    is the insertion sort.  [toSortedBy] takes the test "[cmp x y > 0]". *)
Fixpoint insert_sorted {A} (behind : A -> A -> bool) (x : A) (l : list A) : list A :=
  match l with
  | [] => [x]
  | y :: l' => if behind x y then y :: insert_sorted behind x l' else x :: l
  end.

Definition toSortedBy {A} (behind : A -> A -> bool) (l : list A) : list A :=
  fold_right (insert_sorted behind) [] l.

(** A comparator that returns a number; a [NaN] counts as zero. *)
Definition toSorted {A} (cmp : A -> A -> number) (l : list A) : list A :=
  toSortedBy (fun x y => (0 <? cmp x y)%float) l.

(** [String.prototype.localeCompare] on ASCII keys: the order of the code
    units.  The result is -1, 0 or 1. *)
Definition localeCompare (a b : string) : number :=
  match String.compare a b with
  | Lt => (-1)%float
  | Eq => 0%float
  | Gt => 1%float
  end.

(** ** Insertion-ordered maps with string keys ([Map], plain objects) *)

Definition Map (V : Type) := list (string * V).

Fixpoint Map_get {V} (m : Map V) (k : string) : option V :=
  match m with
  | [] => None
  | (k', v) :: m' => if String.eqb k' k then Some v else Map_get m' k
  end.

Definition Map_has {V} (m : Map V) (k : string) : bool :=
  match Map_get m k with Some _ => true | None => false end.

(** [set] keeps the position of a key that is present and appends a new one. *)
Fixpoint Map_set {V} (m : Map V) (k : string) (v : V) : Map V :=
  match m with
  | [] => [(k, v)]
  | (k', v') :: m' =>
      if String.eqb k' k then (k, v) :: m' else (k', v') :: Map_set m' k v
  end.

Definition Map_delete {V} (m : Map V) (k : string) : Map V :=
  filter (fun kv => negb (String.eqb (fst kv) k)) m.

Definition Map_keys {V} (m : Map V) : list string := map fst m.
Definition Map_values {V} (m : Map V) : list V := map snd m.
Definition Map_size {V} (m : Map V) : Z := Z.of_nat (List.length m).

End JS.

Import JS.

Open Scope string_scope.

(* ------------------------------------------------------------------ *)
(** * Configuration (config/config.ts)

    The declaration of [OpenClawConfig] is not among the sources; the fields
    below are the ones the code reads, with the optionality its optional
    chaining ([config.models?.providers], ...) shows. *)

Record ModelDefinitionConfig := { id : string }.

Record ModelProviderConfig := { provider_models : list ModelDefinitionConfig }.

Record ModelBudget := {
  dailyLimit : option number;
  costThreshold : option number;
}.

Record BudgetLimits := {
  daily : option number;
  weekly : option number;
  monthly : option number;
}.

Record BudgetControls := { modelBudgets : option (Map ModelBudget) }.

Record CostOptimizationSettings := {
  budgetLimits : option BudgetLimits;
  budgetControls : option BudgetControls;
}.

Record ModelsConfig := {
  providers : option (Map ModelProviderConfig);
  costOptimization : option CostOptimizationSettings;
}.

Record OpenClawConfig := { models : option ModelsConfig }.

(** agents/model-selection.ts: [ModelRef]. *)
Record ModelRef := { provider : string; model : string }.

(* ------------------------------------------------------------------ *)
(** * CostOptimizedModelSelector *)

Module ModelSelector.

Local Open Scope float_scope.

Inductive TaskType := text | image | code | reasoning | translation | summary.

(** ["low" | "medium" | "high"]: the three aliases share the literals. *)
Inductive Level := low | medium | high.
Definition TaskComplexity := Level.
Definition UrgencyLevel := Level.
Definition CostSensitivity := Level.

Record ModelSelectionCriteria := {
  taskType : TaskType;
  complexity : TaskComplexity;
  urgency : UrgencyLevel;
  costSensitivity : CostSensitivity;
  budgetRemaining : option number;
  contextLength : option number;
  requiresReasoning : option bool;
  requiresMultimodal : option bool;
}.

Record Cost := { cost_input : number; cost_output : number }.

Record Performance := {
  perf_speed : number;
  perf_quality : number;
  perf_reasoning : number;
}.

Record Capabilities := {
  cap_text : bool;
  cap_image : bool;
  cap_reasoning : bool;
  cap_code : bool;
  cap_translation : bool;
  cap_summary : bool;
}.

Record ModelPerformanceProfile := {
  profile_model : string;
  cost : Cost;
  performance : Performance;
  capabilities : Capabilities;
  contextWindow : number;
}.

(** [profile.capabilities[criteria.taskType]] *)
Definition capability (c : Capabilities) (t : TaskType) : bool :=
  match t with
  | text => cap_text c
  | image => cap_image c
  | reasoning => cap_reasoning c
  | code => cap_code c
  | translation => cap_translation c
  | summary => cap_summary c
  end.

Definition all_capabilities (img rsn : bool) : Capabilities :=
  {| cap_text := true; cap_image := img; cap_reasoning := rsn;
     cap_code := true; cap_translation := true; cap_summary := true |}.

(** The six [this.modelProfiles.set(...)] calls, in their order. *)
Definition initializeModelProfiles (m : Map ModelPerformanceProfile)
  : Map ModelPerformanceProfile :=
  let m := Map_set m "claude-3-5-sonnet-20241022"
    {| profile_model := "claude-3-5-sonnet-20241022";
       cost := {| cost_input := 3.0; cost_output := 15.0 |};
       performance := {| perf_speed := 6; perf_quality := 9; perf_reasoning := 8 |};
       capabilities := all_capabilities true true;
       contextWindow := 200000 |} in
  let m := Map_set m "claude-3-5-haiku-20241022"
    {| profile_model := "claude-3-5-haiku-20241022";
       cost := {| cost_input := 0.8; cost_output := 4.0 |};
       performance := {| perf_speed := 8; perf_quality := 7; perf_reasoning := 6 |};
       capabilities := all_capabilities true false;
       contextWindow := 200000 |} in
  let m := Map_set m "gpt-4o"
    {| profile_model := "gpt-4o";
       cost := {| cost_input := 5.0; cost_output := 15.0 |};
       performance := {| perf_speed := 7; perf_quality := 9; perf_reasoning := 8 |};
       capabilities := all_capabilities true true;
       contextWindow := 128000 |} in
  let m := Map_set m "gpt-4o-mini"
    {| profile_model := "gpt-4o-mini";
       cost := {| cost_input := 0.15; cost_output := 0.6 |};
       performance := {| perf_speed := 9; perf_quality := 6; perf_reasoning := 5 |};
       capabilities := all_capabilities true false;
       contextWindow := 128000 |} in
  let m := Map_set m "gpt-4-turbo"
    {| profile_model := "gpt-4-turbo";
       cost := {| cost_input := 10.0; cost_output := 30.0 |};
       performance := {| perf_speed := 5; perf_quality := 8; perf_reasoning := 9 |};
       capabilities := all_capabilities true true;
       contextWindow := 128000 |} in
  Map_set m "gpt-3.5-turbo"
    {| profile_model := "gpt-3.5-turbo";
       cost := {| cost_input := 0.5; cost_output := 1.5 |};
       performance := {| perf_speed := 10; perf_quality := 5; perf_reasoning := 4 |};
       capabilities := all_capabilities false false;
       contextWindow := 16385 |}.

(** The registry of a constructed selector: the constructor starts from an
    empty map and nothing writes to it afterwards. *)
Definition modelProfiles : Map ModelPerformanceProfile :=
  initializeModelProfiles [].

Definition getModelCostEstimate (model : string) (inputTokens outputTokens : number)
  : number :=
  match Map_get modelProfiles model with
  | None => 0
  | Some profile =>
      let inputCost := (inputTokens / 1000000 * cost_input (cost profile))%float in
      let outputCost := (outputTokens / 1000000 * cost_output (cost profile))%float in
      (inputCost + outputCost)%float
  end.

(** [this.config.models?.providers || {}] *)
Definition configuredProviders (config : OpenClawConfig) : Map ModelProviderConfig :=
  match models config with
  | Some mc => match providers mc with Some ps => ps | None => [] end
  | None => []
  end.

(** The loop over [Object.entries(providers)]. *)
Fixpoint findModelInProviders (ps : Map ModelProviderConfig) (modelId : string)
  : option ModelRef :=
  match ps with
  | [] => None
  | (provider, providerConfig) :: ps' =>
      match find (fun m => String.eqb (id m) modelId) (provider_models providerConfig) with
      | Some _ => Some {| provider := provider; model := modelId |}
      | None => findModelInProviders ps' modelId
      end
  end.

Definition findModelInConfig (config : OpenClawConfig) (modelId : string)
  : option ModelRef :=
  findModelInProviders (configuredProviders config) modelId.

Definition is_true (b : option bool) : bool :=
  match b with Some true => true | _ => false end.

(** The four capability filters of [getAvailableModels]: a profile passes
    when none of the [continue] statements fires. *)
Definition passesFilters (criteria : ModelSelectionCriteria)
    (profile : ModelPerformanceProfile) : bool :=
  if negb (capability (capabilities profile) (taskType criteria)) then false
  else if is_true (requiresMultimodal criteria) && negb (cap_image (capabilities profile)) then false
  else if is_true (requiresReasoning criteria) && negb (cap_reasoning (capabilities profile)) then false
  else if match contextLength criteria with
          | Some n => truthy n && (contextWindow profile <? n)%float
          | None => false
          end then false
  else true.

Definition getAvailableModels (config : OpenClawConfig)
    (criteria : ModelSelectionCriteria) : list ModelRef :=
  flat_map
    (fun entry : string * ModelPerformanceProfile =>
       let (modelId, profile) := entry in
       if passesFilters criteria profile then
         match findModelInConfig config modelId with
         | Some modelRef => [modelRef]
         | None => []
         end
       else [])
    modelProfiles.

Definition weight (l : Level) : number :=
  match l with high => 3 | medium => 2 | low => 1 end.

Definition getQualityWeight (criteria : ModelSelectionCriteria) : number :=
  weight (complexity criteria).
Definition getSpeedWeight (criteria : ModelSelectionCriteria) : number :=
  weight (urgency criteria).
Definition getCostWeight (criteria : ModelSelectionCriteria) : number :=
  weight (costSensitivity criteria).

Definition calculateCostScore (c : Cost) (_criteria : ModelSelectionCriteria) : number :=
  let avgCost := ((cost_input c + cost_output c) / 2)%float in
  Math_max 0 (10 - avgCost / 5)%float.

Record Scored := { scored_model : ModelRef; score : number }.

Definition scoreModels (models : list ModelRef) (criteria : ModelSelectionCriteria)
  : list Scored :=
  flat_map
    (fun m : ModelRef =>
       match Map_get modelProfiles (model m) with
       | None => []
       | Some profile =>
           let score := 0%float in
           let score := (score + perf_quality (performance profile) * getQualityWeight criteria)%float in
           let score := (score + perf_speed (performance profile) * getSpeedWeight criteria)%float in
           let costScore := calculateCostScore (cost profile) criteria in
           let score := (score + costScore * getCostWeight criteria)%float in
           let score :=
             if is_true (requiresReasoning criteria)
             then (score + perf_reasoning (performance profile) * 2)%float
             else score in
           [{| scored_model := m; score := score |}]
       end)
    models.

(** [profile.cost.input + profile.cost.output] of a model of the registry.
    The source asserts the profile with [!]; the models that reach the
    comparator were scored, so they have one (lemma [scoreModels_known]). *)
Definition priceSum (modelId : string) : number :=
  match Map_get modelProfiles modelId with
  | Some profile => (cost_input (cost profile) + cost_output (cost profile))%float
  | None => nan
  end.

(** [array[0].model]; reading [model] of [undefined] is a [TypeError]. *)
Definition firstModel (l : list Scored) : result ModelRef :=
  match l with
  | s :: _ => Ok (scored_model s)
  | [] => Throw "TypeError: Cannot read properties of undefined (reading 'model')"
  end.

Definition applyBudgetConstraints (scoredModels : list Scored)
    (criteria : ModelSelectionCriteria) : result ModelRef :=
  match budgetRemaining criteria with
  | Some budget =>
      if negb (truthy budget) then firstModel scoredModels
      else
        let affordableModels :=
          filter
            (fun s =>
               match Map_get modelProfiles (model (scored_model s)) with
               | None => false
               | Some _ =>
                   let estimatedCost :=
                     getModelCostEstimate (model (scored_model s)) 1000 500 in
                   (estimatedCost <=? budget)%float
               end)
            scoredModels in
        match affordableModels with
        | [] =>
            firstModel
              (toSorted
                 (fun a b =>
                    (priceSum (model (scored_model a))
                     - priceSum (model (scored_model b)))%float)
                 scoredModels)
        | _ :: _ => firstModel affordableModels
        end
  | None => firstModel scoredModels
  end.

Definition no_suitable_models : string :=
  "No suitable models found for the given criteria".

Definition selectOptimalModel (config : OpenClawConfig)
    (criteria : ModelSelectionCriteria) : result ModelRef :=
  let availableModels := getAvailableModels config criteria in
  let scoredModels := scoreModels availableModels criteria in
  let sortedModels := toSorted (fun a b => (score b - score a)%float) scoredModels in
  match sortedModels with
  | [] => Throw no_suitable_models
  | _ => applyBudgetConstraints sortedModels criteria
  end.

(** The profiles that pass the capability filters, before the lookup in
    the configuration. *)
Definition capabilityEligible (criteria : ModelSelectionCriteria)
  : list ModelPerformanceProfile :=
  filter (passesFilters criteria) (Map_values modelProfiles).

Record UpgradeParams := {
  currentModel : ModelRef;
  taskComplexity : TaskComplexity;
  upgrade_costSensitivity : CostSensitivity;
  upgrade_budgetRemaining : option number;
}.

Record UpgradeDecision := {
  shouldUpgrade : bool;
  recommendedModel : option ModelRef;
}.

Definition findBetterModels (config : OpenClawConfig)
    (currentProfile : ModelPerformanceProfile) (_criteria : ModelSelectionCriteria)
  : list ModelRef :=
  flat_map
    (fun entry : string * ModelPerformanceProfile =>
       let (modelId, profile) := entry in
       if perf_quality (performance profile) <=? perf_quality (performance currentProfile)
       then []
       else if negb (capability (capabilities profile) (taskType _criteria)) then []
       else match findModelInConfig config modelId with
            | Some modelRef => [modelRef]
            | None => []
            end)
    modelProfiles.

Definition checkAffordability (m : ModelRef) (budgetRemaining : option number) : bool :=
  match budgetRemaining with
  | Some budget =>
      if negb (truthy budget) then true
      else
        match Map_get modelProfiles (model m) with
        | None => false
        | Some _ => getModelCostEstimate (model m) 1000 500 <=? budget
        end
  | None => true
  end.

Definition noUpgrade : UpgradeDecision :=
  {| shouldUpgrade := false; recommendedModel := None |}.

Definition shouldUpgradeModel (config : OpenClawConfig) (params : UpgradeParams)
  : UpgradeDecision :=
  match Map_get modelProfiles (model (currentModel params)) with
  | None => noUpgrade
  | Some currentProfile =>
      if match taskComplexity params with high => true | _ => false end
         && (perf_quality (performance currentProfile) <? 7)
      then
        let betterModels :=
          findBetterModels config currentProfile
            {| taskType := text; complexity := taskComplexity params; urgency := medium;
               costSensitivity := upgrade_costSensitivity params;
               budgetRemaining := upgrade_budgetRemaining params;
               contextLength := None; requiresReasoning := None;
               requiresMultimodal := None |} in
        match betterModels with
        | first :: _ =>
            if checkAffordability first (upgrade_budgetRemaining params)
            then {| shouldUpgrade := true; recommendedModel := Some first |}
            else noUpgrade
        | [] => noUpgrade
        end
      else noUpgrade
  end.

End ModelSelector.

(* ------------------------------------------------------------------ *)
(** * BudgetEnforcer *)

Module BudgetEnforcer.

Local Open Scope float_scope.

(** usage/types.ts: [CostControls]. *)
Record AlertControls := {
  alert_percentage : option number;
  alert_absolute : option number;
}.

Record CostControls := {
  dailyBudget : option number;
  weeklyBudget : option number;
  monthlyBudget : option number;
  alerts : option AlertControls;
  controls_modelBudgets : option (Map ModelBudget);
}.

Definition noControls : CostControls :=
  {| dailyBudget := None; weeklyBudget := None; monthlyBudget := None;
     alerts := None; controls_modelBudgets := None |}.

(** The state of an enforcer is its [costControls]. *)
Record BudgetEnforcer := { costControls : CostControls }.

(** [constructor(costControls?)]: [costControls || {}]. *)
Definition new (controls : option CostControls) : BudgetEnforcer :=
  {| costControls := match controls with Some c => c | None => noControls end |}.

Record BudgetDecision := {
  allowed : bool;
  reason : option string;
  alternativeModel : option ModelRef;
}.

(** [config?.models?.costOptimization] *)
Definition costOptimizationOf (config : option OpenClawConfig)
  : option CostOptimizationSettings :=
  match config with
  | Some c => match models c with Some mc => costOptimization mc | None => None end
  | None => None
  end.

(** [config?.models?.costOptimization?.budgetLimits?.daily] *)
Definition configuredDaily (config : option OpenClawConfig) : option number :=
  match costOptimizationOf config with
  | Some co => match budgetLimits co with Some bl => daily bl | None => None end
  | None => None
  end.

(** [config?.models?.costOptimization?.budgetControls?.modelBudgets] *)
Definition configuredModelBudgets (config : option OpenClawConfig)
  : option (Map ModelBudget) :=
  match costOptimizationOf config with
  | Some co => match budgetControls co with Some bc => modelBudgets bc | None => None end
  | None => None
  end.

(** Both [if] statements of the source have a body of comments only: each
    branch leaves the decision as it is. *)
Definition checkBudgetUsage (this : BudgetEnforcer) (agentId : string)
    (estimatedCost : number) (config : option OpenClawConfig) : BudgetDecision :=
  let decision := {| allowed := true; reason := None; alternativeModel := None |} in
  let dailyBudget := or_else (configuredDaily config) (dailyBudget (costControls this)) in
  let decision := if truthy_opt dailyBudget then decision else decision in
  let decision :=
    match configuredModelBudgets config with
    | Some _ => decision
    | None => decision
    end in
  decision.

Record SwitchDecision := {
  shouldSwitch : bool;
  recommendedModel : option ModelRef;
}.

Definition noSwitch : SwitchDecision :=
  {| shouldSwitch := false; recommendedModel := None |}.

(** The object literal of [findCheaperModel]. *)
Definition modelFallbacks : Map string :=
  [("claude-3-5-sonnet-20241022", "claude-3-5-haiku-20241022");
   ("gpt-4o", "gpt-4o-mini");
   ("gpt-4-turbo", "gpt-3.5-turbo")].

Definition findCheaperModel (currentModel : string)
    (_taskComplexity : ModelSelector.Level) (_config : option OpenClawConfig)
  : option string :=
  Map_get modelFallbacks currentModel.

(** [cheaperModel ? {...} : undefined]: the empty string is falsy too. *)
Definition shouldUseCheaperModel (this : BudgetEnforcer) (currentModel : string)
    (estimatedCost : number) (taskComplexity costSensitivity : ModelSelector.Level)
    (config : option OpenClawConfig) : SwitchDecision :=
  match configuredModelBudgets config with
  | None => noSwitch
  | Some modelBudgets =>
      match Map_get modelBudgets currentModel with
      | None => noSwitch
      | Some currentBudget =>
          if negb (truthy_opt (costThreshold currentBudget)) then noSwitch
          else
            match costThreshold currentBudget with
            | Some threshold =>
                if threshold <? estimatedCost then
                  let cheaperModel := findCheaperModel currentModel taskComplexity config in
                  {| shouldSwitch := true;
                     recommendedModel :=
                       match cheaperModel with
                       | Some cheaper =>
                           if String.eqb cheaper "" then None
                           else Some {| provider := "openai"; model := cheaper |}
                       | None => None
                       end |}
                else noSwitch
            | None => noSwitch
            end
      end
  end.

End BudgetEnforcer.

(* ------------------------------------------------------------------ *)
(** * Dates

    A [Date] is its time value, the milliseconds since the epoch.  The
    calendar getters are those of a process whose local time zone is UTC. *)

Module Date.

Local Open Scope Z_scope.

Definition Date := Z.

Definition msPerDay : Z := 86400000.

(** The day number of a time value, counted from 1970-01-01. *)
Definition dayNumber (t : Date) : Z := t / msPerDay.

(** Year, month (1..12) and day of the month of a day number, in the
    proleptic Gregorian calendar. *)
Definition civil (days : Z) : Z * Z * Z :=
  let z := days + 719468 in
  let era := z / 146097 in
  let doe := z - era * 146097 in
  let yoe := (doe - doe / 1460 + doe / 36524 - doe / 146096) / 365 in
  let y := yoe + era * 400 in
  let doy := doe - (365 * yoe + yoe / 4 - yoe / 100) in
  let mp := (5 * doy + 2) / 153 in
  let d := doy - (153 * mp + 2) / 5 + 1 in
  let m := if mp <? 10 then mp + 3 else mp - 9 in
  (if m <=? 2 then y + 1 else y, m, d).

Definition getFullYear (t : Date) : Z := fst (fst (civil (dayNumber t))).
(** [getMonth] counts from zero. *)
Definition getMonth (t : Date) : Z := snd (fst (civil (dayNumber t))) - 1.
Definition getDate (t : Date) : Z := snd (civil (dayNumber t)).
(** [getDay]: 0 is Sunday; 1970-01-01 was a Thursday. *)
Definition getDay (t : Date) : Z := (dayNumber t + 4) mod 7.

(** [d.setDate(d.getDate() + n)]: the same time of day, [n] days later. *)
Definition addDays (t : Date) (n : Z) : Date := t + n * msPerDay.

(** [d.setHours(0, 0, 0, 0)]: the midnight that starts the day of [t]. *)
Definition startOfDay (t : Date) : Date := dayNumber t * msPerDay.

(** [d.setDate(n)]: the same time of day on day [n] of the month of [t]
    (a day past either end of the month counts on into the next one). *)
Definition setDate (t : Date) (n : Z) : Date := addDays t (n - getDate t).

(** ** The local time zone

    The getters and setters above are the UTC ones ([getUTCFullYear] and
    so on), and the local ones of a process whose zone is UTC.  In a zone
    that is [offset] milliseconds ahead of UTC ([offset] is
    [-60000 * getTimezoneOffset()]; the zone keeps it for all the dates of a
    call, no daylight-saving change falls between them) the local fields of
    a date are the fields of its wall-clock value. *)
Definition toLocal (offset : Z) (t : Date) : Date := t + offset.

Definition fromLocal (offset : Z) (wallClock : Date) : Date := wallClock - offset.

(** A getter of the local fields: [getFullYear], [getMonth], [getDate],
    [getDay]. *)
Definition localGet (offset : Z) (getter : Date -> Z) (t : Date) : Z :=
  getter (toLocal offset t).

(** A setter of the local fields: [setDate], [setHours]. *)
Definition localSet (offset : Z) (setter : Date -> Date) (t : Date) : Date :=
  fromLocal offset (setter (toLocal offset t)).

End Date.

(** [String(n)] for an integer. *)
Definition String_of_Z (n : Z) : string :=
  DecimalString.NilZero.string_of_int (Z.to_int n).

(** [s.padStart(2, "0")] *)
Definition padStart2 (s : string) : string :=
  match String.length s with
  | O => "00"
  | S O => "0" ++ s
  | _ => s
  end.

(* ------------------------------------------------------------------ *)
(** * UsageTracker *)

Module UsageTracker.

Local Open Scope float_scope.

Inductive Period := day | week | month.

(** The text of a period in a template literal. *)
Definition Period_text (p : Period) : string :=
  match p with day => "day" | week => "week" | month => "month" end.

(** usage/types.ts *)
Record Usage := {
  input : Z;
  output : Z;
  cacheRead : option Z;
  cacheWrite : option Z;
  total : Z;
}.

Record Metadata := {
  meta_taskType : option string;
  duration : option Z;
  success : bool;
  error : option string;
}.

Record UsageRecord := {
  record_id : string;
  agentId : string;
  sessionId : string;
  provider : string;
  model : string;
  usage : Usage;
  cost : number;
  timestamp : Date.Date;
  metadata : option Metadata;
}.

(** A leaf of the breakdown: [{cost, tokens, requests}]. *)
Record Leaf := {
  leaf_cost : number;
  leaf_tokens : Z;
  leaf_requests : Z;
}.

Record UsageAggregate := {
  period : string;
  totalCost : number;
  totalTokens : Z;
  requestCount : Z;
  averageCostPerRequest : number;
  breakdown : Map (Map Leaf);
}.

Inductive AlertLevel := warning | critical.

Record Alert := {
  level : AlertLevel;
  threshold : number;
  current : number;
  message : string;
}.

Record BudgetStatus := {
  status_period : Period;
  budget : option number;
  spent : number;
  remaining : option number;
  percentage : option number;
  overBudget : bool;
  alerts : list Alert;
}.

Definition getPeriodKey (date : Date.Date) (p : Period) : string :=
  let year := Date.getFullYear date in
  let month := padStart2 (String_of_Z (Date.getMonth date + 1)) in
  let day := padStart2 (String_of_Z (Date.getDate date)) in
  match p with
  | day => String_of_Z year ++ "-" ++ month ++ "-" ++ day
  | week =>
      let dayOfWeek := Date.getDay date in
      let weekStart := Date.addDays date (- dayOfWeek) in
      let weekYear := Date.getFullYear weekStart in
      let weekMonth := padStart2 (String_of_Z (Date.getMonth weekStart + 1)) in
      let weekDay := padStart2 (String_of_Z (Date.getDate weekStart)) in
      String_of_Z weekYear ++ "-" ++ weekMonth ++ "-" ++ weekDay ++ " (Week)"
  | month => String_of_Z year ++ "-" ++ month
  end.

Definition emptyAggregate (periodKey : string) : UsageAggregate :=
  {| period := periodKey; totalCost := 0; totalTokens := 0; requestCount := 0;
     averageCostPerRequest := 0; breakdown := [] |}.

Definition emptyLeaf : Leaf :=
  {| leaf_cost := 0; leaf_tokens := 0; leaf_requests := 0 |}.

(** The body of [records.forEach] in [aggregateRecords].  An aggregate, a
    provider entry or a leaf that is missing is created empty and then
    updated; the objects are updated in place, so they keep their position. *)
Definition addRecord (p : Period) (aggregates : Map UsageAggregate)
    (record : UsageRecord) : Map UsageAggregate :=
  let periodKey := getPeriodKey (timestamp record) p in
  let aggregate :=
    match Map_get aggregates periodKey with
    | Some a => a
    | None => emptyAggregate periodKey
    end in
  let byModel :=
    match Map_get (breakdown aggregate) (provider record) with
    | Some b => b
    | None => []
    end in
  let leaf :=
    match Map_get byModel (model record) with
    | Some l => l
    | None => emptyLeaf
    end in
  let leaf :=
    {| leaf_cost := leaf_cost leaf + cost record;
       leaf_tokens := (leaf_tokens leaf + total (usage record))%Z;
       leaf_requests := (leaf_requests leaf + 1)%Z |} in
  let aggregate :=
    {| period := period aggregate;
       totalCost := totalCost aggregate + cost record;
       totalTokens := (totalTokens aggregate + total (usage record))%Z;
       requestCount := (requestCount aggregate + 1)%Z;
       averageCostPerRequest := averageCostPerRequest aggregate;
       breakdown :=
         Map_set (breakdown aggregate) (provider record)
           (Map_set byModel (model record) leaf) |} in
  Map_set aggregates periodKey aggregate.

(** The second loop: the average of every aggregate. *)
Definition withAverage (a : UsageAggregate) : UsageAggregate :=
  {| period := period a;
     totalCost := totalCost a;
     totalTokens := totalTokens a;
     requestCount := requestCount a;
     averageCostPerRequest :=
       if (0 <? requestCount a)%Z then totalCost a / JS.of_Z (requestCount a) else 0;
     breakdown := breakdown a |}.

Definition aggregateRecords (records : list UsageRecord) (p : Period)
  : list UsageAggregate :=
  let aggregates := fold_left (addRecord p) records [] in
  let aggregates := map (fun kv => (fst kv, withAverage (snd kv))) aggregates in
  toSorted (fun a b => localeCompare (period b) (period a)) (Map_values aggregates).

Section Budget.

(** [Number.prototype.toFixed] of the runtime; it only formats the messages
    of the alerts. *)
Variable toFixed : number -> Z -> string.

(** The block "Generate alerts" of [checkBudget]. *)
Definition generateAlerts (p : Period) (spent : number) (budget percentage : option number)
  : list Alert :=
  match budget, percentage with
  | Some b, Some pct =>
      if truthy b && truthy pct then
        if (100 <=? pct) then
          [{| level := critical; threshold := 100; current := pct;
              message := "Budget exceeded for " ++ Period_text p ++ ": $"
                         ++ toFixed spent 2 ++ " / $" ++ toFixed b 2 |}]
        else if (80 <=? pct) then
          [{| level := warning; threshold := 80; current := pct;
              message := "Budget warning for " ++ Period_text p ++ ": $"
                         ++ toFixed spent 2 ++ " / $" ++ toFixed b 2
                         ++ " (" ++ toFixed pct 1 ++ "%)" |}]
        else []
      else []
  | _, _ => []
  end.

(** [checkBudget], from the records that [loadRecords] returns for the
    window of the period (and the agent). *)
Definition checkBudget (records : list UsageRecord) (p : Period)
    (budget : option number) : BudgetStatus :=
  let spent := fold_left (fun total record => total + cost record) records 0 in
  let remaining :=
    if truthy_opt budget
    then match budget with Some b => Some (Math_max 0 (b - spent)) | None => None end
    else None in
  let percentage :=
    if truthy_opt budget
    then match budget with Some b => Some (spent / b * 100) | None => None end
    else None in
  let overBudget :=
    if truthy_opt budget
    then match budget with Some b => (b <? spent) | None => false end
    else false in
  {| status_period := p; budget := budget; spent := spent; remaining := remaining;
     percentage := percentage; overBudget := overBudget;
     alerts := generateAlerts p spent budget percentage |}.

End Budget.

(** [getPeriodStart] in the zone of UTC ([UsageFiles.getPeriodStart] takes
    the offset of the zone). *)
Definition getPeriodStart (p : Period) (date : Date.Date) : Date.Date :=
  let start := date in
  match p with
  | day => Date.startOfDay start
  | week =>
      let dayOfWeek := Date.getDay start in
      let start := Date.setDate start (Date.getDate start - dayOfWeek)%Z in
      Date.startOfDay start
  | month =>
      let start := Date.setDate start 1 in
      Date.startOfDay start
  end.

End UsageTracker.

(* ------------------------------------------------------------------ *)
(** * SHA-256 (FIPS 180-4), the default digest of the response cache

    Words are integers below 2^32.  The constants are defined as the standard
    defines them: the fractional parts of the square roots ([H0]) and of the
    cube roots ([K]) of the first primes. *)

Module Sha256.

Local Open Scope Z_scope.

Definition word (x : Z) : Z := x mod 2 ^ 32.

Definition add32 (x y : Z) : Z := word (x + y).

Definition rotr (n x : Z) : Z := Z.lor (Z.shiftr x n) (word (Z.shiftl x (32 - n))).

Definition Ch (x y z : Z) : Z :=
  Z.lxor (Z.land x y) (Z.land (Z.lxor x (2 ^ 32 - 1)) z).

Definition Maj (x y z : Z) : Z :=
  Z.lxor (Z.lxor (Z.land x y) (Z.land x z)) (Z.land y z).

Definition bigSigma0 (x : Z) : Z := Z.lxor (Z.lxor (rotr 2 x) (rotr 13 x)) (rotr 22 x).
Definition bigSigma1 (x : Z) : Z := Z.lxor (Z.lxor (rotr 6 x) (rotr 11 x)) (rotr 25 x).
Definition smallSigma0 (x : Z) : Z := Z.lxor (Z.lxor (rotr 7 x) (rotr 18 x)) (Z.shiftr x 3).
Definition smallSigma1 (x : Z) : Z := Z.lxor (Z.lxor (rotr 17 x) (rotr 19 x)) (Z.shiftr x 10).

(** The primes below [2 + fuel], in increasing order. *)
Fixpoint primesFrom (candidate : Z) (found : list Z) (fuel : nat) : list Z :=
  match fuel with
  | O => rev found
  | S fuel' =>
      if forallb (fun q => negb (candidate mod q =? 0)) found
      then primesFrom (candidate + 1) (candidate :: found) fuel'
      else primesFrom (candidate + 1) found fuel'
  end.

(** The first 64 primes: 2, 3, 5, ..., 311. *)
Definition primes : list Z := Eval vm_compute in primesFrom 2 [] 310.

(** The integer cube root, one bit at a time. *)
Fixpoint cubeRootBits (n root : Z) (bits : nat) : Z :=
  match bits with
  | O => root
  | S bits' =>
      let candidate := root + 2 ^ Z.of_nat bits' in
      cubeRootBits n (if candidate ^ 3 <=? n then candidate else root) bits'
  end.

Definition cubeRoot (n : Z) : Z := cubeRootBits n 0 40.

(** The first 32 bits of the fractional part of the root of a prime. *)
Definition K : list Z :=
  Eval vm_compute in map (fun p => word (cubeRoot (p * 2 ^ 96))) primes.

Definition H0 : list Z :=
  Eval vm_compute in map (fun p => word (Z.sqrt (p * 2 ^ 64))) (firstn 8 primes).

(** ** Padding and parsing *)

Definition bytesOf (s : string) : list Z :=
  map (fun c => Z.of_N (N_of_ascii c)) (list_ascii_of_string s).

(** The big-endian bytes of [x], [n] of them. *)
Fixpoint bigEndian (n : nat) (x : Z) : list Z :=
  match n with
  | O => []
  | S n' => (Z.shiftr x (8 * Z.of_nat n')) mod 256 :: bigEndian n' x
  end.

Definition pad (message : list Z) : list Z :=
  let len := Z.of_nat (List.length message) in
  let zeros := Z.to_nat ((55 - len) mod 64) in
  message ++ [128] ++ repeat 0 zeros ++ bigEndian 8 (8 * len).

Fixpoint wordsOf (bytes : list Z) (fuel : nat) : list Z :=
  match fuel, bytes with
  | S fuel', b0 :: b1 :: b2 :: b3 :: rest =>
      (((b0 * 256 + b1) * 256 + b2) * 256 + b3) :: wordsOf rest fuel'
  | _, _ => []
  end.

(** ** The message schedule and the compression function *)

(** [recent] holds the schedule so far, the last word first. *)
Fixpoint schedule (recent : list Z) (n : nat) : list Z :=
  match n with
  | O => rev recent
  | S n' =>
      let w := add32 (add32 (smallSigma1 (nth 1 recent 0)) (nth 6 recent 0))
                     (add32 (smallSigma0 (nth 14 recent 0)) (nth 15 recent 0)) in
      schedule (w :: recent) n'
  end.

Definition round (state : list Z) (kw : Z * Z) : list Z :=
  match state with
  | [a; b; c; d; e; f; g; h] =>
      let t1 := add32 (add32 (add32 h (bigSigma1 e)) (add32 (Ch e f g) (fst kw))) (snd kw) in
      let t2 := add32 (bigSigma0 a) (Maj a b c) in
      [add32 t1 t2; a; b; c; add32 d t1; e; f; g]
  | _ => state
  end.

Definition compress (hash : list Z) (block : list Z) : list Z :=
  let w := schedule (rev block) 48 in
  let final := fold_left round (combine K w) hash in
  map (fun xy => add32 (fst xy) (snd xy)) (combine hash final).

Fixpoint blocks (words : list Z) (fuel : nat) : list (list Z) :=
  match fuel, words with
  | S fuel', _ :: _ => firstn 16 words :: blocks (skipn 16 words) fuel'
  | _, _ => []
  end.

Definition hash (message : string) : list Z :=
  let bytes := pad (bytesOf message) in
  let words := wordsOf bytes (List.length bytes) in
  fold_left compress (blocks words (List.length words)) H0.

(** ** The hexadecimal digest *)

Definition hexDigit (d : Z) : ascii :=
  ascii_of_N (Z.to_N (if d <? 10 then 48 + d else 87 + d)).

Fixpoint hexOf (digits : nat) (x : Z) : string :=
  match digits with
  | O => EmptyString
  | S n => String (hexDigit ((Z.shiftr x (4 * Z.of_nat n)) mod 16)) (hexOf n x)
  end.

Definition hex (message : string) : string :=
  String.concat "" (map (hexOf 8) (hash message)).

End Sha256.

(* ------------------------------------------------------------------ *)
(** * Strings *)

(** [s.replace(pattern, replacement)] for a string pattern: the first
    occurrence only. *)
Fixpoint replaceFirst (pattern replacement s : string) : string :=
  if String.prefix pattern s
  then replacement
       ++ String.substring (String.length pattern)
            (String.length s - String.length pattern) s
  else match s with
       | EmptyString => EmptyString
       | String c s' => String c (replaceFirst pattern replacement s')
       end.

(** [s.endsWith(suffix)] *)
Definition endsWith (suffix s : string) : bool :=
  Nat.leb (String.length suffix) (String.length s)
  && String.eqb
       (String.substring (String.length s - String.length suffix) (String.length suffix) s)
       suffix.

(** [s.split("\n")] *)
Fixpoint splitLines (s : string) : list string :=
  match s with
  | EmptyString => [EmptyString]
  | String c s' =>
      if Ascii.eqb c "010"%char then EmptyString :: splitLines s'
      else match splitLines s' with
           | line :: rest => String c line :: rest
           | [] => [String c EmptyString]
           end
  end.

(* ------------------------------------------------------------------ *)
(** * ResponseCache *)

Module ResponseCache.

Local Open Scope Z_scope.

(** agents/usage.ts: [NormalizedUsage] (every count is optional). *)
Record NormalizedUsage := {
  input : option Z;
  output : option Z;
  cacheRead : option Z;
  cacheWrite : option Z;
  total : option Z;
}.

Record CachedResponse := {
  response : string;
  usage : NormalizedUsage;
  cost : number;
  timestamp : Date.Date;
  ttl : Z;
  hitCount : Z;
}.

Inductive StorageType := memory | disk.

Record StorageConfig := {
  storage_type : StorageType;
  path : option string;
  maxSize : Z;
}.

Record TtlConfig := {
  default : Z;
  perModel : Map Z;
}.

Record HashingConfig := {
  algorithm : string;
  includeTemperature : bool;
  includeMaxTokens : bool;
}.

Record CacheConfig := {
  enabled : bool;
  storage : StorageConfig;
  ttl_config : TtlConfig;
  hashing : HashingConfig;
}.

(** [Partial<CacheConfig>]: each top-level key may be absent. *)
Record PartialCacheConfig := {
  partial_enabled : option bool;
  partial_storage : option StorageConfig;
  partial_ttl : option TtlConfig;
  partial_hashing : option HashingConfig;
}.

(** ** The file system under the storage path

    A cache file is written by [JSON.stringify] and read by [JSON.parse];
    a file holds either the serialisation of an entry, which is read back as
    the same entry, or text that [JSON.parse] rejects.  Cache keys are file
    name stems (no path separator). *)

Inductive FileContent :=
| Json (entry : CachedResponse)
| Garbage.

Record File := { content : FileContent; mtime : Z }.

(** What the file system holds at the storage path. *)
Inductive Node :=
| Absent
| RegularFile (text : string)
| Directory (files : Map File).

(** ** The state of a cache and its methods *)

Record State := {
  config : CacheConfig;
  memoryCache : Map CachedResponse;
  storagePath : string;
  node : Node;
}.

Definition withMemory (s : State) (m : Map CachedResponse) : State :=
  {| config := config s; memoryCache := m; storagePath := storagePath s; node := node s |}.

Definition withNode (s : State) (n : Node) : State :=
  {| config := config s; memoryCache := memoryCache s; storagePath := storagePath s;
     node := n |}.

(** A method returns or throws, and leaves a state. *)
Inductive outcome (A : Type) : Type :=
| Returns (value : A) (after : State)
| Throws (error : string) (after : State).
Arguments Returns {A} value after.
Arguments Throws {A} error after.

Definition M (A : Type) : Type := State -> outcome A.

Definition ret {A} (a : A) : M A := fun s => Returns a s.

Definition bind {A B} (m : M A) (k : A -> M B) : M B :=
  fun s =>
    match m s with
    | Returns a s' => k a s'
    | Throws e s' => Throws e s'
    end.

Definition throw {A} (e : string) : M A := fun s => Throws e s.

Definition getState : M State := fun s => Returns s s.

Definition putState (s' : State) : M unit := fun _ => Returns tt s'.

(** [try { m } catch { handler }] *)
Definition tryCatch {A} (m handler : M A) : M A :=
  fun s =>
    match m s with
    | Returns a s' => Returns a s'
    | Throws _ s' => handler s'
    end.

Notation "x <- m ;; k" := (bind m (fun x => k))
  (at level 61, m at next level, right associativity).
Notation "m ;;; k" := (bind m (fun _ => k))
  (at level 61, right associativity).

(** [for (const x of l) body(x)] *)
Fixpoint forEach {A} (l : list A) (body : A -> M unit) : M unit :=
  match l with
  | [] => ret tt
  | x :: l' => body x ;;; forEach l' body
  end.

Definition defaultConfig : CacheConfig :=
  {| enabled := true;
     storage := {| storage_type := memory; path := None; maxSize := 1000 |};
     ttl_config :=
       {| default := 3600;
          perModel := [("gpt-4o", 7200); ("claude-3-5-sonnet-20241022", 7200);
                       ("gpt-4o-mini", 1800)] |};
     hashing := {| algorithm := "sha256"; includeTemperature := true;
                   includeMaxTokens := true |} |}.

Definition orDefault {A} (o : option A) (d : A) : A :=
  match o with Some a => a | None => d end.

(** [constructor(config?)].  [home] is [process.env.HOME] and [fs] tells what
    the file system holds at a path. *)
Definition new (partial : option PartialCacheConfig) (home : option string)
    (fs : string -> Node) : State :=
  let config :=
    match partial with
    | None => defaultConfig
    | Some c =>
        {| enabled := orDefault (partial_enabled c) (enabled defaultConfig);
           storage := orDefault (partial_storage c) (storage defaultConfig);
           ttl_config := orDefault (partial_ttl c) (ttl_config defaultConfig);
           hashing := orDefault (partial_hashing c) (hashing defaultConfig) |}
    end in
  match storage_type (storage config) with
  | disk =>
      let storagePath :=
        match path (storage config) with
        | Some p => if String.eqb p "" then "~/.openclaw/cache/responses" else p
        | None => "~/.openclaw/cache/responses"
        end in
      let home :=
        match home with
        | Some h => if String.eqb h "" then "~" else h
        | None => "~"
        end in
      let storagePath := replaceFirst "~" home storagePath in
      {| config := config; memoryCache := []; storagePath := storagePath;
         node := match fs storagePath with
                 | Absent => Directory []
                 | existing => existing
                 end |}
  | memory =>
      {| config := config; memoryCache := []; storagePath := ""; node := Absent |}
  end.

Definition isMemory (s : State) : bool :=
  match storage_type (storage (config s)) with memory => true | disk => false end.

Definition fileName (cacheKey : string) : string := (cacheKey ++ ".json")%string.

(** [unlinkSync(join(this.storagePath, name))] *)
Definition unlinkSync (name : string) : M unit :=
  fun s =>
    match node s with
    | Directory files =>
        if Map_has files name
        then Returns tt (withNode s (Directory (Map_delete files name)))
        else Throws "ENOENT: no such file or directory, unlink" s
    | RegularFile _ => Throws "ENOTDIR: not a directory, unlink" s
    | Absent => Throws "ENOENT: no such file or directory, unlink" s
    end.

Definition getDiskCache (cacheKey : string) : M (option CachedResponse) :=
  s <- getState ;;
  match node s with
  | Directory files =>
      match Map_get files (fileName cacheKey) with
      | None => ret None
      | Some file =>
          match content file with
          | Json data => ret (Some data)
          | Garbage =>
              tryCatch (unlinkSync (fileName cacheKey)) (ret tt) ;;; ret None
          end
      end
  | _ => ret None
  end.

(** [writeFileSync] creates the file or replaces its content. *)
Definition setDiskCache (cacheKey : string) (entry : CachedResponse) (now : Z) : M unit :=
  fun s =>
    match node s with
    | Directory files =>
        Returns tt
          (withNode s
             (Directory (Map_set files (fileName cacheKey)
                           {| content := Json entry; mtime := now |})))
    | RegularFile _ => Throws "ENOTDIR: not a directory, open" s
    | Absent => Throws "ENOENT: no such file or directory, open" s
    end.

Definition delete (cacheKey : string) : M unit :=
  s <- getState ;;
  if isMemory s then putState (withMemory s (Map_delete (memoryCache s) cacheKey))
  else
    match node s with
    | Directory files =>
        if Map_has files (fileName cacheKey) then unlinkSync (fileName cacheKey) else ret tt
    | _ => ret tt
    end.

(** [require("node:fs")].  The source is an ES module (it opens with
    [import] declarations), where the identifier [require] is not bound:
    evaluating it throws a ReferenceError. *)
Definition require (id : string) : M unit :=
  throw "ReferenceError: require is not defined".

(** The names and modification times of the [.json] files of a directory,
    as [readdirSync] and [statSync] give them; [readdirSync] throws on a path
    that is no directory. *)
Definition readJsonFiles (n : Node) : list (string * Z) :=
  match n with
  | Directory files =>
      map (fun f => (fst f, mtime (snd f)))
        (filter (fun f => endsWith ".json" (fst f)) files)
  | _ => []
  end.

(** The listing is made inside [try], after [require]: an error of either
    is caught and the result is the empty array. *)
Definition getDiskCacheFiles (s : State) : list (string * Z) :=
  match node s with
  | Absent => []
  | existing =>
      match require "node:fs" s with
      | Returns _ _ => readJsonFiles existing
      | Throws _ _ => []
      end
  end.

Definition enforceDiskCacheLimit : M unit :=
  s <- getState ;;
  let files := getDiskCacheFiles s in
  if Z.of_nat (List.length files) <=? maxSize (storage (config s)) then ret tt
  else
    let sortedFiles := toSortedBy (fun a b => 0 <? snd a - snd b) files in
    let filesToDelete :=
      firstn (Z.to_nat (Z.of_nat (List.length files) - maxSize (storage (config s))))
        sortedFiles in
    forEach filesToDelete (fun file => tryCatch (unlinkSync (fst file)) (ret tt)).

Definition evictOldest : M unit :=
  s <- getState ;;
  if isMemory s then
    match Map_keys (memoryCache s) with
    | oldestKey :: _ =>
        if String.eqb oldestKey "" then ret tt
        else putState (withMemory s (Map_delete (memoryCache s) oldestKey))
    | [] => ret tt
    end
  else enforceDiskCacheLimit.

(** The loop of [getAllDiskCache] over the listed files. *)
Fixpoint collectDiskCache (files : list (string * Z)) (cache : list CachedResponse)
  : M (list CachedResponse) :=
  match files with
  | [] => ret cache
  | file :: rest =>
      cached <- getDiskCache (replaceFirst ".json" "" (fst file)) ;;
      match cached with
      | Some c => collectDiskCache rest (cache ++ [c])%list
      | None => collectDiskCache rest cache
      end
  end.

Definition getAllDiskCache : M (list CachedResponse) :=
  s <- getState ;;
  collectDiskCache (getDiskCacheFiles s) [].

Definition get (cacheKey : string) (now : Z) : M (option CachedResponse) :=
  s <- getState ;;
  if negb (enabled (config s)) then ret None
  else
    cached <- (if isMemory s then ret (Map_get (memoryCache s) cacheKey)
               else getDiskCache cacheKey) ;;
    match cached with
    | None => ret None
    | Some cached =>
        if now - timestamp cached >? ttl cached * 1000
        then delete cacheKey ;;; ret None
        else
          let cached :=
            {| response := response cached; usage := usage cached; cost := cost cached;
               timestamp := timestamp cached; ttl := ttl cached;
               hitCount := hitCount cached + 1 |} in
          s <- getState ;;
          (if isMemory s
           then putState (withMemory s (Map_set (memoryCache s) cacheKey cached))
           else setDiskCache cacheKey cached now) ;;;
          ret (Some cached)
    end.

Definition clear : M unit :=
  s <- getState ;;
  if isMemory s then putState (withMemory s [])
  else
    match node s with
    | Absent => ret tt
    | Directory _ => throw "EISDIR: illegal operation on a directory, read"
    | RegularFile text =>
        let files := filter (fun line => negb (String.eqb line "")) (splitLines text) in
        forEach files (fun file => tryCatch (unlinkSync file) (ret tt))
    end.

Record Stats := {
  size : Z;
  totalHits : Z;
  totalCostSaved : number;
  averageHitRate : number;
}.

(** The entries that [getStats] counts: [const cache = ...]. *)
Definition allEntries : M (list CachedResponse) :=
  s <- getState ;;
  if isMemory s then ret (Map_values (memoryCache s)) else getAllDiskCache.

Definition getStats : M Stats :=
  cache <- allEntries ;;
  let totalHits := fold_left (fun sum item => sum + hitCount item) cache 0 in
  let totalCostSaved :=
    fold_left (fun sum item => (sum + cost item * JS.of_Z (hitCount item))%float) cache
      0%float in
  let length := Z.of_nat (List.length cache) in
  let averageHitRate :=
    if 0 <? length then (JS.of_Z totalHits / JS.of_Z length)%float else 0%float in
  ret {| size := length; totalHits := totalHits; totalCostSaved := totalCostSaved;
         averageHitRate := averageHitRate |}.

Section Hashing.

(** [createHash(algorithm)] of node:crypto followed by [update(data)] and
    [digest("hex")]; an algorithm that the runtime does not know makes
    [createHash] throw. *)
Variable createHash : string -> option (string -> string).

(** The text of a number in a template literal. *)
Variable numberToString : number -> string.

Record KeyParams := {
  prompt : string;
  key_temperature : option number;
  key_maxTokens : option number;
}.

Definition generateCacheKey (params : KeyParams) : M string :=
  s <- getState ;;
  let keyString := prompt params in
  let keyString :=
    match key_temperature params with
    | Some t =>
        if includeTemperature (hashing (config s))
        then (keyString ++ "|temp:" ++ numberToString t)%string
        else keyString
    | None => keyString
    end in
  let keyString :=
    match key_maxTokens params with
    | Some n =>
        if includeMaxTokens (hashing (config s))
        then (keyString ++ "|max:" ++ numberToString n)%string
        else keyString
    | None => keyString
    end in
  match createHash (algorithm (hashing (config s))) with
  | Some digest => ret (digest keyString)
  | None => throw "Error: Digest method not supported"
  end.

Record SetParams := {
  key : string;
  set_response : string;
  set_usage : NormalizedUsage;
  set_cost : number;
  set_ttl : option Z;
  temperature : option number;
  maxTokens : option number;
}.

Definition set (params : SetParams) (now : Z) : M unit :=
  s <- getState ;;
  if negb (enabled (config s)) then ret tt
  else
    cacheKey <- generateCacheKey
                  {| prompt := key params; key_temperature := temperature params;
                     key_maxTokens := maxTokens params |} ;;
    let ttl :=
      match set_ttl params with
      | Some t => if t =? 0 then default (ttl_config (config s)) else t
      | None => default (ttl_config (config s))
      end in
    let cachedResponse :=
      {| response := set_response params; usage := set_usage params;
         cost := set_cost params; timestamp := now; ttl := ttl; hitCount := 0 |} in
    if isMemory s then
      (if Map_size (memoryCache s) >=? maxSize (storage (config s))
       then evictOldest else ret tt) ;;;
      s <- getState ;;
      putState (withMemory s (Map_set (memoryCache s) cacheKey cachedResponse))
    else
      setDiskCache cacheKey cachedResponse now ;;;
      enforceDiskCacheLimit.

End Hashing.

End ResponseCache.

(* ------------------------------------------------------------------ *)
(** * UsageTracker: the daily files

    [saveRecord] and [loadRecords] keep one JSON file for each day in the
    storage directory, which the constructor creates.  The state of a
    tracker is its configuration and the files of that directory, by name.

    [JSON.stringify] writes the time stamp of a record as its ISO text and
    [JSON.parse] does not turn it back into a [Date]: a record that was read
    from a file is a [ParsedRecord], whose [timestamp] is that text.
    [new Date(text)] gives the time value back.  A file that parses holds an
    array of such records, and the cost of a record is a finite number (JSON
    has no text for another one).

    The names of the files are UTC dates; the periods are those of the
    local zone of the process, which the methods that use them take as a
    parameter. *)

Module UsageFiles.

Import UsageTracker.
Local Open Scope Z_scope.

Fixpoint zeros (n : nat) : string :=
  match n with
  | O => ""
  | S k => "0" ++ zeros k
  end.

(** [s.padStart(n, "0")] *)
Definition padStart (n : nat) (s : string) : string :=
  zeros (n - String.length s) ++ s.

(** [date.toISOString().split("T")[0]]: the year has four digits, or a
    sign and six digits when it is outside 0..9999. *)
Definition isoDate (t : Date.Date) : string :=
  let y := Date.getFullYear t in
  let year :=
    if (0 <=? y) && (y <=? 9999) then padStart 4 (String_of_Z y)
    else (if y <? 0 then "-" else "+") ++ padStart 6 (String_of_Z (Z.abs y)) in
  year ++ "-" ++ padStart2 (String_of_Z (Date.getMonth t + 1))
       ++ "-" ++ padStart2 (String_of_Z (Date.getDate t)).

(** [`${date}.json`], the name of the file in the storage directory. *)
Definition fileOf (t : Date.Date) : string := isoDate t ++ ".json".

Inductive ParsedRecord := Parsed (written : UsageRecord).

(** The record as it was written. *)
Definition written (r : ParsedRecord) : UsageRecord :=
  match r with Parsed w => w end.

(** [new Date(record.timestamp)] *)
Definition recordDate (r : ParsedRecord) : Date.Date := timestamp (written r).

Inductive FileContent :=
| Json (records : list ParsedRecord)
| Garbage.

Record Tracker := {
  enabled : bool;
  aggregation_enabled : bool;
  files : Map FileContent;
}.

Definition withFiles (this : Tracker) (fs : Map FileContent) : Tracker :=
  {| enabled := enabled this; aggregation_enabled := aggregation_enabled this;
     files := fs |}.

(** A file that does not parse counts as empty ("File corrupted, start
    fresh"). *)
Definition saveRecord (this : Tracker) (record : UsageRecord) : Tracker :=
  let filePath := fileOf (timestamp record) in
  let records :=
    match Map_get (files this) filePath with
    | Some (Json rs) => rs
    | Some Garbage => []
    | None => []
    end in
  let records := (records ++ [Parsed record])%list in
  withFiles this (Map_set (files this) filePath (Json records)).

(** The body is a comment. *)
Definition updateAggregations (this : Tracker) (_record : UsageRecord) : Tracker := this.

(** [x || 0] for a count. *)
Definition orZero (x : option Z) : Z :=
  match x with Some v => v | None => 0 end.

Section Recording.

(** utils/usage-format.ts is not among the sources: the type of a price
    list and the estimate of the cost of a usage under it. *)
Variable ModelCostConfig : Type.
Variable estimateUsageCost : ResponseCache.NormalizedUsage -> ModelCostConfig -> option number.

Record RecordParams := {
  param_agentId : string;
  param_sessionId : string;
  param_provider : string;
  param_model : string;
  param_usage : ResponseCache.NormalizedUsage;
  param_cost : option ModelCostConfig;
  param_metadata : option Metadata;
}.

(** The record that [recordUsage] builds; [uuid] is the result of
    [randomUUID()] and [now] the one of [new Date()]. *)
Definition newRecord (params : RecordParams) (uuid : string) (now : Date.Date)
  : UsageRecord :=
  let cost :=
    match param_cost params with
    | Some c => estimateUsageCost (param_usage params) c
    | None => Some 0%float
    end in
  let u := param_usage params in
  {| record_id := uuid;
     agentId := param_agentId params;
     sessionId := param_sessionId params;
     provider := param_provider params;
     model := param_model params;
     usage :=
       {| input := orZero (ResponseCache.input u);
          output := orZero (ResponseCache.output u);
          cacheRead := Some (orZero (ResponseCache.cacheRead u));
          cacheWrite := Some (orZero (ResponseCache.cacheWrite u));
          total :=
            if orZero (ResponseCache.total u) =? 0
            then orZero (ResponseCache.input u) + orZero (ResponseCache.output u)
            else orZero (ResponseCache.total u) |};
     cost :=
       match cost with
       | Some c => if truthy c then c else 0%float
       | None => 0%float
       end;
     timestamp := now;
     metadata :=
       Some match param_metadata params with
            | Some m => m
            | None => {| meta_taskType := None; duration := None;
                         success := true; error := None |}
            end |}.

Definition recordUsage (this : Tracker) (params : RecordParams) (uuid : string)
    (now : Date.Date) : Tracker :=
  if negb (enabled this) then this
  else
    let record := newRecord params uuid now in
    let this := saveRecord this record in
    if aggregation_enabled this then updateAggregations this record else this.

End Recording.

(** [wanted && actual !== wanted] for an optional filter. *)
Definition differs (wanted : option string) (actual : string) : bool :=
  match wanted with
  | Some w => negb (String.eqb w "") && negb (String.eqb actual w)
  | None => false
  end.

(** The callback of [dayRecords.filter]. *)
Definition inWindow (agentId provider model : option string)
    (startDate endDate : Date.Date) (record : ParsedRecord) : bool :=
  if (recordDate record <? startDate) || (endDate <? recordDate record) then false
  else if differs agentId (UsageTracker.agentId (written record)) then false
  else if differs provider (UsageTracker.provider (written record)) then false
  else if differs model (UsageTracker.model (written record)) then false
  else true.

(** What one turn of the loop adds: the records of the day's file that
    pass the filter.  A missing file and one that does not parse add nothing. *)
Definition loadDay (this : Tracker) (keep : ParsedRecord -> bool)
    (currentDate : Date.Date) : list ParsedRecord :=
  match Map_get (files this) (fileOf currentDate) with
  | Some (Json dayRecords) => filter keep dayRecords
  | Some Garbage => []
  | None => []
  end.

(** [while (currentDate <= endDate)], at most [fuel] turns. *)
Fixpoint loadLoop (fuel : nat) (this : Tracker) (keep : ParsedRecord -> bool)
    (currentDate endDate : Date.Date) (records : list ParsedRecord)
  : list ParsedRecord :=
  match fuel with
  | O => records
  | S fuel' =>
      if currentDate <=? endDate then
        let records := (records ++ loadDay this keep currentDate)%list in
        let currentDate := Date.setDate currentDate (Date.getDate currentDate + 1) in
        loadLoop fuel' this keep currentDate endDate records
      else records
  end.

(** The turns that the loop takes: a day is added until the date is past
    the end. *)
Definition turns (startDate endDate : Date.Date) : nat :=
  Z.to_nat ((endDate - startDate) / Date.msPerDay + 1).

(** [startDate || new Date(0)] and [endDate || new Date()]: a [Date] is
    truthy. *)
Definition loadRecords (this : Tracker) (agentId provider model : option string)
    (startDate endDate : option Date.Date) (now : Date.Date) : list ParsedRecord :=
  let startDate := match startDate with Some d => d | None => 0 end in
  let endDate := match endDate with Some d => d | None => now end in
  loadLoop (turns startDate endDate) this
    (inWindow agentId provider model startDate endDate) startDate endDate [].

(** ** The period of a date

    [getPeriodStart] reads and sets the local fields of the date, while
    the files are named by the UTC date.  [offset] is what the local zone is
    ahead of UTC ([Date.toLocal]); the step of the loop of [loadRecords],
    [setDate(getDate() + 1)], is 24 hours whatever the offset. *)
Definition getPeriodStart (offset : Z) (p : Period) (date : Date.Date) : Date.Date :=
  let start := date in
  match p with
  | day => Date.localSet offset Date.startOfDay start
  | week =>
      let dayOfWeek := Date.localGet offset Date.getDay start in
      let start :=
        Date.localSet offset (fun d => Date.setDate d (Date.getDate d - dayOfWeek)) start in
      Date.localSet offset Date.startOfDay start
  | month =>
      let start := Date.localSet offset (fun d => Date.setDate d 1) start in
      Date.localSet offset Date.startOfDay start
  end.

(** What [record.timestamp] is at run time: a [Date] in a record that
    [recordUsage] built, the ISO text of the time value in a record that
    [JSON.parse] returned. *)
Inductive Timestamp :=
| DateObject (time : Date.Date)
| IsoText (time : Date.Date).

(** [new Date(value)] copies a [Date] and parses a text. *)
Definition newDate (value : Timestamp) : Date.Date :=
  match value with
  | DateObject time => time
  | IsoText time => time
  end.

(** [date.name()] for a getter of [Date.prototype].  A string has no
    property of such a name: the member is [undefined] and the call throws. *)
Definition callGetter (offset : Z) (name : string) (getter : Date.Date -> Z)
    (date : Timestamp) : result Z :=
  match date with
  | DateObject time => Ok (Date.localGet offset getter time)
  | IsoText _ => Throw ("TypeError: date." ++ name ++ " is not a function")
  end.

(** [getPeriodKey] on the value that it is given for [date]. *)
Definition getPeriodKey (offset : Z) (date : Timestamp) (p : Period) : result string :=
  JS.bind (callGetter offset "getFullYear" Date.getFullYear date) (fun year =>
  JS.bind (callGetter offset "getMonth" Date.getMonth date) (fun monthIndex =>
  let month := padStart2 (String_of_Z (monthIndex + 1)) in
  JS.bind (callGetter offset "getDate" Date.getDate date) (fun dayOfMonth =>
  let day := padStart2 (String_of_Z dayOfMonth) in
  match p with
  | UsageTracker.day => Ok (String_of_Z year ++ "-" ++ month ++ "-" ++ day)
  | week =>
      let weekStart := newDate date in
      let dayOfWeek := Date.localGet offset Date.getDay weekStart in
      let weekStart :=
        Date.localSet offset (fun d => Date.setDate d (Date.getDate d - dayOfWeek))
          weekStart in
      let weekYear := Date.localGet offset Date.getFullYear weekStart in
      let weekMonth :=
        padStart2 (String_of_Z (Date.localGet offset Date.getMonth weekStart + 1)) in
      let weekDay := padStart2 (String_of_Z (Date.localGet offset Date.getDate weekStart)) in
      Ok (String_of_Z weekYear ++ "-" ++ weekMonth ++ "-" ++ weekDay ++ " (Week)")
  | month => Ok (String_of_Z year ++ "-" ++ month)
  end))).

(** A record as [aggregateRecords] receives it: one that was built with a
    [Date], or one that was read from a file. *)
Inductive RuntimeRecord :=
| Built (record : UsageRecord)
| Read (record : ParsedRecord).

Definition timestampOf (record : RuntimeRecord) : Timestamp :=
  match record with
  | Built r => DateObject (timestamp r)
  | Read r => IsoText (recordDate r)
  end.

(** The other fields of the record. *)
Definition fieldsOf (record : RuntimeRecord) : UsageRecord :=
  match record with
  | Built r => r
  | Read r => written r
  end.

(** The body of [records.forEach] in [aggregateRecords] after its first
    line: what [UsageTracker.addRecord] does with the key of the period. *)
Definition addRecordAt (periodKey : string) (aggregates : Map UsageAggregate)
    (record : UsageRecord) : Map UsageAggregate :=
  let aggregate :=
    match Map_get aggregates periodKey with
    | Some a => a
    | None => emptyAggregate periodKey
    end in
  let byModel :=
    match Map_get (breakdown aggregate) (provider record) with
    | Some b => b
    | None => []
    end in
  let leaf :=
    match Map_get byModel (model record) with
    | Some l => l
    | None => emptyLeaf
    end in
  let leaf :=
    {| leaf_cost := (leaf_cost leaf + cost record)%float;
       leaf_tokens := leaf_tokens leaf + total (usage record);
       leaf_requests := leaf_requests leaf + 1 |} in
  let aggregate :=
    {| period := period aggregate;
       totalCost := (totalCost aggregate + cost record)%float;
       totalTokens := totalTokens aggregate + total (usage record);
       requestCount := requestCount aggregate + 1;
       averageCostPerRequest := averageCostPerRequest aggregate;
       breakdown :=
         Map_set (breakdown aggregate) (provider record)
           (Map_set byModel (model record) leaf) |} in
  Map_set aggregates periodKey aggregate.

(** One turn of [records.forEach]: an exception of the callback ends the
    loop and leaves [aggregateRecords]. *)
Definition addRecord (offset : Z) (p : Period) (aggregates : result (Map UsageAggregate))
    (record : RuntimeRecord) : result (Map UsageAggregate) :=
  JS.bind aggregates (fun aggregates =>
  JS.bind (getPeriodKey offset (timestampOf record) p) (fun periodKey =>
  Ok (addRecordAt periodKey aggregates (fieldsOf record)))).

Definition aggregateRecords (offset : Z) (records : list RuntimeRecord) (p : Period)
  : result (list UsageAggregate) :=
  JS.bind (fold_left (addRecord offset p) records (Ok [])) (fun aggregates =>
  let aggregates := map (fun kv => (fst kv, withAverage (snd kv))) aggregates in
  Ok (toSorted (fun a b => localeCompare (period b) (period a)) (Map_values aggregates))).

(** [getUsageHistory] hands the records that [loadRecords] read from the
    files to [aggregateRecords]. *)
Definition getUsageHistory (offset : Z) (this : Tracker)
    (agentId provider model : option string)
    (p : Period) (startDate endDate : option Date.Date) (now : Date.Date)
  : result (list UsageAggregate) :=
  let endDate := match endDate with Some d => d | None => now end in
  let startDate :=
    match startDate with Some d => d | None => getPeriodStart offset p endDate end in
  let records :=
    loadRecords this agentId provider model (Some startDate) (Some endDate) now in
  aggregateRecords offset (map Read records) p.

(** [checkBudget]: the records of the window of the period, then the
    status that [UsageTracker.checkBudget] computes from them. *)
Definition checkBudget (offset : Z) (toFixed : number -> Z -> string) (this : Tracker)
    (agentId : option string) (p : Period) (budget : option number)
    (now : Date.Date) : BudgetStatus :=
  let endDate := now in
  let startDate := getPeriodStart offset p endDate in
  let records := loadRecords this agentId None None (Some startDate) (Some endDate) now in
  UsageTracker.checkBudget toFixed (map written records) p budget.

(** [s.split(sep)] for a separator of one character. *)
Fixpoint split (sep : ascii) (s : string) : list string :=
  match s with
  | EmptyString => [EmptyString]
  | String c s' =>
      if Ascii.eqb c sep then EmptyString :: split sep s'
      else match split sep s' with
           | part :: rest => String c part :: rest
           | [] => [String c EmptyString]
           end
  end.

(** [array.slice(0, n)]: a negative [n] counts from the end. *)
Definition slice0 {A} (n : Z) (l : list A) : list A :=
  if 0 <=? n then firstn (Z.to_nat n) l
  else firstn (Z.to_nat (Z.of_nat (List.length l) + n)) l.

Record ModelStats := { stats_cost : number; stats_requests : Z }.

Record TopModel := {
  top_provider : option string;
  top_model : option string;
  top_cost : number;
  top_requests : Z;
}.

(** The callback of [records.forEach] in [getTopCostModels]. *)
Definition addStats (modelStats : Map ModelStats) (record : ParsedRecord)
  : Map ModelStats :=
  let key := UsageTracker.provider (written record) ++ ":"
             ++ UsageTracker.model (written record) in
  let existing :=
    match Map_get modelStats key with
    | Some s => s
    | None => {| stats_cost := 0%float; stats_requests := 0 |}
    end in
  Map_set modelStats key
    {| stats_cost := (stats_cost existing + cost (written record))%float;
       stats_requests := stats_requests existing + 1 |}.

(** [const [provider, model] = key.split(":")] *)
Definition toTopModel (entry : string * ModelStats) : TopModel :=
  let parts := split ":" (fst entry) in
  {| top_provider := nth_error parts 0; top_model := nth_error parts 1;
     top_cost := stats_cost (snd entry); top_requests := stats_requests (snd entry) |}.

(** The ranking of the records that [loadRecords] returned. *)
Definition rankModels (records : list ParsedRecord) (limit : option Z) : list TopModel :=
  let modelStats := fold_left addStats records [] in
  slice0 (match limit with Some n => if n =? 0 then 10 else n | None => 10 end)
    (toSorted (fun a b => (top_cost b - top_cost a)%float) (map toTopModel modelStats)).

Definition getTopCostModels (offset : Z) (this : Tracker) (p : Period) (limit : option Z)
    (now : Date.Date) : list TopModel :=
  let endDate := now in
  let startDate := getPeriodStart offset p endDate in
  let records := loadRecords this None None None (Some startDate) (Some endDate) now in
  rankModels records limit.

End UsageFiles.

(* ------------------------------------------------------------------ *)
(** * UsageDashboard (usage/dashboard.ts)

    The metrics of the dashboard; the text of the report is not modelled.
    A call reads the clock several times: [clock n] is the [n]-th reading.
    [offset] is the offset of the local zone, as in [UsageFiles]. *)

Module UsageDashboard.

Import UsageTracker.
Local Open Scope float_scope.

Record PeriodMetrics := {
  metrics_totalCost : number;
  metrics_totalTokens : Z;
  metrics_requestCount : Z;
  metrics_averageCostPerRequest : number;
  topProvider : string;
  topModel : string;
}.

Definition noMetrics : PeriodMetrics :=
  {| metrics_totalCost := 0; metrics_totalTokens := 0; metrics_requestCount := 0;
     metrics_averageCostPerRequest := 0; topProvider := ""; topModel := "" |}.

(** [topProvider], [topModel] and [maxCost] of the two loops. *)
Record Top := { top_provider : string; top_model : string; maxCost : number }.

(** The inner loop, over the models of one provider. *)
Definition topOfModels (provider : string) (models : Map Leaf) (top : Top) : Top :=
  fold_left
    (fun top entry =>
       if maxCost top <? leaf_cost (snd entry)
       then {| top_provider := provider; top_model := fst entry;
               maxCost := leaf_cost (snd entry) |}
       else top)
    models top.

Definition topOf (breakdown : Map (Map Leaf)) : Top :=
  fold_left (fun top entry => topOfModels (fst entry) (snd entry) top) breakdown
    {| top_provider := ""; top_model := ""; maxCost := 0 |}.

(** [getPeriodMetrics] from the history that [getUsageHistory] returned. *)
Definition periodMetricsOf (usageHistory : list UsageAggregate) : PeriodMetrics :=
  match usageHistory with
  | [] => noMetrics
  | latest :: _ =>
      let top := topOf (breakdown latest) in
      {| metrics_totalCost := totalCost latest;
         metrics_totalTokens := totalTokens latest;
         metrics_requestCount := requestCount latest;
         metrics_averageCostPerRequest := averageCostPerRequest latest;
         topProvider := top_provider top;
         topModel := top_model top |}
  end.

Definition getPeriodMetrics (offset : Z) (tracker : UsageFiles.Tracker) (p : Period)
    (agentId : option string) (now : Date.Date) : result PeriodMetrics :=
  JS.bind (UsageFiles.getUsageHistory offset tracker agentId None None p None None now)
    (fun usageHistory => Ok (periodMetricsOf usageHistory)).

Inductive Trend := increasing | decreasing | stable.

Record Trends := {
  costTrend : Trend;
  usageTrend : Trend;
  dailyAverage : number;
  projectedMonthly : number;
}.

(** [array.length] as a number. *)
Definition lengthOf {A} (l : list A) : number := JS.of_Z (Z.of_nat (List.length l)).

(** The comparison of the two averages, with the threshold of ten percent. *)
Definition trendOf (recentAvg earlierAvg : number) : Trend :=
  if earlierAvg * (1 + 0.1) <? recentAvg then increasing
  else if recentAvg <? earlierAvg * (1 - 0.1) then decreasing
  else stable.

Definition sumCost (days : list UsageAggregate) : number :=
  fold_left (fun sum day => sum + totalCost day) days 0.

Definition sumTokens (days : list UsageAggregate) : number :=
  JS.of_Z (fold_left (fun sum day => (sum + totalTokens day)%Z) days 0%Z).

(** [calculateTrends] from the daily history. *)
Definition trendsOf (dailyData : list UsageAggregate) : Trends :=
  if (List.length dailyData <? 2)%nat then
    {| costTrend := stable; usageTrend := stable; dailyAverage := 0;
       projectedMonthly := 0 |}
  else
    let recentDays := firstn 3 dailyData in
    let earlierDays := skipn 3 dailyData in
    let recentAvgCost := sumCost recentDays / lengthOf recentDays in
    let earlierAvgCost := sumCost earlierDays / lengthOf earlierDays in
    let recentAvgTokens := sumTokens recentDays / lengthOf recentDays in
    let earlierAvgTokens := sumTokens earlierDays / lengthOf earlierDays in
    let dailyAverage := sumCost dailyData / lengthOf dailyData in
    {| costTrend := trendOf recentAvgCost earlierAvgCost;
       usageTrend := trendOf recentAvgTokens earlierAvgTokens;
       dailyAverage := dailyAverage;
       projectedMonthly := dailyAverage * 30 |}.

(** [endDate] is the first reading of the clock and [startDate] the second,
    moved six days back. *)
Definition calculateTrends (offset : Z) (tracker : UsageFiles.Tracker)
    (agentId : option string) (first second : Date.Date) : result Trends :=
  let endDate := first in
  let startDate :=
    Date.localSet offset (fun d => Date.setDate d (Date.getDate d - 6)%Z) second in
  JS.bind
    (UsageFiles.getUsageHistory offset tracker agentId None None day (Some startDate)
       (Some endDate) endDate)
    (fun dailyData => Ok (trendsOf dailyData)).

Record RankedModel := {
  ranked : UsageFiles.TopModel;
  averageCost : number;
}.

(** [currentPeriod.daily] is [current_daily] and [budgetStatus.daily] is
    [budget_daily]. *)
Record DashboardMetrics := {
  current_daily : PeriodMetrics;
  current_weekly : PeriodMetrics;
  current_monthly : PeriodMetrics;
  topModels : list RankedModel;
  budget_daily : BudgetStatus;
  budget_weekly : BudgetStatus;
  budget_monthly : BudgetStatus;
  trends : Trends;
}.

(** [costOptimization?.budgetLimits] of the configuration. *)
Definition budgetLimitsOf (config : OpenClawConfig) : option BudgetLimits :=
  match BudgetEnforcer.costOptimizationOf (Some config) with
  | Some co => budgetLimits co
  | None => None
  end.

Definition limitOf (config : OpenClawConfig) (limit : BudgetLimits -> option number)
  : option number :=
  match budgetLimitsOf config with
  | Some bl => limit bl
  | None => None
  end.

Section Metrics.

Variable toFixed : number -> Z -> string.

Definition getMetrics (offset : Z) (config : OpenClawConfig)
    (tracker : UsageFiles.Tracker) (agentId : option string) (clock : nat -> Date.Date)
  : result DashboardMetrics :=
  JS.bind (getPeriodMetrics offset tracker day agentId (clock 0%nat)) (fun dailyMetrics =>
  JS.bind (getPeriodMetrics offset tracker week agentId (clock 1%nat)) (fun weeklyMetrics =>
  JS.bind (getPeriodMetrics offset tracker month agentId (clock 2%nat))
    (fun monthlyMetrics =>
  let topModels :=
    UsageFiles.getTopCostModels offset tracker month (Some 10%Z) (clock 3%nat) in
  let dailyBudget :=
    UsageFiles.checkBudget offset toFixed tracker agentId day (limitOf config daily)
      (clock 4%nat) in
  let weeklyBudget :=
    UsageFiles.checkBudget offset toFixed tracker agentId week (limitOf config weekly)
      (clock 5%nat) in
  let monthlyBudget :=
    UsageFiles.checkBudget offset toFixed tracker agentId month (limitOf config monthly)
      (clock 6%nat) in
  JS.bind (calculateTrends offset tracker agentId (clock 7%nat) (clock 8%nat)) (fun trends =>
  Ok {| current_daily := dailyMetrics; current_weekly := weeklyMetrics;
        current_monthly := monthlyMetrics;
        topModels :=
          map (fun model =>
                 {| ranked := model;
                    averageCost :=
                      if (0 <? UsageFiles.top_requests model)%Z
                      then UsageFiles.top_cost model
                           / JS.of_Z (UsageFiles.top_requests model)
                      else 0 |})
              topModels;
        budget_daily := dailyBudget; budget_weekly := weeklyBudget;
        budget_monthly := monthlyBudget; trends := trends |})))).

End Metrics.

End UsageDashboard.

(* ------------------------------------------------------------------ *)
(** * CostOptimizationManager (ai/cost-optimization-manager.ts)

    The manager holds the components that its constructor created; a
    component that was not created is [None].  The selector holds nothing but
    the configuration, so that its presence is a flag.  [defaultModel] is the
    value of [config.agents?.defaults?.model], and [offset] the offset of the
    local zone, as in [UsageFiles]. *)

Module CostOptimizationManager.

Inductive AgentModelConfig :=
| ModelName (name : string)
| ModelObject (primary : option string).

Record Manager := {
  config : OpenClawConfig;
  defaultModel : option AgentModelConfig;
  tracker : option UsageFiles.Tracker;
  budgetEnforcer : option BudgetEnforcer.BudgetEnforcer;
  responseCache : option ResponseCache.State;
  modelSelector : bool;
}.

Definition withCache (this : Manager) (cache : ResponseCache.State) : Manager :=
  {| config := config this; defaultModel := defaultModel this; tracker := tracker this;
     budgetEnforcer := budgetEnforcer this; responseCache := Some cache;
     modelSelector := modelSelector this |}.

Definition withTracker (this : Manager) (t : UsageFiles.Tracker) : Manager :=
  {| config := config this; defaultModel := defaultModel this; tracker := Some t;
     budgetEnforcer := budgetEnforcer this; responseCache := responseCache this;
     modelSelector := modelSelector this |}.

(** [s.includes(c)] for a pattern of one character. *)
Fixpoint includes (c : ascii) (s : string) : bool :=
  match s with
  | EmptyString => false
  | String c' s' => Ascii.eqb c' c || includes c s'
  end.

(** ["provider/model"]: [const [provider, model] = s.includes("/") ?
    s.split("/", 2) : ["openai", s]].  A text that includes the separator
    splits into two parts at least, so that both names are defined. *)
Definition parseModel (s : string) : ModelRef :=
  if includes "/" s then
    let parts := firstn 2 (UsageFiles.split "/" s) in
    {| provider := nth 0 parts ""; model := nth 1 parts "" |}
  else {| provider := "openai"; model := s |}.

Definition getDefaultModel (this : Manager) : ModelRef :=
  match defaultModel this with
  | Some (ModelName modelStr) => parseModel modelStr
  | Some (ModelObject (Some primary)) =>
      if String.eqb primary "" then {| provider := "openai"; model := "gpt-4o-mini" |}
      else parseModel primary
  | _ => {| provider := "openai"; model := "gpt-4o-mini" |}
  end.

Definition selectOptimalModel (this : Manager)
    (params : ModelSelector.ModelSelectionCriteria) : result ModelRef :=
  if negb (modelSelector this) then Ok (getDefaultModel this)
  else ModelSelector.selectOptimalModel (config this) params.

Definition shouldUpgradeModel (this : Manager) (params : ModelSelector.UpgradeParams)
  : ModelSelector.UpgradeDecision :=
  if negb (modelSelector this) then ModelSelector.noUpgrade
  else ModelSelector.shouldUpgradeModel (config this) params.









(** What a method of the manager leaves: a value or an error, and the
    manager afterwards. *)
Inductive Outcome (A : Type) : Type :=
| Returned (value : A) (after : Manager)
| Thrown (error : string) (after : Manager).
Arguments Returned {A} value after.
Arguments Thrown {A} error after.

(** A method of the cache, run on the cache of the manager. *)
Definition onCache {A} (this : Manager) (absent : A) (m : ResponseCache.M A) : Outcome A :=
  match responseCache this with
  | None => Returned absent this
  | Some cache =>
      match m cache with
      | ResponseCache.Returns a cache' => Returned a (withCache this cache')
      | ResponseCache.Throws e cache' => Thrown e (withCache this cache')
      end
  end.

Section Runtime.

(** node:crypto and the text of a number, as for the cache. *)
Variable createHash : string -> option (string -> string).
Variable numberToString : number -> string.

(** utils/usage-format.ts is not among the sources: the price list of a
    model, its prices for a million tokens, and the estimate of the tracker. *)
Variable ModelCostConfig : Type.
Variable resolveModelCostConfig : string -> string -> OpenClawConfig -> option ModelCostConfig.
Variable price_input price_output : ModelCostConfig -> number.
Variable estimateUsageCost : ResponseCache.NormalizedUsage -> ModelCostConfig -> option number.

Record UsageParams := {
  usage_agentId : string;
  usage_sessionId : string;
  usage_provider : string;
  usage_model : string;
  usage_usage : ResponseCache.NormalizedUsage;
  usage_taskType : option string;
  usage_duration : option Z;
  usage_success : option bool;
  usage_error : option string;
}.

Definition trackUsage (this : Manager) (params : UsageParams) (uuid : string)
    (now : Date.Date) : Manager :=
  match tracker this with
  | None => this
  | Some t =>
      let costConfig :=
        resolveModelCostConfig (usage_provider params) (usage_model params) (config this) in
      withTracker this
        (UsageFiles.recordUsage ModelCostConfig estimateUsageCost t
           {| UsageFiles.param_agentId := usage_agentId params;
              UsageFiles.param_sessionId := usage_sessionId params;
              UsageFiles.param_provider := usage_provider params;
              UsageFiles.param_model := usage_model params;
              UsageFiles.param_usage := usage_usage params;
              UsageFiles.param_cost := costConfig;
              UsageFiles.param_metadata :=
                Some {| UsageTracker.meta_taskType := usage_taskType params;
                        UsageTracker.duration := usage_duration params;
                        UsageTracker.success :=
                          match usage_success params with Some b => b | None => true end;
                        UsageTracker.error := usage_error params |} |}
           uuid now)
  end.

Record CachedView := {
  view_response : string;
  view_usage : ResponseCache.NormalizedUsage;
  view_cost : number;
}.

Record LookupParams := {
  lookup_prompt : string;
  lookup_provider : string;
  lookup_model : string;
  lookup_temperature : option number;
  lookup_maxTokens : option number;
}.

Definition getCachedResponse (this : Manager) (params : LookupParams) (now : Z)
  : Outcome (option CachedView) :=
  onCache this None
    (ResponseCache.bind
       (ResponseCache.generateCacheKey createHash numberToString
          {| ResponseCache.prompt := lookup_prompt params;
             ResponseCache.key_temperature := lookup_temperature params;
             ResponseCache.key_maxTokens := lookup_maxTokens params |})
       (fun cacheKey =>
          ResponseCache.bind (ResponseCache.get cacheKey now)
            (fun cached =>
               ResponseCache.ret
                 (match cached with
                  | Some c =>
                      Some {| view_response := ResponseCache.response c;
                              view_usage := ResponseCache.usage c;
                              view_cost := ResponseCache.cost c |}
                  | None => None
                  end)))).

Record StoreParams := {
  store_prompt : string;
  store_response : string;
  store_provider : string;
  store_model : string;
  store_usage : ResponseCache.NormalizedUsage;
  store_temperature : option number;
  store_maxTokens : option number;
  customTtl : option Z;
}.

(** The cost of a usage under a price list, as [cacheResponse] computes it. *)
Definition costUnder (costConfig : option ModelCostConfig)
    (usage : ResponseCache.NormalizedUsage) : number :=
  match costConfig with
  | Some c =>
      (JS.of_Z (UsageFiles.orZero (ResponseCache.input usage)) * price_input c / 1000000
       + JS.of_Z (UsageFiles.orZero (ResponseCache.output usage)) * price_output c / 1000000)%float
  | None => 0%float
  end.

Definition cacheResponse (this : Manager) (params : StoreParams) (now : Z) : Outcome unit :=
  onCache this tt
    (let costConfig :=
       resolveModelCostConfig (store_provider params) (store_model params) (config this) in
     ResponseCache.bind
       (ResponseCache.generateCacheKey createHash numberToString
          {| ResponseCache.prompt := store_prompt params;
             ResponseCache.key_temperature := store_temperature params;
             ResponseCache.key_maxTokens := store_maxTokens params |})
       (fun cacheKey =>
          ResponseCache.set createHash numberToString
            {| ResponseCache.key := cacheKey;
               ResponseCache.set_response := store_response params;
               ResponseCache.set_usage := store_usage params;
               ResponseCache.set_cost := costUnder costConfig (store_usage params);
               ResponseCache.set_ttl := customTtl params;
               ResponseCache.temperature := None;
               ResponseCache.maxTokens := None |}
            now)).

End Runtime.

End CostOptimizationManager.

(* ================================================================== *)
(** * The vocabulary of the properties

    Predicates and measures in which the properties are stated, and the
    sample inputs at which they are evaluated. *)

Section SelectorTerms.

Import ModelSelector.
Local Open Scope float_scope.

Definition knownModel (modelId : string) : Prop :=
  In modelId (Map_keys modelProfiles).

Definition providerOf (ids : list string) : ModelProviderConfig :=
  {| provider_models := map (fun i => {| id := i |}) ids |}.

Definition configOf (ps : Map ModelProviderConfig) : OpenClawConfig :=
  {| models := Some {| providers := Some ps; costOptimization := None |} |}.

(** Every model of the registry, under its vendor. *)
Definition fullConfig : OpenClawConfig :=
  configOf
    [("anthropic", providerOf ["claude-3-5-sonnet-20241022"; "claude-3-5-haiku-20241022"]);
     ("openai", providerOf ["gpt-4o"; "gpt-4o-mini"; "gpt-4-turbo"; "gpt-3.5-turbo"])].

(** A configuration that lists a single model of the registry. *)
Definition gpt4oConfig : OpenClawConfig := configOf [("openai", providerOf ["gpt-4o"])].

(** A configuration without a [models] section. *)
Definition emptyConfig : OpenClawConfig := {| models := None |}.

Definition textCriteria (budget : option number) : ModelSelectionCriteria :=
  {| taskType := text; complexity := high; urgency := low; costSensitivity := low;
     budgetRemaining := budget; contextLength := None;
     requiresReasoning := None; requiresMultimodal := None |}.

Definition reasoningCriteria (context : option number) : ModelSelectionCriteria :=
  {| taskType := reasoning; complexity := medium; urgency := medium;
     costSensitivity := medium; budgetRemaining := None; contextLength := context;
     requiresReasoning := Some true; requiresMultimodal := None |}.

End SelectorTerms.

Section EnforcerTerms.

Import BudgetEnforcer.
Local Open Scope float_scope.

(** A configuration with a daily limit of one unit of currency and a
    threshold for "gpt-4o". *)
Definition strictConfig : OpenClawConfig :=
  {| models :=
       Some {| providers := None;
               costOptimization :=
                 Some {| budgetLimits :=
                           Some {| daily := Some 1; weekly := None; monthly := None |};
                         budgetControls :=
                           Some {| modelBudgets :=
                                     Some [("gpt-4o",
                                            {| dailyLimit := Some 1;
                                               costThreshold := Some 0.5 |})] |} |} |} |}.

End EnforcerTerms.

Section AggregationTerms.

Import UsageTracker.
Local Open Scope list_scope.

Definition sumZ (l : list Z) : Z := fold_right Z.add 0%Z l.

(** [numbers.reduce((sum, x) => sum + x, 0)]: the running binary64 sum. *)
Definition sumNumbers (l : list number) : number := fold_left PrimFloat.add l 0%float.

(** The leaves [breakdown[provider][model]] of an aggregate. *)
Definition leaves (a : UsageAggregate) : list Leaf :=
  flat_map (fun e : string * Map Leaf => Map_values (snd e)) (breakdown a).

(** [breakdown[provider][model]] *)
Definition leafAt (a : UsageAggregate) (prov mdl : string) : option Leaf :=
  match Map_get (breakdown a) prov with
  | Some byModel => Map_get byModel mdl
  | None => None
  end.

(** The records of a period bucket, and among records those of one model. *)
Definition bucket (p : Period) (records : list UsageRecord) (k : string) : list UsageRecord :=
  filter (fun r => String.eqb (getPeriodKey (timestamp r) p) k) records.

Definition ofModel (prov mdl : string) (records : list UsageRecord) : list UsageRecord :=
  filter (fun r => String.eqb (provider r) prov && String.eqb (model r) mdl) records.

Definition tokensOf (records : list UsageRecord) : Z :=
  sumZ (map (fun r => total (usage r)) records).

Definition costOf (records : list UsageRecord) : number :=
  sumNumbers (map cost records).

Definition sumMap {V} (g : V -> Z) (m : Map V) : Z := sumZ (map (fun e => g (snd e)) m).

Definition orElse {V} (d : V) (o : option V) : V :=
  match o with Some v => v | None => d end.

(** What an aggregate holds after the records [rs] when it is the one of
    period key [k]. *)
Record Good (p : Period) (rs : list UsageRecord) (k : string) (a : UsageAggregate) : Prop := {
  good_period : period a = k;
  good_count : requestCount a = Z.of_nat (List.length (bucket p rs k));
  good_tokens : totalTokens a = tokensOf (bucket p rs k);
  good_cost : totalCost a = costOf (bucket p rs k);
  good_leaf_requests : sumZ (map leaf_requests (leaves a)) = requestCount a;
  good_leaf_tokens : sumZ (map leaf_tokens (leaves a)) = totalTokens a;
  good_leaf : forall prov mdl,
    let leaf := orElse emptyLeaf (leafAt a prov mdl) in
    let mine := ofModel prov mdl (bucket p rs k) in
    leaf_cost leaf = costOf mine /\
    leaf_requests leaf = Z.of_nat (List.length mine) /\
    leaf_tokens leaf = tokensOf mine;
}.

(** The aggregate that [addRecord] writes back. *)
Definition updated (a : UsageAggregate) (r : UsageRecord) : UsageAggregate :=
  let byModel := orElse [] (Map_get (breakdown a) (provider r)) in
  let leaf := orElse emptyLeaf (Map_get byModel (model r)) in
  {| period := period a;
     totalCost := (totalCost a + cost r)%float;
     totalTokens := (totalTokens a + total (usage r))%Z;
     requestCount := (requestCount a + 1)%Z;
     averageCostPerRequest := averageCostPerRequest a;
     breakdown :=
       Map_set (breakdown a) (provider r)
         (Map_set byModel (model r)
            {| leaf_cost := (leaf_cost leaf + cost r)%float;
               leaf_tokens := (leaf_tokens leaf + total (usage r))%Z;
               leaf_requests := (leaf_requests leaf + 1)%Z |}) |}.

End AggregationTerms.

Section ConservationTerms.

Import UsageTracker.
Local Open Scope float_scope.
Local Open Scope list_scope.

Definition usageOf (tokens : Z) : Usage :=
  {| input := tokens; output := 0; cacheRead := None; cacheWrite := None; total := tokens |}.

Definition recordOf (m : string) (c : number) (tokens : Z) (t : Date.Date) : UsageRecord :=
  {| record_id := "id"; agentId := "agent"; sessionId := "session";
     provider := "p"; model := m; usage := usageOf tokens; cost := c;
     timestamp := t; metadata := None |}.

(** 2024-03-15T12:00:00Z *)
Definition noon : Date.Date := 1710504000000%Z.

Definition pennies : list UsageRecord :=
  [recordOf "a" 0.01 10 noon; recordOf "b" 0.02 20 noon; recordOf "a" 0.3 30 noon].

Definition penniesAggregate : UsageAggregate :=
  {| period := "2024-03"; totalCost := 0.32999999999999996; totalTokens := 60;
     requestCount := 3; averageCostPerRequest := (0.32999999999999996 / 3)%float;
     breakdown :=
       [("p", [("a", {| leaf_cost := 0.31; leaf_tokens := 40; leaf_requests := 2 |});
               ("b", {| leaf_cost := 0.02; leaf_tokens := 20; leaf_requests := 1 |})])] |}.

End ConservationTerms.

Section BudgetTerms.

Import UsageTracker.
Local Open Scope float_scope.
Local Open Scope list_scope.

(** [x.toFixed(digits)] for [NaN] and for a finite [x] below 10^21 in
    magnitude, as the language standard defines it: the integer [n] nearest
    to [x * 10^digits] (the larger one at a tie), printed with the point
    [digits] places from the right.  (Larger numbers are printed by the
    runtime in exponent notation, which is outside this function.) *)
Definition toFixedDecimal (x : number) (digits : Z) : string :=
  let scaled (m : positive) (e : Z) : Z :=
    let num := (Z.pos m * 10 ^ digits)%Z in
    if (0 <=? e)%Z then (num * 2 ^ e)%Z
    else ((2 * num + 2 ^ (- e)) / 2 ^ (1 - e))%Z in
  let render (negative : bool) (n : Z) : string :=
    let text := String_of_Z n in
    let pad := Nat.sub (Z.to_nat digits + 1) (String.length text) in
    let text := (String.concat "" (repeat "0" pad) ++ text)%string in
    let whole := Nat.sub (String.length text) (Z.to_nat digits) in
    ((if negative then "-" else "")
     ++ String.substring 0 whole text
     ++ (if (0 <? digits)%Z then "." ++ String.substring whole (Z.to_nat digits) text else ""))%string in
  match Prim2SF x with
  | S754_nan => "NaN"
  | S754_infinity s => if s then "-Infinity" else "Infinity"
  | S754_zero _ => render false 0%Z
  | S754_finite s m e => render s (scaled m e)
  end.

Definition spending (c : number) : list UsageRecord :=
  [{| record_id := "id"; agentId := "agent"; sessionId := "session";
      provider := "p"; model := "m";
      usage := {| input := 1; output := 1; cacheRead := None; cacheWrite := None; total := 2 |};
      cost := c; timestamp := 0%Z; metadata := None |}].

End BudgetTerms.

Section CacheTerms.

Import ResponseCache.
Local Open Scope Z_scope.
Local Open Scope list_scope.

(** The entry that the backing store holds under a cache key. *)
Definition stored (s : State) (k : string) (e : CachedResponse) : Prop :=
  if isMemory s then Map_get (memoryCache s) k = Some e
  else exists files f,
         node s = Directory files /\ Map_get files (fileName k) = Some f /\
         content f = Json e.

(** An entry that the backing store lists under a cache key. *)
Definition listed (s : State) (k : string) (e : CachedResponse) : Prop :=
  if isMemory s then In (k, e) (memoryCache s)
  else exists files f,
         node s = Directory files /\ In (fileName k, f) files /\ content f = Json e.

(** The entry after a successful read: [hitCount++]. *)
Definition hit (e : CachedResponse) : CachedResponse :=
  {| response := response e; usage := usage e; cost := cost e;
     timestamp := timestamp e; ttl := ttl e; hitCount := hitCount e + 1 |}.

(** A runtime whose [createHash] knows SHA-256. *)
Definition nodeCrypto (algorithm : string) : option (string -> string) :=
  if String.eqb algorithm "sha256" then Some Sha256.hex else None.

(** The text of a whole number (the samples print no other number). *)
Definition wholeNumber (x : number) : string :=
  match Prim2SF x with
  | S754_zero _ => "0"
  | S754_finite sign m e =>
      ((if sign then "-" else "")
       ++ String_of_Z (if (0 <=? e)%Z then (Z.pos m * 2 ^ e)%Z else (Z.pos m / 2 ^ (- e))%Z))%string
  | S754_infinity sign => if sign then "-Infinity" else "Infinity"
  | S754_nan => "NaN"
  end.

(** [new ResponseCache()] *)
Definition freshCache : State := new None (Some "/home/user") (fun _ => Absent).

(** [new ResponseCache({storage: {type: "disk", maxSize: 10}})] on a file
    system without the cache directory. *)
Definition freshDiskCache : State :=
  new (Some {| partial_enabled := None;
               partial_storage := Some {| storage_type := disk; path := None; maxSize := 10 |};
               partial_ttl := None; partial_hashing := None |})
      (Some "/home/user") (fun _ => Absent).

(** [{key: "k1", response: "R", usage: {input: 100, output: 50}, cost: 0.01}] *)
Definition k1 : SetParams :=
  {| key := "k1"; set_response := "R";
     set_usage := {| input := Some 100; output := Some 50; cacheRead := None;
                     cacheWrite := None; total := None |};
     set_cost := 0.01%float; set_ttl := None; temperature := None; maxTokens := None |}.

Definition k1Entry (hits : Z) : CachedResponse :=
  {| response := "R"; usage := set_usage k1; cost := 0.01%float;
     timestamp := 1000; ttl := 3600; hitCount := hits |}.

(** The memory cache after [set(k1)] at time 1000. *)
Definition afterSet : State := withMemory freshCache [(Sha256.hex "k1", k1Entry 0)].

(** The disk cache after [set(k1)] at time 1000. *)
Definition diskAfterSet : State :=
  withNode freshDiskCache
    (Directory [(fileName (Sha256.hex "k1"),
                 {| content := Json (k1Entry 0); mtime := 1000 |})]).

End CacheTerms.

Section UpgradeTerms.

Import ModelSelector.
Local Open Scope float_scope.

(** The score that [scoreModels] gives to a profile. *)
Definition scoreOf (criteria : ModelSelectionCriteria) (profile : ModelPerformanceProfile)
  : number :=
  let score := 0 + perf_quality (performance profile) * getQualityWeight criteria in
  let score := score + perf_speed (performance profile) * getSpeedWeight criteria in
  let score := score + calculateCostScore (cost profile) criteria * getCostWeight criteria in
  if is_true (requiresReasoning criteria)
  then score + perf_reasoning (performance profile) * 2
  else score.

(** The score of a model of the registry. *)
Definition modelScore (criteria : ModelSelectionCriteria) (modelId : string) : number :=
  match Map_get modelProfiles modelId with
  | Some profile => scoreOf criteria profile
  | None => nan
  end.

(** The quality of a model of the registry. *)
Definition modelQuality (modelId : string) : number :=
  match Map_get modelProfiles modelId with
  | Some profile => perf_quality (performance profile)
  | None => nan
  end.

Definition upgradeFrom (current : string) (budget : option number) : UpgradeParams :=
  {| currentModel := {| provider := "openai"; model := current |};
     taskComplexity := high; upgrade_costSensitivity := medium;
     upgrade_budgetRemaining := budget |}.

End UpgradeTerms.

Section SwitchTerms.

Import BudgetEnforcer.
Local Open Scope float_scope.

(** The cost threshold that the configuration gives to a model, when it is
    one that counts: a number other than zero and [NaN]. *)
Definition thresholdOf (config : option OpenClawConfig) (modelId : string)
  : option number :=
  match configuredModelBudgets config with
  | Some budgets =>
      match Map_get budgets modelId with
      | Some b => if truthy_opt (costThreshold b) then costThreshold b else None
      | None => None
      end
  | None => None
  end.

(** A configuration whose only content is one model budget. *)
Definition thresholdConfig (modelId : string) (threshold : number) : OpenClawConfig :=
  {| models := Some
       {| providers := None;
          costOptimization := Some
            {| budgetLimits := None;
               budgetControls := Some
                 {| modelBudgets := Some
                      [(modelId, {| dailyLimit := None;
                                    costThreshold := Some threshold |})] |} |} |} |}.

End SwitchTerms.

Section CalendarTerms.

Local Open Scope Z_scope.

(** The calendar repeats in eras of 400 years, 146097 days each.
    [civilOfEra] is the date of a day of an era, the year counted within
    the era. *)
Definition civilOfEra (doe : Z) : Z * Z * Z :=
  let yoe := (doe - doe / 1460 + doe / 36524 - doe / 146096) / 365 in
  let doy := doe - (365 * yoe + yoe / 4 - yoe / 100) in
  let mp := (5 * doy + 2) / 153 in
  let d := doy - (153 * mp + 2) / 5 + 1 in
  let m := if mp <? 10 then mp + 3 else mp - 9 in
  (if m <=? 2 then yoe + 1 else yoe, m, d).

(** The day of the era of a date: the way back from [civilOfEra]. *)
Definition dayOfEra (ymd : Z * Z * Z) : Z :=
  let '(y, m, d) := ymd in
  let yoe := if m <=? 2 then y - 1 else y in
  let mp := if m <=? 2 then m + 9 else m - 3 in
  let doy := (153 * mp + 2) / 5 + d - 1 in
  yoe * 365 + yoe / 4 - yoe / 100 + doy.

Definition eraOf (days : Z) : Z := (days + 719468) / 146097.
Definition dayOfEraOf (days : Z) : Z := (days + 719468) mod 146097.

(** The year and the month of a time value. *)
Definition yearMonth (t : Date.Date) : Z * Z := (Date.getFullYear t, Date.getMonth t).

(** The day number of the Sunday that starts the week of a time value. *)
Definition weekStartDay (t : Date.Date) : Z := Date.dayNumber t - Date.getDay t.

End CalendarTerms.

Section KeyTerms.

Local Open Scope Z_scope.

(** A test on the [n] numbers from [z] on, and on every number below [n]. *)
Fixpoint checkFrom (n : nat) (z : Z) (f : Z -> bool) : bool :=
  match n with
  | O => true
  | S k => f z && checkFrom k (z + 1) f
  end.

Definition checkBelow (n : Z) (f : Z -> bool) : bool := checkFrom (Z.to_nat n) 0 f.

(** The number that a string of decimal digits writes, -1 when it is none. *)
Definition numberOf (s : string) : Z :=
  match DecimalString.NilZero.int_of_string s with
  | Some d => Z.of_int d
  | None => -1
  end.

(** What distinguishes the buckets of a period: the day, the week (by its
    Sunday) or the month of a time value. *)
Definition bucketOf (p : UsageTracker.Period) (t : Date.Date) : Z * Z :=
  match p with
  | UsageTracker.day => (Date.dayNumber t, 0)
  | UsageTracker.week => (weekStartDay t, 0)
  | UsageTracker.month => yearMonth t
  end.

End KeyTerms.

Section FilesTerms.

Import UsageFiles.
Local Open Scope Z_scope.

(** The time of day of a time value, in milliseconds. *)
Definition timeOfDay (t : Date.Date) : Z := t mod Date.msPerDay.

(** A record is on file when the file of its day holds it. *)
Definition onFile (this : Tracker) (r : ParsedRecord) : Prop :=
  exists records, Map_get (files this) (fileOf (recordDate r)) = Some (Json records)
                  /\ In r records.

(** Every record of every file is in the file of its day, as [saveRecord]
    leaves it. *)
Definition wellFiled (this : Tracker) : Prop :=
  forall name records r,
    Map_get (files this) name = Some (Json records) -> In r records ->
    name = fileOf (recordDate r).

(** The filters of [loadRecords] accept a record. *)
Definition wanted (agentId provider model : option string) (r : ParsedRecord) : Prop :=
  differs agentId (UsageTracker.agentId (written r)) = false /\
  differs provider (UsageTracker.provider (written r)) = false /\
  differs model (UsageTracker.model (written r)) = false.

(** Years that [toISOString] writes with four digits. *)
Definition fourDigitYear (t : Date.Date) : Prop := 0 <= Date.getFullYear t <= 9999.

(** A tracker with no file yet. *)
Definition newTracker : Tracker :=
  {| enabled := true; aggregation_enabled := true; files := [] |}.

(** The records that were written. *)
Definition writtenCosts (records : list ParsedRecord) : list number :=
  map (fun r => UsageTracker.cost (written r)) records.

End FilesTerms.

Section LoopTerms.

Local Open Scope Z_scope.

(** The dates that the loop of [loadRecords] visits in [n] turns. *)
Fixpoint daysFrom (n : nat) (currentDate : Date.Date) : list Date.Date :=
  match n with
  | O => []
  | S k => currentDate :: daysFrom k (Date.addDays currentDate 1)
  end.

(** The first time value of the year 10000. *)
Definition year10000 : Date.Date := 253402300800000.

End LoopTerms.

Section ZoneTerms.

Import UsageTracker.
Local Open Scope Z_scope.

(** The offsets of the zones seven hours behind and seven hours ahead of
    UTC. *)
Definition utcMinus7 : Z := -25200000.
Definition utcPlus7 : Z := 25200000.

(** A record with its time stamp on the wall clock of a zone. *)
Definition inZone (offset : Z) (r : UsageRecord) : UsageRecord :=
  {| record_id := record_id r; agentId := agentId r; sessionId := sessionId r;
     provider := provider r; model := model r; usage := usage r; cost := cost r;
     timestamp := Date.toLocal offset (timestamp r); metadata := metadata r |}.

(** 2024-03-16T02:00:00Z, which is 19:00 of the sample day seven hours
    behind UTC, and 2024-03-15T02:00:00Z, which is 09:00 of the sample day
    seven hours ahead. *)
Definition lateEvening : Date.Date := 1710554400000.
Definition earlyMorning : Date.Date := 1710468000000.

End ZoneTerms.

Section RankingTerms.

Import UsageFiles.
Local Open Scope Z_scope.

(** The key under which [getTopCostModels] counts a record. *)
Definition statsKey (r : ParsedRecord) : string :=
  UsageTracker.provider (written r) ++ ":" ++ UsageTracker.model (written r).

(** The records that are counted under a key. *)
Definition countedAs (k : string) (records : list ParsedRecord) : list ParsedRecord :=
  filter (fun r => String.eqb (statsKey r) k) records.

(** A text in which a character does not occur. *)
Fixpoint absent (sep : ascii) (s : string) : Prop :=
  match s with
  | EmptyString => True
  | String c s' => c <> sep /\ absent sep s'
  end.

(** The part of a text before the first occurrence of a character. *)
Fixpoint upTo (sep : ascii) (s : string) : string :=
  match s with
  | EmptyString => EmptyString
  | String c s' => if Ascii.eqb c sep then EmptyString else String c (upTo sep s')
  end.

Definition noColon (s : string) : Prop := absent ":" s.
Definition beforeColon (s : string) : string := upTo ":" s.

(** A record of provider [prov] and model [mdl] at noon of the sample day. *)
Definition usageBy (prov mdl : string) (c : number) : ParsedRecord :=
  Parsed {| UsageTracker.record_id := "id"; UsageTracker.agentId := "agent";
            UsageTracker.sessionId := "session";
            UsageTracker.provider := prov; UsageTracker.model := mdl;
            UsageTracker.usage := usageOf 10; UsageTracker.cost := c;
            UsageTracker.timestamp := noon; UsageTracker.metadata := None |}.

(** Two models of one family, and the entry that ranks first for them. *)
Definition llamaUsage : list ParsedRecord :=
  [usageBy "ollama" "llama3:8b" 0.5%float; usageBy "ollama" "llama3:70b" 2%float].

Definition llamaTop (c : number) : TopModel :=
  {| top_provider := Some "ollama"; top_model := Some "llama3";
     top_cost := c; top_requests := 1 |}.

(** A tracker that holds one record, written at noon of the sample day. *)
Definition sampleRecord : UsageTracker.UsageRecord := recordOf "a" 0.01%float 10 noon.
Definition sampleTracker : Tracker := saveRecord newTracker sampleRecord.

(** 18:00 of the sample day and 09:00 two days later. *)
Definition evening : Date.Date := 1710525600000.
Definition morningAfter : Date.Date := 1710666000000.

(** A tracker that holds one record, written at 20:00 of the sample day. *)
Definition eveningRecord : UsageTracker.UsageRecord :=
  recordOf "a" 0.01%float 10 1710532800000.
Definition eveningTracker : Tracker := saveRecord newTracker eveningRecord.

(** A record of 08:00 two days later. *)
Definition morningRecord : UsageTracker.UsageRecord :=
  recordOf "a" 0.01%float 10 1710662400000.

(** An estimate that prices every usage at a quarter. *)
Definition flatPrice (_ : ResponseCache.NormalizedUsage) (_ : unit) : option number :=
  Some 0.25%float.

(** A usage of 100 input and 50 output tokens, with no price list. *)
Definition sampleUsage : RecordParams unit :=
  {| param_agentId := "agent"; param_sessionId := "session";
     param_provider := "openai"; param_model := "gpt-4o";
     param_usage :=
       {| ResponseCache.input := Some 100; ResponseCache.output := Some 50;
          ResponseCache.cacheRead := None; ResponseCache.cacheWrite := None;
          ResponseCache.total := None |};
     param_cost := Some tt; param_metadata := None |}.

End RankingTerms.

Section CapacityTerms.

Import ResponseCache.
Local Open Scope Z_scope.
Local Open Scope list_scope.

(** The text that [generateCacheKey] hashes. *)
Definition keyText (numberToString : number -> string) (s : State) (params : KeyParams)
  : string :=
  let text := prompt params in
  let text :=
    match key_temperature params with
    | Some t =>
        if includeTemperature (hashing (config s))
        then (text ++ "|temp:" ++ numberToString t)%string
        else text
    | None => text
    end in
  match key_maxTokens params with
  | Some n =>
      if includeMaxTokens (hashing (config s))
      then (text ++ "|max:" ++ numberToString n)%string
      else text
  | None => text
  end.

(** The key parameters that [set] passes on. *)
Definition keyParamsOf (params : SetParams) : KeyParams :=
  {| prompt := key params; key_temperature := temperature params;
     key_maxTokens := maxTokens params |}.

(** The entry that [set] stores. *)
Definition entryOf (s : State) (params : SetParams) (now : Z) : CachedResponse :=
  {| response := set_response params; usage := set_usage params;
     cost := set_cost params; timestamp := now;
     ttl := match set_ttl params with
            | Some t => if t =? 0 then default (ttl_config (config s)) else t
            | None => default (ttl_config (config s))
            end;
     hitCount := 0 |}.

(** An entry after [n] successful reads. *)
Definition hits (n : Z) (e : CachedResponse) : CachedResponse :=
  {| response := response e; usage := usage e; cost := cost e;
     timestamp := timestamp e; ttl := ttl e; hitCount := hitCount e + n |}.

(** One [get] of a key at each of the times, in their order. *)
Definition getEach (k : string) (times : list Z) : M unit :=
  forEach times (fun now => get k now ;;; ret tt).

(** The cache files that the storage directory holds, by name. *)
Definition jsonFiles (s : State) : list string :=
  match node s with
  | Directory files => filter (endsWith ".json") (Map_keys files)
  | _ => []
  end.

(** No key of the memory cache is the empty string. *)
Definition properKeys (s : State) : Prop :=
  forall k, In k (Map_keys (memoryCache s)) -> k <> "".

(** A memory cache of two places that holds two entries, the older one
    under the key "old". *)
Definition fullCache : State :=
  withMemory
    (new (Some {| partial_enabled := None;
                  partial_storage :=
                    Some {| storage_type := memory; path := None; maxSize := 2 |};
                  partial_ttl := None; partial_hashing := None |})
         (Some "/home/user") (fun _ => Absent))
    [("old", k1Entry 0); (Sha256.hex "k1", k1Entry 0)].

(** A disk cache of one place whose directory holds two cache files. *)
Definition crowdedDiskCache : State :=
  withNode
    (new (Some {| partial_enabled := None;
                  partial_storage :=
                    Some {| storage_type := disk; path := None; maxSize := 1 |};
                  partial_ttl := None; partial_hashing := None |})
         (Some "/home/user") (fun _ => Absent))
    (Directory [("a.json", {| content := Json (k1Entry 0); mtime := 10 |});
                ("b.json", {| content := Json (k1Entry 0); mtime := 20 |})]).

End CapacityTerms.

Section DashboardTerms.

Import UsageDashboard.
Local Open Scope float_scope.


(** The leaves of a breakdown. *)
Definition leafOf (breakdown : Map (Map UsageTracker.Leaf)) (provider model : string)
    (leaf : UsageTracker.Leaf) : Prop :=
  exists models, In (provider, models) breakdown /\ In (model, leaf) models.

(** A clock that stands still. *)
Definition still (t : Date.Date) : nat -> Date.Date := fun _ => t.

(** An aggregate of one day with a given total. *)
Definition dayTotal (key : string) (c : number) (tokens : Z) : UsageTracker.UsageAggregate :=
  {| UsageTracker.period := key; UsageTracker.totalCost := c;
     UsageTracker.totalTokens := tokens; UsageTracker.requestCount := 1;
     UsageTracker.averageCostPerRequest := c; UsageTracker.breakdown := [] |}.

(** Three days of rising cost. *)
Definition risingDays : list UsageTracker.UsageAggregate :=
  [dayTotal "2024-03-15" 9 900; dayTotal "2024-03-14" 2 200; dayTotal "2024-03-13" 1 100].

(** A breakdown of two providers. *)
Definition sampleBreakdown : Map (Map UsageTracker.Leaf) :=
  [("openai", [("gpt-4o", {| UsageTracker.leaf_cost := 2; UsageTracker.leaf_tokens := 10;
                             UsageTracker.leaf_requests := 1 |})]);
   ("anthropic", [("claude", {| UsageTracker.leaf_cost := 3; UsageTracker.leaf_tokens := 10;
                                UsageTracker.leaf_requests := 1 |})])].


End DashboardTerms.

Section ManagerTerms.

Import CostOptimizationManager.


(** A manager with a memory cache only. *)
Definition cachingManager (cache : ResponseCache.State) : Manager :=
  {| config := emptyConfig; defaultModel := None; tracker := None;
     budgetEnforcer := None; responseCache := Some cache; modelSelector := false |}.

(** A manager without components whose default model is the given name. *)
Definition namedDefault (name : string) : Manager :=
  {| config := emptyConfig; defaultModel := Some (ModelName name); tracker := None;
     budgetEnforcer := None; responseCache := None; modelSelector := false |}.

(** The lookup that belongs to a store: the same prompt and parameters. *)
Definition lookupOf (params : StoreParams) : LookupParams :=
  {| lookup_prompt := store_prompt params; lookup_provider := store_provider params;
     lookup_model := store_model params; lookup_temperature := store_temperature params;
     lookup_maxTokens := store_maxTokens params |}.

(** The key parameters of a store. *)
Definition storeKey (params : StoreParams) : ResponseCache.KeyParams :=
  {| ResponseCache.prompt := store_prompt params;
     ResponseCache.key_temperature := store_temperature params;
     ResponseCache.key_maxTokens := store_maxTokens params |}.

(** A runtime without price lists. *)
Definition noPrices (_ _ : string) (_ : OpenClawConfig) : option unit := None.
Definition noPrice (_ : unit) : number := 0%float.

(** The response "R" to the prompt "hello". *)
Definition helloStore : StoreParams :=
  {| store_prompt := "hello"; store_response := "R"; store_provider := "openai";
     store_model := "gpt-4o";
     store_usage := ResponseCache.set_usage k1;
     store_temperature := None; store_maxTokens := None; customTtl := None |}.

End ManagerTerms.

(* ================================================================== *)
(** * Properties *)

(* ------------------------------------------------------------------ *)
(** * Facts about binary64 comparisons *)

Section FloatFacts.

Local Open Scope float_scope.

Lemma SFcompare_antisym (x y : spec_float) :
  SFcompare y x = option_map CompOpp (SFcompare x y).
Proof.
  destruct x as [sx|sx| |sx mx ex], y as [sy|sy| |sy my ey]; simpl;
    try reflexivity; try (destruct sx; reflexivity); try (destruct sy; reflexivity);
    try (destruct sx, sy; reflexivity).
  destruct sx, sy; simpl; try reflexivity;
    rewrite (Z.compare_antisym ex ey); destruct (ex ?= ey)%Z; simpl; try reflexivity;
    rewrite (Pos.compare_cont_antisym mx my Eq); reflexivity.
Qed.

Lemma ltb_leb_false (x y : float) : (x <? y) = true -> (y <=? x) = false.
Proof.
  rewrite ltb_spec, leb_spec. unfold SFltb, SFleb.
  rewrite (SFcompare_antisym (Prim2SF x) (Prim2SF y)).
  destruct (SFcompare (Prim2SF x) (Prim2SF y)) as [[]|]; simpl; congruence.
Qed.

Lemma SFcompare_refl_finite s m e :
  SFcompare (S754_finite s m e) (S754_finite s m e) = Some Eq.
Proof.
  simpl. rewrite Z.compare_refl.
  change (Pos.compare_cont Eq m m) with (Pos.compare m m).
  rewrite Pos.compare_refl. destruct s; reflexivity.
Qed.

(** A number that compares above zero is truthy. *)
Lemma pos_truthy (x : float) : (0 <? x) = true -> truthy x = true.
Proof.
  unfold truthy, is_zero, is_nan.
  rewrite ltb_spec, !eqb_spec. unfold SFltb, SFeqb.
  destruct (Prim2SF x) as [s|s| |s m e] eqn:E.
  - destruct s; discriminate.
  - destruct s; [discriminate | reflexivity].
  - discriminate.
  - rewrite SFcompare_refl_finite. destruct s; [discriminate | reflexivity].
Qed.

Lemma truthy_spec (x : float) :
  truthy x = match Prim2SF x with S754_zero _ | S754_nan => false | _ => true end.
Proof.
  unfold truthy, is_zero, is_nan. rewrite !eqb_spec. unfold SFeqb.
  destruct (Prim2SF x) as [s|s| |s m e].
  - destruct s; reflexivity.
  - destruct s; reflexivity.
  - reflexivity.
  - rewrite SFcompare_refl_finite. destruct s; reflexivity.
Qed.

(** A number at or above a positive one is truthy. *)
Lemma leb_pos_truthy (c x : float) :
  (0 <? c) = true -> (c <=? x) = true -> truthy x = true.
Proof.
  rewrite truthy_spec, ltb_spec, leb_spec. unfold SFltb, SFleb.
  change (Prim2SF 0) with (S754_zero false).
  destruct (Prim2SF c) as [sc|sc| |sc mc ec], (Prim2SF x) as [s|s| |s m e]; simpl;
    try discriminate; try reflexivity; destruct sc; discriminate.
Qed.

(** The order of the comparisons is transitive. *)
Lemma SFleb_ltb_trans (a x b : spec_float) :
  SFleb a x = true -> SFltb x b = true -> SFltb a b = true.
Proof.
  unfold SFleb, SFltb.
  destruct a as [sa|sa| |sa ma ea], x as [sx|sx| |sx mx ex], b as [sb|sb| |sb mb eb];
    cbn [SFcompare]; try discriminate; try reflexivity;
    repeat match goal with s : bool |- _ => destruct s end;
    try discriminate; try reflexivity.
  all: change (Pos.compare_cont Eq ma mx) with (Pos.compare ma mx);
       change (Pos.compare_cont Eq mx mb) with (Pos.compare mx mb);
       change (Pos.compare_cont Eq ma mb) with (Pos.compare ma mb).
  all: destruct (Z.compare_spec ea ex); try discriminate;
       destruct (Z.compare_spec ex eb); try discriminate;
       destruct (Z.compare_spec ea eb); try reflexivity; try lia; subst.
  all: destruct (Pos.compare_spec ma mx); try discriminate;
       destruct (Pos.compare_spec mx mb); try discriminate;
       destruct (Pos.compare_spec ma mb); try reflexivity; try discriminate; try lia.
Qed.

(** Below 80 is not at or above 100. *)
Lemma ltb_80_leb_100 (x : float) : (x <? 80) = true -> (100 <=? x) = false.
Proof.
  intros H. destruct (100 <=? x) eqn:E; [|reflexivity].
  rewrite ltb_spec in H. rewrite leb_spec in E.
  pose proof (SFleb_ltb_trans _ _ _ E H) as F.
  rewrite <- ltb_spec in F. vm_compute in F. discriminate.
Qed.

End FloatFacts.

(* ------------------------------------------------------------------ *)
(** * Facts about lists and [toSorted] *)

Lemma filter_none {A} (f : A -> bool) (l : list A) :
  (forall x, In x l -> f x = false) -> filter f l = [].
Proof.
  induction l as [|x l IH]; intros H; [reflexivity|]. simpl.
  rewrite (H x (or_introl eq_refl)). apply IH. intros y Hy. apply H. now right.
Qed.

Section SortFacts.

Context {A : Type}.

Lemma insert_sorted_In (behind : A -> A -> bool) (x y : A) (l : list A) :
  In y (insert_sorted behind x l) <-> y = x \/ In y l.
Proof.
  induction l as [|z l IH]; simpl.
  - intuition auto.
  - destruct (behind x z); simpl; rewrite ?IH; intuition auto.
Qed.

Lemma toSortedBy_In (behind : A -> A -> bool) (y : A) (l : list A) :
  In y (toSortedBy behind l) <-> In y l.
Proof.
  induction l as [|x l IH]; simpl.
  - reflexivity.
  - rewrite insert_sorted_In, IH. intuition auto.
Qed.

Lemma toSorted_In (cmp : A -> A -> number) (y : A) (l : list A) :
  In y (toSorted cmp l) <-> In y l.
Proof. apply toSortedBy_In. Qed.

Lemma toSorted_nil (cmp : A -> A -> number) (l : list A) : toSorted cmp l = [] -> l = [].
Proof.
  destruct l as [|x l]; [reflexivity|]. intros H.
  assert (In x []) as [].
  rewrite <- H. apply toSorted_In. now left.
Qed.

(** The head of the sorted array is below every element, for an order [R]
    that the comparator decides on the elements (those that satisfy [P]). *)
Lemma toSorted_head_min (cmp : A -> A -> number) (P : A -> Prop) (R : A -> A -> Prop) :
  (forall x, P x -> R x x) ->
  (forall x y, P x -> P y -> (0 <? cmp x y)%float = true -> R y x) ->
  (forall x y, P x -> P y -> (0 <? cmp x y)%float = false -> R x y) ->
  (forall x y z, P x -> P y -> P z -> R x y -> R y z -> R x z) ->
  forall l h t, Forall P l -> toSorted cmp l = h :: t ->
  forall y, In y l -> R h y.
Proof.
  intros Hrefl Hgt Hle Htrans.
  induction l as [|x l IH]; intros h t HP Hs y Hy; [destruct Hy|].
  inversion HP as [|? ? Px Pl]; subst.
  change (toSorted cmp (x :: l))
    with (insert_sorted (fun a b => (0 <? cmp a b)%float) x (toSorted cmp l)) in Hs.
  assert (Pin : forall z, In z l -> P z) by (apply Forall_forall; exact Pl).
  destruct (toSorted cmp l) as [|h' t'] eqn:E.
  - apply toSorted_nil in E. subst l. simpl in Hs. inversion Hs; subst.
    destruct Hy as [<-|[]]. now apply Hrefl.
  - assert (Ph' : P h').
    { apply Pin. apply (toSorted_In cmp). rewrite E. now left. }
    simpl in Hs. destruct (0 <? cmp x h')%float eqn:C; inversion Hs; subst.
    + destruct Hy as [<-|Hy].
      * now apply Hgt.
      * now apply (IH h t').
    + destruct Hy as [<-|Hy].
      * now apply Hrefl.
      * apply (Htrans h h' y); auto. now apply (IH h' t').
Qed.

End SortFacts.

(* ------------------------------------------------------------------ *)
(** * Facts about insertion-ordered maps *)

Section MapFacts.

Context {V : Type}.

Lemma Map_get_In (m : Map V) (k : string) (v : V) :
  Map_get m k = Some v -> In (k, v) m.
Proof.
  induction m as [|[k' v'] m IH]; simpl; [discriminate|].
  destruct (String.eqb_spec k' k) as [->|_].
  - intros H. inversion H. now left.
  - intros H. right. now apply IH.
Qed.

Lemma Map_get_None (m : Map V) (k : string) :
  Map_get m k = None <-> ~ In k (Map_keys m).
Proof.
  induction m as [|[k' v'] m IH]; simpl; [tauto|].
  destruct (String.eqb_spec k' k) as [->|N].
  - split; [discriminate|]. intros H. exfalso. apply H. now left.
  - rewrite IH. tauto.
Qed.

Lemma Map_get_set_same (m : Map V) (k : string) (v : V) :
  Map_get (Map_set m k v) k = Some v.
Proof.
  induction m as [|[k' v'] m IH]; simpl.
  - now rewrite String.eqb_refl.
  - destruct (String.eqb_spec k' k) as [->|N]; simpl.
    + now rewrite String.eqb_refl.
    + destruct (String.eqb_spec k' k); [contradiction|exact IH].
Qed.

Lemma Map_get_set_other (m : Map V) (k k' : string) (v : V) :
  k' <> k -> Map_get (Map_set m k v) k' = Map_get m k'.
Proof.
  intros N. induction m as [|[k0 v0] m IH]; simpl.
  - destruct (String.eqb_spec k k'); [congruence|reflexivity].
  - destruct (String.eqb_spec k0 k) as [->|N0]; simpl.
    + destruct (String.eqb_spec k k'); [congruence|reflexivity].
    + now rewrite IH.
Qed.

Lemma Map_set_keys (m : Map V) (k : string) (v : V) :
  Map_keys (Map_set m k v)
  = if Map_has m k then Map_keys m else (Map_keys m ++ [k])%list.
Proof.
  unfold Map_has. induction m as [|[k' v'] m IH]; simpl; [reflexivity|].
  destruct (String.eqb_spec k' k) as [->|N]; simpl; [reflexivity|].
  rewrite IH. now destruct (Map_get m k).
Qed.

(** Distinct keys are kept by [set]. *)
Lemma Map_set_NoDup (m : Map V) (k : string) (v : V) :
  NoDup (Map_keys m) -> NoDup (Map_keys (Map_set m k v)).
Proof.
  intros H. rewrite Map_set_keys. unfold Map_has.
  destruct (Map_get m k) eqn:G; [exact H|].
  apply Map_get_None in G.
  apply NoDup_rev in H. rewrite <- (rev_involutive (Map_keys m ++ [k])%list).
  apply NoDup_rev. rewrite rev_app_distr. simpl. constructor; [|exact H].
  now rewrite <- in_rev.
Qed.

Lemma Map_In_get (m : Map V) (k : string) (v : V) :
  NoDup (Map_keys m) -> In (k, v) m -> Map_get m k = Some v.
Proof.
  induction m as [|[k' v'] m IH]; simpl; intros H Hin; [destruct Hin|].
  inversion H as [|? ? Hn Hd]; subst.
  destruct Hin as [E|Hin].
  - inversion E; subst. now rewrite String.eqb_refl.
  - destruct (String.eqb_spec k' k) as [->|N].
    + exfalso. apply Hn. unfold Map_keys. change k with (fst (k, v)). now apply in_map.
    + now apply IH.
Qed.

Lemma Map_delete_In (m : Map V) (k k' : string) (v : V) :
  In (k', v) (Map_delete m k) <-> k' <> k /\ In (k', v) m.
Proof.
  unfold Map_delete. rewrite filter_In. simpl.
  destruct (String.eqb_spec k' k); split; intros [H1 H2]; split; auto; discriminate.
Qed.

Lemma Map_delete_get_same (m : Map V) (k : string) : Map_get (Map_delete m k) k = None.
Proof.
  apply Map_get_None. unfold Map_keys. intros H. apply in_map_iff in H.
  destruct H as [[k' v] [E H]]. simpl in E. subst k'.
  apply Map_delete_In in H. tauto.
Qed.

Lemma Map_has_get (m : Map V) (k : string) (v : V) :
  Map_get m k = Some v -> Map_has m k = true.
Proof. unfold Map_has. now intros ->. Qed.

End MapFacts.

(* ------------------------------------------------------------------ *)
(** * The model selector *)

Section SelectorFacts.

Import ModelSelector.
Local Open Scope float_scope.

Lemma knownModel_cases (modelId : string) :
  knownModel modelId ->
  modelId = "claude-3-5-sonnet-20241022" \/ modelId = "claude-3-5-haiku-20241022" \/
  modelId = "gpt-4o" \/ modelId = "gpt-4o-mini" \/ modelId = "gpt-4-turbo" \/
  modelId = "gpt-3.5-turbo".
Proof.
  unfold knownModel. simpl. intuition auto.
Qed.

Ltac each_known H :=
  apply knownModel_cases in H;
  destruct H as [H|[H|[H|[H|[H|H]]]]]; subst.

(** The keys of the registry are distinct, so an entry is what [get] finds. *)
Lemma modelProfiles_get (modelId : string) (profile : ModelPerformanceProfile) :
  In (modelId, profile) modelProfiles ->
  Map_get modelProfiles modelId = Some profile /\ profile_model profile = modelId.
Proof.
  simpl. intros H.
  repeat (destruct H as [H|H]; [inversion H; subst; split; reflexivity|]).
  destruct H.
Qed.

Lemma knownModel_get (modelId : string) :
  knownModel modelId <-> exists profile, Map_get modelProfiles modelId = Some profile.
Proof.
  split.
  - intros H. each_known H; eexists; reflexivity.
  - intros [profile H]. apply Map_get_In in H.
    unfold knownModel, Map_keys. change modelId with (fst (modelId, profile)).
    now apply in_map.
Qed.

Lemma findModelInConfig_Some config modelId r :
  findModelInConfig config modelId = Some r ->
  model r = modelId /\
  exists providerConfig m,
    In (provider r, providerConfig) (configuredProviders config) /\
    In m (provider_models providerConfig) /\ id m = modelId.
Proof.
  unfold findModelInConfig.
  induction (configuredProviders config) as [|[p pc] ps IH]; simpl; [discriminate|].
  destruct (find (fun m => String.eqb (id m) modelId) (provider_models pc)) as [m|] eqn:F.
  - intros H. inversion H; subst; simpl. split; [reflexivity|].
    apply find_some in F. destruct F as [F1 F2].
    exists pc, m. split; [now left|]. split; [exact F1|].
    now apply String.eqb_eq.
  - intros H. destruct (IH H) as [H1 (pc' & m & H2 & H3)]. split; [exact H1|].
    exists pc', m. split; [now right|exact H3].
Qed.

Lemma findModelInConfig_None config modelId :
  (forall p providerConfig m,
     In (p, providerConfig) (configuredProviders config) ->
     In m (provider_models providerConfig) -> id m <> modelId) ->
  findModelInConfig config modelId = None.
Proof.
  intros H. destruct (findModelInConfig config modelId) as [r|] eqn:E; [|reflexivity].
  apply findModelInConfig_Some in E.
  destruct E as [_ (pc & m & H3 & H4 & H5)].
  exfalso. exact (H _ pc m H3 H4 H5).
Qed.

(** What [getAvailableModels] returns: the registry models that pass the
    capability filters and that the configuration lists. *)
Lemma getAvailableModels_In config criteria r :
  In r (getAvailableModels config criteria) <->
  exists profile,
    In (model r, profile) modelProfiles /\
    passesFilters criteria profile = true /\
    findModelInConfig config (model r) = Some r.
Proof.
  unfold getAvailableModels. rewrite in_flat_map. split.
  - intros [[modelId profile] [Hin H]].
    destruct (passesFilters criteria profile) eqn:Hp; [|destruct H].
    destruct (findModelInConfig config modelId) as [r'|] eqn:Hf; [|destruct H].
    destruct H as [->|[]].
    destruct (findModelInConfig_Some _ _ _ Hf) as [Hm _]. subst modelId.
    exists profile. auto.
  - intros (profile & Hin & Hp & Hf).
    exists (model r, profile). split; [exact Hin|].
    rewrite Hp, Hf. now left.
Qed.

Lemma scoreModels_In models criteria s :
  In s (scoreModels models criteria) ->
  In (scored_model s) models /\ knownModel (model (scored_model s)).
Proof.
  unfold scoreModels. rewrite in_flat_map. intros [m [Hin H]].
  destruct (Map_get modelProfiles (model m)) as [profile|] eqn:G; [|destruct H].
  destruct H as [<-|[]]. simpl. split; [exact Hin|].
  apply knownModel_get. eauto.
Qed.

Lemma scoreModels_known models criteria m :
  In m models -> knownModel (model m) ->
  exists s, In s (scoreModels models criteria) /\ scored_model s = m.
Proof.
  intros Hin Hk. apply knownModel_get in Hk. destruct Hk as [profile G].
  unfold scoreModels.
  eexists. rewrite in_flat_map. split.
  - exists m. split; [exact Hin|]. rewrite G. left. reflexivity.
  - reflexivity.
Qed.

Lemma getAvailableModels_known config criteria r :
  In r (getAvailableModels config criteria) -> knownModel (model r).
Proof.
  intros H. apply getAvailableModels_In in H. destruct H as (profile & Hin & _).
  unfold knownModel, Map_keys. change (model r) with (fst (model r, profile)).
  now apply in_map.
Qed.

Lemma applyBudgetConstraints_In scoredModels criteria r :
  applyBudgetConstraints scoredModels criteria = Ok r ->
  exists s, In s scoredModels /\ scored_model s = r.
Proof.
  unfold applyBudgetConstraints.
  assert (Hfirst : forall l, firstModel l = Ok r -> exists s, In s l /\ scored_model s = r).
  { intros [|s l] H; [discriminate|]. inversion H. exists s. split; [now left|reflexivity]. }
  destruct (budgetRemaining criteria) as [budget|]; [|apply Hfirst].
  destruct (negb (truthy budget)); [apply Hfirst|].
  match goal with |- context [filter ?f scoredModels] => destruct (filter f scoredModels) as [|s l] eqn:F end.
  - intros H. apply Hfirst in H. destruct H as (s & Hs & Hr).
    exists s. split; [|exact Hr]. eapply toSorted_In; exact Hs.
  - intros H. apply Hfirst in H. destruct H as (s' & Hs & Hr).
    exists s'. split; [|exact Hr].
    rewrite <- F in Hs. apply filter_In in Hs. tauto.
Qed.

(** Whatever [selectOptimalModel] returns was an available model. *)
Lemma selectOptimalModel_In config criteria r :
  selectOptimalModel config criteria = Ok r ->
  In r (getAvailableModels config criteria).
Proof.
  unfold selectOptimalModel.
  match goal with |- context [toSorted ?c ?l] => destruct (toSorted c l) as [|s0 l0] eqn:S end;
    [discriminate|].
  intros H. apply applyBudgetConstraints_In in H. destruct H as (s & Hs & <-).
  rewrite <- S in Hs. apply toSorted_In in Hs.
  apply scoreModels_In in Hs. tauto.
Qed.

Lemma selectOptimalModel_none config criteria :
  getAvailableModels config criteria = [] ->
  selectOptimalModel config criteria = Throw no_suitable_models.
Proof.
  unfold selectOptimalModel. intros ->. reflexivity.
Qed.

Lemma getAvailableModels_nil config criteria :
  (forall modelId profile, In (modelId, profile) modelProfiles ->
     passesFilters criteria profile = false \/ findModelInConfig config modelId = None) ->
  getAvailableModels config criteria = [].
Proof.
  intros H. destruct (getAvailableModels config criteria) as [|r l] eqn:E; [reflexivity|].
  assert (Hr : In r (getAvailableModels config criteria)) by (rewrite E; now left).
  apply getAvailableModels_In in Hr. destruct Hr as (profile & Hin & Hp & Hf).
  destruct (H _ _ Hin); congruence.
Qed.

(** ** The price order on the registry *)

Lemma priceSum_refl a : knownModel a -> (priceSum a <=? priceSum a) = true.
Proof. intros Ha. each_known Ha; reflexivity. Qed.

Lemma priceSum_behind a b :
  knownModel a -> knownModel b ->
  (0 <? priceSum a - priceSum b) = true -> (priceSum b <=? priceSum a) = true.
Proof.
  intros Ha Hb. each_known Ha; each_known Hb; vm_compute; intros H;
    first [reflexivity | discriminate].
Qed.

Lemma priceSum_before a b :
  knownModel a -> knownModel b ->
  (0 <? priceSum a - priceSum b) = false -> (priceSum a <=? priceSum b) = true.
Proof.
  intros Ha Hb. each_known Ha; each_known Hb; vm_compute; intros H;
    first [reflexivity | discriminate].
Qed.

Lemma priceSum_trans a b c :
  knownModel a -> knownModel b -> knownModel c ->
  (priceSum a <=? priceSum b) = true -> (priceSum b <=? priceSum c) = true ->
  (priceSum a <=? priceSum c) = true.
Proof.
  intros Ha Hb Hc. each_known Ha; each_known Hb; each_known Hc; vm_compute;
    intros H1 H2; first [reflexivity | discriminate].
Qed.

(** When no scored model fits a given (non-zero) budget, the fallback of
    [applyBudgetConstraints] returns a model of minimal price sum. *)
Lemma applyBudgetConstraints_cheapest scoredModels criteria budget :
  budgetRemaining criteria = Some budget ->
  truthy budget = true ->
  scoredModels <> [] ->
  (forall s, In s scoredModels ->
     knownModel (model (scored_model s)) /\
     (budget <? getModelCostEstimate (model (scored_model s)) 1000 500) = true) ->
  exists s, applyBudgetConstraints scoredModels criteria = Ok (scored_model s) /\
    In s scoredModels /\
    forall s', In s' scoredModels ->
      (priceSum (model (scored_model s)) <=? priceSum (model (scored_model s'))) = true.
Proof.
  intros Hb Ht Hne Hall. unfold applyBudgetConstraints. rewrite Hb, Ht.
  cbv beta iota delta [negb].
  match goal with |- context [filter ?f scoredModels] =>
    assert (F : filter f scoredModels = []) end.
  { apply filter_none. intros s Hs.
    destruct (Hall s Hs) as [Hk Hlt].
    apply knownModel_get in Hk. destruct Hk as [profile Hk]. cbv beta.
    rewrite Hk. now apply ltb_leb_false. }
  rewrite F.
  match goal with |- context [toSorted ?c scoredModels] =>
    set (cmp := c); destruct (toSorted cmp scoredModels) as [|h t] eqn:S end.
  - apply toSorted_nil in S. contradiction.
  - exists h. split; [reflexivity|]. split.
    + apply (toSorted_In cmp). rewrite S. now left.
    + apply (toSorted_head_min cmp
        (fun s => knownModel (model (scored_model s)))
        (fun a b => (priceSum (model (scored_model a))
                     <=? priceSum (model (scored_model b))) = true))
        with (l := scoredModels) (t := t); auto.
      * intros x Hx. now apply priceSum_refl.
      * intros x y Hx Hy. now apply priceSum_behind.
      * intros x y Hx Hy. now apply priceSum_before.
      * intros x y z Hx Hy Hz. now apply priceSum_trans.
      * apply Forall_forall. intros s Hs. now apply Hall.
Qed.

(** ** Sample configurations and criteria *)

Example select_text_unbounded :
  selectOptimalModel fullConfig (textCriteria None)
  = Ok {| provider := "openai"; model := "gpt-4o" |}.
Proof. vm_compute. reflexivity. Qed.

Example select_text_affordable :
  selectOptimalModel fullConfig (textCriteria (Some 0.003))
  = Ok {| provider := "anthropic"; model := "claude-3-5-haiku-20241022" |}.
Proof. vm_compute. reflexivity. Qed.

Example select_reasoning :
  selectOptimalModel fullConfig (reasoningCriteria None)
  = Ok {| provider := "openai"; model := "gpt-4o" |}.
Proof. vm_compute. reflexivity. Qed.

(** A remaining budget of exactly zero is read as no budget at all
    ([!criteria.budgetRemaining]): the best-scored model is returned, although
    a cheaper candidate exists. *)
Example zero_budget_is_no_budget :
  selectOptimalModel fullConfig (textCriteria (Some 0))
  = Ok {| provider := "openai"; model := "gpt-4o" |}
  /\ In {| provider := "openai"; model := "gpt-4o-mini" |}
       (getAvailableModels fullConfig (textCriteria (Some 0)))
  /\ (priceSum "gpt-4o-mini" <? priceSum "gpt-4o") = true.
Proof. vm_compute. intuition auto. Qed.

(** ** C6: capability filtering and hard failure *)

(** C6.  With [requiresReasoning = true], a returned model has a profile in
    the registry and that profile has the reasoning capability; and whenever
    no profile passes the capability filters, [selectOptimalModel] throws the
    "No suitable models" error instead of returning a model. *)
Theorem selector_reasoning_filter_hard_failure :
  (forall config criteria r,
     requiresReasoning criteria = Some true ->
     selectOptimalModel config criteria = Ok r ->
     exists profile,
       Map_get modelProfiles (model r) = Some profile /\
       cap_reasoning (capabilities profile) = true)
  /\
  (forall config criteria,
     capabilityEligible criteria = [] ->
     selectOptimalModel config criteria = Throw no_suitable_models).
Proof.
  split.
  - intros config criteria r Hreq Hsel.
    apply selectOptimalModel_In in Hsel. apply getAvailableModels_In in Hsel.
    destruct Hsel as (profile & Hin & Hp & _).
    exists profile. split; [now apply modelProfiles_get|].
    unfold passesFilters in Hp. rewrite Hreq in Hp. simpl in Hp.
    destruct (cap_reasoning (capabilities profile)); [reflexivity|].
    destruct (negb (capability (capabilities profile) (taskType criteria)));
      [discriminate|].
    destruct (is_true (requiresMultimodal criteria) && negb (cap_image (capabilities profile)));
      discriminate.
  - intros config criteria Hnone.
    apply selectOptimalModel_none. apply getAvailableModels_nil.
    intros modelId profile Hin. left.
    destruct (passesFilters criteria profile) eqn:Hp; [|reflexivity].
    assert (In profile (capabilityEligible criteria)) as Hc.
    { apply filter_In. split; [|exact Hp].
      unfold Map_values. change profile with (snd (modelId, profile)). now apply in_map. }
    rewrite Hnone in Hc. destruct Hc.
Qed.

(** The two halves of C6 at concrete inputs: a reasoning request is served by
    a reasoning model, and a request that no profile can serve (a context of
    a million tokens) fails, even with every model configured. *)
Lemma selector_reasoning_filter_hard_failure_witness :
  (exists profile,
     Map_get modelProfiles "gpt-4o" = Some profile /\
     cap_reasoning (capabilities profile) = true)
  /\ selectOptimalModel fullConfig (reasoningCriteria (Some 1000000))
     = Throw no_suitable_models.
Proof.
  destruct selector_reasoning_filter_hard_failure as [H1 H2]. split.
  - apply (H1 fullConfig (reasoningCriteria None)
              {| provider := "openai"; model := "gpt-4o" |}); reflexivity.
  - apply (H2 fullConfig (reasoningCriteria (Some 1000000))). reflexivity.
Defined.

(** ** C10: the configuration restricts the candidates *)

(** C10.  A model that [selectOptimalModel] returns is a key of the registry
    and is listed, under the returned provider, in the configuration's
    provider model lists.  Hence when no provider lists an id of the registry
    (in particular when no provider is declared) the call throws the
    "No suitable models" error, whatever the criteria. *)
Theorem selector_config_intersection :
  (forall config criteria r,
     selectOptimalModel config criteria = Ok r ->
     knownModel (model r) /\
     exists providerConfig m,
       In (provider r, providerConfig) (configuredProviders config) /\
       In m (provider_models providerConfig) /\ id m = model r)
  /\
  (forall config criteria,
     (forall p providerConfig m,
        In (p, providerConfig) (configuredProviders config) ->
        In m (provider_models providerConfig) -> ~ knownModel (id m)) ->
     selectOptimalModel config criteria = Throw no_suitable_models)
  /\
  (forall config criteria,
     configuredProviders config = [] ->
     selectOptimalModel config criteria = Throw no_suitable_models).
Proof.
  assert (Hnone : forall config criteria,
     (forall p providerConfig m,
        In (p, providerConfig) (configuredProviders config) ->
        In m (provider_models providerConfig) -> ~ knownModel (id m)) ->
     selectOptimalModel config criteria = Throw no_suitable_models).
  { intros config criteria H. apply selectOptimalModel_none.
    apply getAvailableModels_nil. intros modelId profile Hin. right.
    apply findModelInConfig_None. intros p pc m Hp Hm Hid.
    apply (H p pc m Hp Hm). rewrite Hid.
    unfold knownModel, Map_keys. change modelId with (fst (modelId, profile)).
    now apply in_map. }
  split; [|split].
  - intros config criteria r Hsel. apply selectOptimalModel_In in Hsel.
    split; [now apply getAvailableModels_known in Hsel|].
    apply getAvailableModels_In in Hsel. destruct Hsel as (profile & _ & _ & Hf).
    apply findModelInConfig_Some in Hf. tauto.
  - exact Hnone.
  - intros config criteria Hempty. apply Hnone. rewrite Hempty. intros p pc m [].
Qed.

(** C10 at concrete inputs: the only configured model is the one returned;
    and without providers the call fails although five profiles pass the
    capability filters of the request. *)
Lemma selector_config_intersection_witness :
  knownModel "gpt-4o"
  /\ selectOptimalModel (configOf [("local", providerOf ["llama-3"])]) (textCriteria None)
     = Throw no_suitable_models
  /\ selectOptimalModel emptyConfig (textCriteria None) = Throw no_suitable_models
  /\ List.length (capabilityEligible (textCriteria None)) = 6%nat.
Proof.
  destruct selector_config_intersection as (H1 & H2 & H3).
  split; [|split; [|split]].
  - apply (H1 gpt4oConfig (textCriteria None) {| provider := "openai"; model := "gpt-4o" |}).
    reflexivity.
  - apply H2. simpl. intros p pc m [E|[]]. inversion E; subst. simpl.
    intros [<-|[]] Hk. apply knownModel_cases in Hk. simpl in Hk.
    intuition discriminate.
  - apply H3. reflexivity.
  - reflexivity.
Defined.

(** ** C5: the budget fallback *)

(** C5, as the code has it.  Let the candidates be the available models (the
    registry models that pass the capability filters and that the
    configuration lists), and let the remaining budget be a non-zero number
    strictly below the reference-request estimate of every candidate.  If
    there is a candidate, [selectOptimalModel] returns one, and its price sum
    [input + output] is minimal among the candidates. *)
Theorem selector_budget_fallback :
  forall config criteria budget,
    budgetRemaining criteria = Some budget ->
    truthy budget = true ->
    getAvailableModels config criteria <> [] ->
    (forall m, In m (getAvailableModels config criteria) ->
       (budget <? getModelCostEstimate (model m) 1000 500) = true) ->
    exists r,
      selectOptimalModel config criteria = Ok r /\
      In r (getAvailableModels config criteria) /\
      forall m, In m (getAvailableModels config criteria) ->
        (priceSum (model r) <=? priceSum (model m)) = true.
Proof.
  intros config criteria budget Hb Ht Hne Hall.
  unfold selectOptimalModel.
  set (available := getAvailableModels config criteria) in *.
  set (scored := scoreModels available criteria).
  set (sorted := toSorted (fun a b => score b - score a) scored).
  assert (Hsorted : forall s, In s sorted <-> In s scored) by (intros s; apply toSorted_In).
  assert (Hcover : forall m, In m available -> exists s, In s sorted /\ scored_model s = m).
  { intros m Hm. destruct (scoreModels_known available criteria m Hm) as (s & Hs & Hsm).
    - now apply (getAvailableModels_known config criteria).
    - exists s. split; [now apply Hsorted|exact Hsm]. }
  destruct (applyBudgetConstraints_cheapest sorted criteria budget Hb Ht)
    as (s & Happly & Hs & Hmin).
  - destruct available as [|m0 rest] eqn:E; [contradiction|].
    destruct (Hcover m0 (or_introl eq_refl)) as (s & Hs & _).
    intros Hnil. rewrite Hnil in Hs. destruct Hs.
  - intros s Hs. apply Hsorted in Hs. apply scoreModels_In in Hs.
    destruct Hs as [Hs Hk]. split; [exact Hk|]. now apply Hall.
  - exists (scored_model s).
    destruct sorted as [|s0 l0] eqn:E; [destruct Hs|].
    split; [exact Happly|]. split.
    + apply Hsorted in Hs. apply scoreModels_In in Hs. tauto.
    + intros m Hm. destruct (Hcover m Hm) as (s' & Hs' & <-). now apply Hmin.
Qed.

(** C5 at a concrete input: every model configured and a budget of a
    billionth; the cheapest model of the registry is returned. *)
Lemma selector_budget_fallback_witness :
  exists r,
    selectOptimalModel fullConfig (textCriteria (Some 0.000000001)) = Ok r /\
    In r (getAvailableModels fullConfig (textCriteria (Some 0.000000001))) /\
    forall m, In m (getAvailableModels fullConfig (textCriteria (Some 0.000000001))) ->
      (priceSum (model r) <=? priceSum (model m)) = true.
Proof.
  apply (selector_budget_fallback fullConfig (textCriteria (Some 0.000000001)) 0.000000001).
  - reflexivity.
  - reflexivity.
  - discriminate.
  - intros m Hm. vm_compute in Hm.
    repeat (destruct Hm as [<-|Hm]; [reflexivity|]). destruct Hm.
Defined.

(** The claim as the specification states it takes the candidates to be all
    the profiles that pass the capability filters.  With a configuration
    that lists only "gpt-4o", every such profile has an estimate above the
    budget, yet the model returned is "gpt-4o", whose price sum (20) is above
    that of the capable "gpt-4o-mini" (0.75). *)
Lemma selector_budget_fallback_counterexample :
  let criteria := textCriteria (Some 0.000000001) in
  capabilityEligible criteria <> []
  /\ (forall profile, In profile (capabilityEligible criteria) ->
        (0.000000001 <? getModelCostEstimate (profile_model profile) 1000 500) = true)
  /\ selectOptimalModel gpt4oConfig criteria = Ok {| provider := "openai"; model := "gpt-4o" |}
  /\ exists profile,
       In profile (capabilityEligible criteria) /\
       (priceSum "gpt-4o" <=? priceSum (profile_model profile)) = false.
Proof.
  cbv zeta. split; [discriminate|]. split; [|split].
  - intros profile Hp. vm_compute in Hp.
    repeat (destruct Hp as [<-|Hp]; [reflexivity|]). destruct Hp.
  - reflexivity.
  - exists {| profile_model := "gpt-4o-mini";
              cost := {| cost_input := 0.15; cost_output := 0.6 |};
              performance := {| perf_speed := 9; perf_quality := 6; perf_reasoning := 5 |};
              capabilities := all_capabilities true false;
              contextWindow := 128000 |}.
    split; [|reflexivity]. vm_compute. tauto.
Qed.

End SelectorFacts.

(* ------------------------------------------------------------------ *)
(** * The budget enforcer *)

Section EnforcerFacts.

Import BudgetEnforcer.
Local Open Scope float_scope.

Example checkBudgetUsage_over_limit :
  checkBudgetUsage (new (Some {| dailyBudget := Some 1; weeklyBudget := None;
                                 monthlyBudget := None; alerts := None;
                                 controls_modelBudgets := None |}))
    "agent" 1000 (Some strictConfig)
  = {| allowed := true; reason := None; alternativeModel := None |}.
Proof. reflexivity. Qed.

(** C2.  Whatever the enforcer's controls, the agent, the estimated cost and
    the configuration (with or without a daily budget and model budgets),
    [checkBudgetUsage] returns [allowed = true] without a reason and without
    an alternative model. *)
Theorem checkBudgetUsage_always_allowed :
  forall (this : BudgetEnforcer) (agentId : string) (estimatedCost : number)
         (config : option OpenClawConfig),
    checkBudgetUsage this agentId estimatedCost config
    = {| allowed := true; reason := None; alternativeModel := None |}.
Proof.
  intros this agentId estimatedCost config. unfold checkBudgetUsage.
  destruct (truthy_opt (or_else (configuredDaily config) (dailyBudget (costControls this))));
    destruct (configuredModelBudgets config); reflexivity.
Qed.

End EnforcerFacts.

(* ------------------------------------------------------------------ *)
(** * The usage tracker: aggregation *)

Section AggregationFacts.

Import UsageTracker.
Local Open Scope list_scope.

Lemma sumZ_app (l1 l2 : list Z) : sumZ (l1 ++ l2) = (sumZ l1 + sumZ l2)%Z.
Proof. induction l1 as [|x l1 IH]; simpl; [reflexivity|]. rewrite IH. lia. Qed.

Lemma tokensOf_snoc records r :
  tokensOf (records ++ [r]) = (tokensOf records + total (usage r))%Z.
Proof. unfold tokensOf. rewrite map_app, sumZ_app. simpl. lia. Qed.

Lemma costOf_snoc records r :
  costOf (records ++ [r]) = (costOf records + cost r)%float.
Proof. unfold costOf, sumNumbers. rewrite map_app, fold_left_app. reflexivity. Qed.

Lemma length_snoc {A} (l : list A) (x : A) :
  Z.of_nat (List.length (l ++ [x])) = (Z.of_nat (List.length l) + 1)%Z.
Proof. rewrite length_app. simpl. lia. Qed.

(** ** Sums over a map and its update *)

Lemma sumMap_set {V} (g : V -> Z) (m : Map V) (k : string) (v : V) :
  sumMap g (Map_set m k v)
  = (sumMap g m - match Map_get m k with Some o => g o | None => 0 end + g v)%Z.
Proof.
  unfold sumMap. induction m as [|[k' v'] m IH]; simpl; [lia|].
  destruct (String.eqb_spec k' k) as [->|N]; simpl; [lia|]. rewrite IH. lia.
Qed.

Lemma sum_leaves (g : Leaf -> Z) (a : UsageAggregate) :
  sumZ (map g (leaves a)) = sumMap (sumMap g) (breakdown a).
Proof.
  unfold leaves, sumMap. induction (breakdown a) as [|[prov byModel] bd IH]; simpl;
    [reflexivity|].
  rewrite map_app, sumZ_app, IH. f_equal.
  unfold Map_values. now rewrite map_map.
Qed.

(** ** The invariant of the aggregation loop *)

Lemma Good_empty p k : Good p [] k (emptyAggregate k).
Proof. constructor; try reflexivity. intros prov mdl. simpl. auto. Qed.

Lemma bucket_snoc p rs r k :
  bucket p (rs ++ [r]) k
  = if String.eqb (getPeriodKey (timestamp r) p) k then bucket p rs k ++ [r] else bucket p rs k.
Proof.
  unfold bucket. rewrite filter_app. simpl.
  destruct (String.eqb (getPeriodKey (timestamp r) p) k); [reflexivity|apply app_nil_r].
Qed.

Lemma ofModel_snoc prov mdl rs r :
  ofModel prov mdl (rs ++ [r])
  = if String.eqb (provider r) prov && String.eqb (model r) mdl
    then ofModel prov mdl rs ++ [r] else ofModel prov mdl rs.
Proof.
  unfold ofModel. rewrite filter_app. simpl.
  destruct (String.eqb (provider r) prov && String.eqb (model r) mdl);
    [reflexivity|apply app_nil_r].
Qed.

Lemma Good_other p rs r k a :
  getPeriodKey (timestamp r) p <> k -> Good p rs k a -> Good p (rs ++ [r]) k a.
Proof.
  intros N [H1 H2 H3 H4 H5 H6 H7].
  assert (E : bucket p (rs ++ [r]) k = bucket p rs k).
  { rewrite bucket_snoc. now destruct (String.eqb_spec (getPeriodKey (timestamp r) p) k). }
  constructor; rewrite ?E; assumption.
Qed.

Lemma addRecord_updated p aggregates r :
  addRecord p aggregates r
  = let k := getPeriodKey (timestamp r) p in
    Map_set aggregates k (updated (orElse (emptyAggregate k) (Map_get aggregates k)) r).
Proof.
  unfold addRecord, updated, orElse. cbv zeta.
  destruct (Map_get aggregates (getPeriodKey (timestamp r) p)) as [a|]; reflexivity.
Qed.

Lemma updated_leaf_sum (g : Leaf -> Z) (d : Z) a r leaf' :
  g emptyLeaf = 0%Z ->
  (let byModel := orElse [] (Map_get (breakdown a) (provider r)) in
   let leaf := orElse emptyLeaf (Map_get byModel (model r)) in
   g leaf' = g leaf + d)%Z ->
  (sumMap (sumMap g)
     (Map_set (breakdown a) (provider r)
        (Map_set (orElse [] (Map_get (breakdown a) (provider r))) (model r) leaf'))
   = sumMap (sumMap g) (breakdown a) + d)%Z.
Proof.
  intros H0 H. cbv zeta in H. rewrite !sumMap_set, H.
  unfold orElse.
  destruct (Map_get (breakdown a) (provider r)) as [byModel|]; cbv beta iota.
  - destruct (Map_get byModel (model r)); rewrite ?H0; lia.
  - change (Map_get [] (model r)) with (@None Leaf). cbv beta iota.
    change (sumMap g []) with 0%Z. rewrite H0. lia.
Qed.

Lemma Good_updated p rs r a :
  Good p rs (getPeriodKey (timestamp r) p) a ->
  Good p (rs ++ [r]) (getPeriodKey (timestamp r) p) (updated a r).
Proof.
  intros [H1 H2 H3 H4 H5 H6 H7].
  set (k := getPeriodKey (timestamp r) p) in *.
  assert (E : bucket p (rs ++ [r]) k = bucket p rs k ++ [r]).
  { rewrite bucket_snoc. fold k. now rewrite String.eqb_refl. }
  constructor; rewrite ?E.
  - exact H1.
  - simpl. rewrite length_snoc. lia.
  - simpl. rewrite tokensOf_snoc. lia.
  - simpl. rewrite costOf_snoc. now rewrite H4.
  - rewrite sum_leaves in *. simpl breakdown. simpl requestCount.
    rewrite updated_leaf_sum with (d := 1%Z); [lia|reflexivity|reflexivity].
  - rewrite sum_leaves in *. simpl breakdown. simpl totalTokens.
    rewrite updated_leaf_sum with (d := total (usage r)); [lia|reflexivity|reflexivity].
  - intros prov mdl. cbv zeta. rewrite ofModel_snoc.
    specialize (H7 prov mdl). cbv zeta in H7.
    unfold leafAt in *. simpl breakdown.
    destruct (String.eqb_spec (provider r) prov) as [Ep|Np].
    + subst prov. rewrite Map_get_set_same.
      destruct (String.eqb_spec (model r) mdl) as [Em|Nm]; simpl andb.
      * subst mdl. rewrite Map_get_set_same. simpl.
        rewrite costOf_snoc, tokensOf_snoc, length_snoc.
        destruct H7 as (C & R & T).
        unfold orElse in *.
        destruct (Map_get (breakdown a) (provider r)) as [byModel|]; simpl in *.
        -- rewrite C, R, T. auto.
        -- rewrite <- C, <- R, <- T. auto.
      * rewrite Map_get_set_other by congruence.
        unfold orElse in *.
        destruct (Map_get (breakdown a) (provider r)) as [byModel|]; simpl in *; exact H7.
    + rewrite Map_get_set_other by congruence. simpl andb. exact H7.
Qed.

Lemma fold_addRecord_good p rs :
  let aggregates := fold_left (addRecord p) rs [] in
  NoDup (Map_keys aggregates) /\
  forall k, Good p rs k (orElse (emptyAggregate k) (Map_get aggregates k)).
Proof.
  cbv zeta. induction rs as [|r rs IH] using rev_ind.
  - split; [constructor|]. intros k. apply Good_empty.
  - rewrite fold_left_app. simpl. destruct IH as [Hd Hg].
    rewrite addRecord_updated. cbv zeta. split; [now apply Map_set_NoDup|].
    intros k. destruct (String.eqb_spec (getPeriodKey (timestamp r) p) k) as [<-|N].
    + rewrite Map_get_set_same. simpl. apply Good_updated. apply Hg.
    + rewrite Map_get_set_other by congruence. apply Good_other; [exact N|apply Hg].
Qed.

End AggregationFacts.

Section ConservationClaims.

Import UsageTracker.
Local Open Scope float_scope.
Local Open Scope list_scope.

(** Every aggregate that [aggregateRecords] returns is one of the loop's
    map, with its average filled in. *)
Lemma aggregateRecords_In records p a :
  In a (aggregateRecords records p) ->
  exists a0, a = withAverage a0 /\ Good p records (period a0) a0.
Proof.
  unfold aggregateRecords. intros H. apply toSorted_In in H.
  unfold Map_values in H. rewrite map_map in H. simpl in H.
  apply in_map_iff in H. destruct H as [[k a0] [<- Hin]]. simpl.
  exists a0. split; [reflexivity|].
  destruct (fold_addRecord_good p records) as [Hd Hg].
  specialize (Hg k). rewrite (Map_In_get _ _ _ Hd Hin) in Hg. simpl in Hg.
  now rewrite (good_period _ _ _ _ Hg).
Qed.

Example getPeriodKey_samples :
  getPeriodKey noon day = "2024-03-15" /\
  getPeriodKey noon week = "2024-03-10 (Week)" /\
  getPeriodKey noon month = "2024-03" /\
  getPeriodKey 1735707600000%Z week = "2024-12-29 (Week)".
Proof. vm_compute. auto. Qed.

(** The scenario of the specification: costs 1.00, 2.50 and 0.75 for the
    models a, b and a of provider p on one day. *)
Example aggregate_scenario :
  aggregateRecords
    [recordOf "a" 1.00 10 noon; recordOf "b" 2.50 20 noon; recordOf "a" 0.75 30 noon] day
  = [{| period := "2024-03-15"; totalCost := 4.25; totalTokens := 60; requestCount := 3;
        averageCostPerRequest := (4.25 / 3)%float;
        breakdown :=
          [("p", [("a", {| leaf_cost := 1.75; leaf_tokens := 40; leaf_requests := 2 |});
                  ("b", {| leaf_cost := 2.5; leaf_tokens := 20; leaf_requests := 1 |})])] |}].
Proof. vm_compute. reflexivity. Qed.

(** C3, as the code has it.  For every list of records and every period
    granularity, each aggregate produced satisfies: the leaf requests add up
    to [requestCount] and the leaf tokens to [totalTokens], exactly;
    [requestCount], [totalTokens] and [totalCost] are the count, the token sum
    and the running binary64 cost sum of the records of the bucket, in their
    order; and the cost of a leaf is the running binary64 sum of the costs of
    the bucket's records of that provider and model. *)
Theorem aggregate_conservation :
  forall records p a,
    In a (aggregateRecords records p) ->
    let mine := bucket p records (period a) in
    sumZ (map leaf_requests (leaves a)) = requestCount a /\
    sumZ (map leaf_tokens (leaves a)) = totalTokens a /\
    requestCount a = Z.of_nat (List.length mine) /\
    totalTokens a = tokensOf mine /\
    totalCost a = costOf mine /\
    forall prov mdl leaf,
      leafAt a prov mdl = Some leaf ->
      leaf_cost leaf = costOf (ofModel prov mdl mine).
Proof.
  intros records p a Hin. cbv zeta.
  apply aggregateRecords_In in Hin. destruct Hin as (a0 & -> & [H1 H2 H3 H4 H5 H6 H7]).
  change (period (withAverage a0)) with (period a0).
  change (leaves (withAverage a0)) with (leaves a0).
  repeat split; try assumption.
  intros prov mdl leaf Hl. specialize (H7 prov mdl). cbv zeta in H7.
  change (leafAt (withAverage a0) prov mdl) with (leafAt a0 prov mdl) in Hl.
  rewrite Hl in H7. simpl in H7. tauto.
Qed.

Lemma aggregate_conservation_witness :
  let mine := bucket month pennies "2024-03" in
  sumZ (map leaf_requests (leaves penniesAggregate)) = 3%Z /\
  sumZ (map leaf_tokens (leaves penniesAggregate)) = 60%Z /\
  3%Z = Z.of_nat (List.length mine) /\
  60%Z = tokensOf mine /\
  totalCost penniesAggregate = costOf mine /\
  forall prov mdl leaf,
    leafAt penniesAggregate prov mdl = Some leaf ->
    leaf_cost leaf = costOf (ofModel prov mdl mine).
Proof.
  apply (aggregate_conservation pennies month penniesAggregate).
  vm_compute. left. reflexivity.
Defined.

(** The costs 0.01, 0.02 and 0.3 of the models a, b and a: [totalCost] is
    [(0.01 + 0.02) + 0.3 = 0.32999999999999996], while the leaves hold
    [0.01 + 0.3 = 0.31] and [0.02], which add up to [0.33] in either order. *)
Lemma aggregate_cost_conservation_counterexample :
  aggregateRecords pennies month = [penniesAggregate]
  /\ (sumNumbers (map leaf_cost (leaves penniesAggregate))
      =? totalCost penniesAggregate)%float = false
  /\ (sumNumbers (rev (map leaf_cost (leaves penniesAggregate)))
      =? totalCost penniesAggregate)%float = false
  /\ sumNumbers (map leaf_cost (leaves penniesAggregate)) = 0.33%float.
Proof. vm_compute. auto. Qed.

End ConservationClaims.

(* ------------------------------------------------------------------ *)
(** * The usage tracker: budget status *)

Section BudgetFacts.

Import UsageTracker.
Local Open Scope float_scope.
Local Open Scope list_scope.

Example toFixed_samples :
  toFixedDecimal 79.99 2 = "79.99" /\ toFixedDecimal 80 2 = "80.00" /\
  toFixedDecimal 0.005 2 = "0.01" /\ toFixedDecimal 1.005 2 = "1.00" /\
  toFixedDecimal 2.5 0 = "3" /\ toFixedDecimal (-1.5) 1 = "-1.5" /\
  toFixedDecimal 123.456 1 = "123.5" /\ toFixedDecimal 0 2 = "0.00".
Proof. vm_compute. repeat split; reflexivity. Qed.

Example checkBudget_warning_message :
  alerts (checkBudget toFixedDecimal (spending 85.5) week (Some 100))
  = [{| level := warning; threshold := 80; current := 85.5;
        message := "Budget warning for week: $85.50 / $100.00 (85.5%)" |}].
Proof. vm_compute. reflexivity. Qed.

Example checkBudget_zero_spend :
  alerts (checkBudget toFixedDecimal [] day (Some 100)) = []
  /\ percentage (checkBudget toFixedDecimal [] day (Some 100)) = Some 0.
Proof. vm_compute. auto. Qed.

Lemma generateAlerts_critical toFixed p s b pct :
  truthy b = true -> (100 <=? pct) = true ->
  map level (generateAlerts toFixed p s (Some b) (Some pct)) = [critical].
Proof.
  intros Hb H. unfold generateAlerts.
  rewrite Hb, (leb_pos_truthy 100 pct eq_refl H), H. reflexivity.
Qed.

Lemma generateAlerts_warning toFixed p s b pct :
  truthy b = true -> (80 <=? pct) = true -> (pct <? 100) = true ->
  map level (generateAlerts toFixed p s (Some b) (Some pct)) = [warning].
Proof.
  intros Hb H1 H2. unfold generateAlerts.
  rewrite Hb, (leb_pos_truthy 80 pct eq_refl H1), (ltb_leb_false _ _ H2), H1. reflexivity.
Qed.

Lemma generateAlerts_none toFixed p s b pct :
  truthy b = true -> (pct <? 80) = true ->
  generateAlerts toFixed p s (Some b) (Some pct) = [].
Proof.
  intros Hb H. unfold generateAlerts.
  rewrite Hb, (ltb_80_leb_100 _ H), (ltb_leb_false _ _ H).
  now destruct (truthy pct).
Qed.

(** C4.  Without a configured ceiling the status has no alert.  With a
    ceiling [b > 0] and spend [s] (the sum of the costs of the matching
    records), with [pct = s / b * 100]: [remaining = max(0, b - s)],
    [percentage = pct], [overBudget] is [s > b]; there is exactly one alert,
    critical, when [pct >= 100]; exactly one, a warning, when
    [80 <= pct < 100]; and none when [pct < 80].  With [b = 100]: no alert at
    [s = 79.99], one warning at 80, one critical at 100, and at 150
    [overBudget] with [remaining = 0]. *)
Theorem checkBudget_alert_thresholds :
  forall (toFixed : number -> Z -> string) (records : list UsageRecord) (p : Period),
    (forall budget, truthy_opt budget = false ->
       alerts (checkBudget toFixed records p budget) = []) /\
    forall b, (0 <? b) = true ->
      let st := checkBudget toFixed records p (Some b) in
      let s := spent st in
      let pct := s / b * 100 in
      s = fold_left (fun total record => total + cost record) records 0 /\
      remaining st = Some (Math_max 0 (b - s)) /\
      percentage st = Some pct /\
      overBudget st = (b <? s) /\
      ((100 <=? pct) = true -> map level (alerts st) = [critical]) /\
      ((80 <=? pct) = true -> (pct <? 100) = true -> map level (alerts st) = [warning]) /\
      ((pct <? 80) = true -> alerts st = []) /\
      (b = 100 -> s = 79.99 -> alerts st = []) /\
      (b = 100 -> s = 80 -> map level (alerts st) = [warning]) /\
      (b = 100 -> s = 100 -> map level (alerts st) = [critical]) /\
      (b = 100 -> s = 150 -> overBudget st = true /\ remaining st = Some 0).
Proof.
  intros toFixed records p. split.
  - intros budget Hb. unfold checkBudget. rewrite Hb. simpl.
    unfold generateAlerts. now destruct budget.
  - intros b Hb. cbv zeta.
    pose proof (pos_truthy b Hb) as Ht.
    unfold checkBudget, truthy_opt. rewrite Ht.
    cbn [spent remaining percentage overBudget alerts].
    set (s := fold_left (fun total record => total + cost record) records 0).
    set (pct := s / b * 100).
    repeat split.
    + intros H. now apply generateAlerts_critical.
    + intros H1 H2. now apply generateAlerts_warning.
    + intros H. now apply generateAlerts_none.
    + intros -> Es. apply generateAlerts_none; [reflexivity|].
      unfold pct. rewrite Es. reflexivity.
    + intros -> Es. apply generateAlerts_warning; unfold pct; rewrite ?Es; reflexivity.
    + intros -> Es. apply generateAlerts_critical; unfold pct; rewrite ?Es; reflexivity.
    + subst b. rewrite H0. reflexivity.
    + subst b. rewrite H0. reflexivity.
Qed.

(** C4 at a concrete input: a spend of 80 against a ceiling of 100. *)
Lemma checkBudget_alert_thresholds_witness :
  let st := checkBudget toFixedDecimal (spending 80) day (Some 100) in
  spent st = 80 /\
  remaining st = Some 20 /\
  percentage st = Some 80 /\
  overBudget st = false /\
  map level (alerts st) = [warning].
Proof.
  destruct (checkBudget_alert_thresholds toFixedDecimal (spending 80) day) as [_ H].
  destruct (H 100 eq_refl) as (H1 & H2 & H3 & H4 & _ & _ & _ & _ & H5 & _).
  exact (conj H1 (conj H2 (conj H3 (conj H4 (H5 eq_refl eq_refl))))).
Defined.

End BudgetFacts.

(* ------------------------------------------------------------------ *)
(** * The response cache *)

Section CacheFacts.

Import ResponseCache.
Local Open Scope Z_scope.
Local Open Scope list_scope.

Lemma getStats_size s entries s' :
  allEntries s = Returns entries s' ->
  exists stats, getStats s = Returns stats s' /\ size stats = Z.of_nat (List.length entries).
Proof.
  intros H. unfold getStats, bind. rewrite H. eexists. split; reflexivity.
Qed.

(** ** The disk backend *)

Lemma getDiskCache_directory s files k :
  node s = Directory files ->
  exists result s' files',
    getDiskCache k s = Returns result s' /\
    node s' = Directory files' /\ incl files' files /\
    config s' = config s /\
    match result with
    | Some c => exists f, In (fileName k, f) files /\ content f = Json c
    | None => True
    end.
Proof.
  intros Hn. unfold getDiskCache, bind, getState. rewrite Hn.
  destruct (Map_get files (fileName k)) as [file|] eqn:G.
  - destruct (content file) as [data|] eqn:C.
    + exists (Some data), s, files. repeat split; auto using incl_refl.
      exists file. split; [now apply Map_get_In|exact C].
    + unfold tryCatch, unlinkSync, ret. rewrite Hn, (Map_has_get _ _ _ G).
      exists None, (withNode s (Directory (Map_delete files (fileName k)))),
        (Map_delete files (fileName k)).
      repeat split; auto. intros [n f] H. apply Map_delete_In in H. tauto.
  - exists None, s, files. repeat split; auto using incl_refl.
Qed.

Lemma collectDiskCache_sound (files0 : Map File) pending :
  forall cache s files,
    node s = Directory files -> incl files files0 ->
    exists entries s',
      collectDiskCache pending cache s = Returns entries s' /\
      forall c, In c entries ->
        In c cache \/ exists k f, In (fileName k, f) files0 /\ content f = Json c.
Proof.
  induction pending as [|file rest IH]; intros cache s files Hn Hi.
  - exists cache, s. split; [reflexivity|]. auto.
  - simpl. unfold bind at 1.
    destruct (getDiskCache_directory s files (replaceFirst ".json" "" (fst file)) Hn)
      as (result & s' & files' & -> & Hn' & Hi' & _ & Hr).
    assert (Hi0 : incl files' files0) by (eapply incl_tran; eauto).
    destruct result as [c|].
    + destruct (IH (cache ++ [c]) s' files' Hn' Hi0) as (entries & s'' & -> & He).
      exists entries, s''. split; [reflexivity|].
      intros c' Hc'. destruct (He c' Hc') as [Hin|Hex]; [|now right].
      apply in_app_or in Hin. destruct Hin as [Hin|[<-|[]]]; [now left|].
      right. destruct Hr as (f & Hf & Hc).
      exists (replaceFirst ".json" "" (fst file)), f. split; [now apply Hi|exact Hc].
    + destruct (IH cache s' files' Hn' Hi0) as (entries & s'' & -> & He).
      exists entries, s''. split; [reflexivity|exact He].
Qed.

(** What [getStats] counts on a directory was read from one of its files. *)
Lemma allEntries_disk s files :
  isMemory s = false -> node s = Directory files ->
  exists entries s',
    allEntries s = Returns entries s' /\
    forall c, In c entries ->
      exists k f, In (fileName k, f) files /\ content f = Json c.
Proof.
  intros Hm Hn. unfold allEntries, bind, getState. rewrite Hm.
  unfold getAllDiskCache, bind, getState.
  destruct (collectDiskCache_sound files (getDiskCacheFiles s) [] s files Hn (incl_refl _))
    as (entries & s' & -> & He).
  exists entries, s'. split; [reflexivity|].
  intros c Hc. destruct (He c Hc) as [[]|H]. exact H.
Qed.

(** ** C7: expiry at read time *)

Lemma isMemory_withMemory s m : isMemory (withMemory s m) = isMemory s.
Proof. reflexivity. Qed.

Lemma isMemory_withNode s n : isMemory (withNode s n) = isMemory s.
Proof. reflexivity. Qed.

Lemma get_memory_expired s k e now :
  enabled (config s) = true -> isMemory s = true ->
  Map_get (memoryCache s) k = Some e ->
  now - timestamp e > ttl e * 1000 ->
  get k now s = Returns None (withMemory s (Map_delete (memoryCache s) k)).
Proof.
  intros Hen Hm Hst Hcmp.
  unfold get, bind, getState, ret. rewrite Hen. cbn [negb]. rewrite Hm.
  rewrite Hst. replace (now - timestamp e >? ttl e * 1000) with true
    by (symmetry; apply Z.gtb_lt; lia).
  unfold delete, bind, getState, putState. rewrite Hm. reflexivity.
Qed.

Lemma get_memory_hit s k e now :
  enabled (config s) = true -> isMemory s = true ->
  Map_get (memoryCache s) k = Some e ->
  now - timestamp e <= ttl e * 1000 ->
  get k now s
  = Returns (Some (hit e)) (withMemory s (Map_set (memoryCache s) k (hit e))).
Proof.
  intros Hen Hm Hst Hcmp.
  unfold get, bind, getState, ret, putState. rewrite Hen. cbn [negb]. rewrite Hm.
  rewrite Hst. replace (now - timestamp e >? ttl e * 1000) with false
    by (symmetry; rewrite Z.gtb_ltb; apply Z.ltb_ge; lia).
  rewrite Hm. reflexivity.
Qed.

(** C7.  Let an enabled cache hold the entry [e] under the key [k].  A
    [get k] at a time [now] with [now - createdAt > ttl] (the time to live
    counted in seconds, the clock in milliseconds) returns null and leaves a
    store without an entry under [k]; what [getStats] counts afterwards are
    entries listed under other keys, so [e] is not in [size].  A [get k] with
    [now - createdAt <= ttl] returns the entry, its hit counter incremented,
    and the store holds it so. *)
Theorem get_ttl_expiry :
  forall (s : State) (k : string) (e : CachedResponse) (now : Z),
    enabled (config s) = true ->
    stored s k e ->
    (now - timestamp e > ttl e * 1000 ->
       exists s',
         get k now s = Returns None s' /\
         (forall e', ~ stored s' k e') /\
         exists counted stats s'',
           allEntries s' = Returns counted s'' /\
           getStats s' = Returns stats s'' /\
           size stats = Z.of_nat (List.length counted) /\
           forall c, In c counted -> exists k', k' <> k /\ listed s k' c)
    /\
    (now - timestamp e <= ttl e * 1000 ->
       exists s', get k now s = Returns (Some (hit e)) s' /\ stored s' k (hit e)).
Proof.
  intros s k e now Hen Hst. unfold stored in Hst.
  destruct (isMemory s) eqn:Hm.
  - (* the memory backend *)
    split; intros Hcmp.
    + exists (withMemory s (Map_delete (memoryCache s) k)).
      split; [now apply (get_memory_expired s k e)|]. split.
      * intros e'. unfold stored. rewrite isMemory_withMemory. rewrite Hm. simpl.
        rewrite Map_delete_get_same. discriminate.
      * assert (Hall : allEntries (withMemory s (Map_delete (memoryCache s) k))
                       = Returns (Map_values (Map_delete (memoryCache s) k))
                           (withMemory s (Map_delete (memoryCache s) k))).
        { unfold allEntries, bind, getState, ret.
          rewrite isMemory_withMemory, Hm. reflexivity. }
        destruct (getStats_size _ _ _ Hall) as (stats & Hstats & Hsize).
        exists (Map_values (Map_delete (memoryCache s) k)), stats,
          (withMemory s (Map_delete (memoryCache s) k)). repeat split; auto.
        intros c Hc. unfold Map_values in Hc. apply in_map_iff in Hc.
        destruct Hc as [[k' c'] [E Hin]]. simpl in E. subst c'.
        simpl in Hin. apply Map_delete_In in Hin. exists k'. split; [tauto|].
        unfold listed. rewrite Hm. tauto.
    + exists (withMemory s (Map_set (memoryCache s) k (hit e))). split.
      * now apply (get_memory_hit s k e).
      * unfold stored. rewrite isMemory_withMemory, Hm. simpl.
        apply Map_get_set_same.
  - (* the disk backend *)
    destruct Hst as (files & f & Hn & Hf & Hc).
    assert (Hread : getDiskCache k s = Returns (Some e) s).
    { unfold getDiskCache, bind, getState, ret. now rewrite Hn, Hf, Hc. }
    split; intros Hcmp.
    + set (s' := withNode s (Directory (Map_delete files (fileName k)))).
      exists s'.
      assert (Hget : get k now s = Returns None s').
      { unfold get, bind at 1 2, getState, ret. rewrite Hen. cbn [negb]. rewrite Hm.
        rewrite Hread. replace (now - timestamp e >? ttl e * 1000) with true
          by (symmetry; apply Z.gtb_lt; lia).
        unfold delete, bind, getState, unlinkSync. rewrite Hm, Hn.
        rewrite (Map_has_get _ _ _ Hf), Hn, (Map_has_get _ _ _ Hf). reflexivity. }
      split; [exact Hget|]. split.
      * intros e' Hst'. unfold stored in Hst'. unfold s' in Hst'.
        rewrite isMemory_withNode, Hm in Hst'.
        destruct Hst' as (files' & f' & Hn' & Hf' & _). simpl in Hn'.
        inversion Hn'; subst files'. rewrite Map_delete_get_same in Hf'. discriminate.
      * destruct (allEntries_disk s' (Map_delete files (fileName k))) as (entries & s'' & Hall & He);
          [unfold s'; now rewrite isMemory_withNode|reflexivity|].
        destruct (getStats_size _ _ _ Hall) as (stats & Hstats & Hsize).
        exists entries, stats, s''. repeat split; auto.
        intros c Hcounted. destruct (He c Hcounted) as (k' & f' & Hin & Hc').
        apply Map_delete_In in Hin. destruct Hin as [Hne Hin].
        exists k'. split; [congruence|].
        unfold listed. rewrite Hm. exists files, f'. auto.
    + exists (withNode s (Directory (Map_set files (fileName k)
                                       {| content := Json (hit e); mtime := now |}))).
      split.
      * unfold get, bind at 1 2, getState, ret. rewrite Hen. cbn [negb]. rewrite Hm.
        rewrite Hread. replace (now - timestamp e >? ttl e * 1000) with false
          by (symmetry; rewrite Z.gtb_ltb; apply Z.ltb_ge; lia).
        unfold bind, setDiskCache. rewrite Hm, Hn. reflexivity.
      * unfold stored. rewrite isMemory_withNode, Hm. simpl.
        eexists _, _. split; [reflexivity|]. split; [apply Map_get_set_same|reflexivity].
Qed.

(** *** Sample caches *)

Example set_k1 : set nodeCrypto wholeNumber k1 1000 freshCache = Returns tt afterSet.
Proof. vm_compute. reflexivity. Qed.

Example key_with_parameters :
  generateCacheKey nodeCrypto wholeNumber
    {| prompt := "hello"; key_temperature := Some 1%float; key_maxTokens := Some 256%float |}
    freshCache
  = Returns (Sha256.hex "hello|temp:1|max:256") freshCache.
Proof. vm_compute. reflexivity. Qed.

(** C7 at concrete inputs: the entry of [afterSet], created at time 1000
    with a time to live of 3600 seconds, read one millisecond after its
    expiry and read at its last valid millisecond. *)
Lemma get_ttl_expiry_witness :
  (exists s',
     get (Sha256.hex "k1") 3601001 afterSet = Returns None s' /\
     (forall e', ~ stored s' (Sha256.hex "k1") e') /\
     exists counted stats s'',
       allEntries s' = Returns counted s'' /\
       getStats s' = Returns stats s'' /\
       size stats = Z.of_nat (List.length counted) /\
       forall c, In c counted ->
         exists k', k' <> Sha256.hex "k1" /\ listed afterSet k' c)
  /\
  (exists s',
     get (Sha256.hex "k1") 3601000 afterSet = Returns (Some (hit (k1Entry 0))) s' /\
     stored s' (Sha256.hex "k1") (hit (k1Entry 0))).
Proof.
  destruct (get_ttl_expiry afterSet (Sha256.hex "k1") (k1Entry 0)) with (now := 3601001)
    as [Hexpired _]; [reflexivity|reflexivity|].
  destruct (get_ttl_expiry afterSet (Sha256.hex "k1") (k1Entry 0)) with (now := 3601000)
    as [_ Hvalid]; [reflexivity|reflexivity|].
  split.
  - apply Hexpired. simpl. lia.
  - apply Hvalid. simpl. lia.
Defined.

Example expired_entry_leaves_stats :
  exists s', get (Sha256.hex "k1") 3601001 afterSet = Returns None s' /\
    getStats s'
    = Returns {| size := 0; totalHits := 0; totalCostSaved := 0%float;
                 averageHitRate := 0%float |} s'.
Proof.
  exists (withMemory freshCache []). split; vm_compute; reflexivity.
Qed.

(** ** C1: [set] hashes the key it is given, [get] does not *)

(** What [set] does on an enabled memory cache (no sampling parameters):
    the entry goes under the digest of [params.key], after the eviction of
    the oldest entry when the cache is full. *)
Lemma set_memory createHash numberToString digest params now s :
  enabled (config s) = true ->
  isMemory s = true ->
  createHash (algorithm (hashing (config s))) = Some digest ->
  temperature params = None -> maxTokens params = None ->
  exists m,
    (forall k', Map_get (memoryCache s) k' = None -> Map_get m k' = None) /\
    set createHash numberToString params now s
    = Returns tt
        (withMemory s
           (Map_set m (digest (key params))
              {| response := set_response params; usage := set_usage params;
                 cost := set_cost params; timestamp := now;
                 ttl := match set_ttl params with
                        | Some t => if t =? 0 then default (ttl_config (config s)) else t
                        | None => default (ttl_config (config s))
                        end;
                 hitCount := 0 |})).
Proof.
  intros Hen Hm Hh Ht Hx.
  unfold set, bind at 1 2, getState, generateCacheKey, bind at 1, getState.
  rewrite Hen. cbn [negb]. rewrite Ht, Hx, Hh. unfold ret at 1. rewrite Hm.
  unfold bind, evictOldest, bind, getState, putState, ret.
  destruct (Map_size (memoryCache s) >=? maxSize (storage (config s))); cbv beta;
    rewrite ?Hm.
  - destruct (Map_keys (memoryCache s)) as [|oldestKey rest].
    + exists (memoryCache s). split; [auto|reflexivity].
    + destruct (String.eqb oldestKey "").
      * exists (memoryCache s). split; [auto|reflexivity].
      * exists (Map_delete (memoryCache s) oldestKey). split; [|reflexivity].
        intros k' Hk'. apply Map_get_None. apply Map_get_None in Hk'.
        intros Hin. apply Hk'. unfold Map_keys in *. apply in_map_iff in Hin.
        destruct Hin as [[k0 v] [E Hin]]. simpl in E. subst k0.
        apply Map_delete_In in Hin. change k' with (fst (k', v)). apply in_map. tauto.
  - exists (memoryCache s). split; [auto|reflexivity].
Qed.

(** After [set({key: k, ...})], [get(k)] misses unless [k] is its own
    digest or an entry was under [k] before. *)
Lemma set_then_get_misses createHash numberToString digest params now later s :
  enabled (config s) = true ->
  isMemory s = true ->
  createHash (algorithm (hashing (config s))) = Some digest ->
  temperature params = None -> maxTokens params = None ->
  digest (key params) <> key params ->
  Map_get (memoryCache s) (key params) = None ->
  exists s', set createHash numberToString params now s = Returns tt s' /\
    get (key params) later s' = Returns None s'.
Proof.
  intros Hen Hm Hh Ht Hx Hd Hnone.
  destruct (set_memory createHash numberToString digest params now s Hen Hm Hh Ht Hx)
    as (m & Hkeep & Hset).
  eexists. split; [exact Hset|].
  unfold get, bind, getState, ret. cbn [config withMemory]. rewrite Hen. cbn [negb].
  rewrite isMemory_withMemory, Hm. cbn [memoryCache withMemory].
  rewrite Map_get_set_other by congruence. now rewrite (Hkeep _ Hnone).
Qed.

(** Read through the digest instead, the entry is returned, and a second
    read within the time to live returns it with [hitCount = 2]. *)
Lemma set_then_get_digest createHash numberToString digest params now t1 t2 s :
  enabled (config s) = true ->
  isMemory s = true ->
  createHash (algorithm (hashing (config s))) = Some digest ->
  temperature params = None -> maxTokens params = None ->
  set_ttl params = None ->
  t1 - now <= default (ttl_config (config s)) * 1000 ->
  t2 - now <= default (ttl_config (config s)) * 1000 ->
  exists s0 s1 s2 e1 e2,
    set createHash numberToString params now s = Returns tt s0 /\
    get (digest (key params)) t1 s0 = Returns (Some e1) s1 /\
    get (digest (key params)) t2 s1 = Returns (Some e2) s2 /\
    response e1 = set_response params /\ hitCount e1 = 1 /\
    response e2 = set_response params /\ hitCount e2 = 2.
Proof.
  intros Hen Hm Hh Ht Hx Httl H1 H2.
  destruct (set_memory createHash numberToString digest params now s Hen Hm Hh Ht Hx)
    as (m & _ & Hset). rewrite Httl in Hset.
  set (e0 := {| response := set_response params; usage := set_usage params;
                cost := set_cost params; timestamp := now;
                ttl := default (ttl_config (config s)); hitCount := 0 |}) in *.
  set (s0 := withMemory s (Map_set m (digest (key params)) e0)) in *.
  set (s1 := withMemory s0 (Map_set (memoryCache s0) (digest (key params)) (hit e0))).
  exists s0, s1, (withMemory s1 (Map_set (memoryCache s1) (digest (key params)) (hit (hit e0)))),
    (hit e0), (hit (hit e0)).
  split; [exact Hset|]. split; [|split; [|repeat split]].
  - apply get_memory_hit; auto. apply Map_get_set_same.
  - apply get_memory_hit; auto. apply Map_get_set_same.
Qed.

(** C1 at the input of the specification.  On a fresh cache,
    [set({key: "k1", response: "R", usage: {input: 100, output: 50},
    cost: 0.01})] stores the entry under the SHA-256 digest of "k1", with
    [hitCount = 0]; [get("k1")] then returns null, both times; only a [get]
    of the digest returns the response, with [hitCount = 2] at the second
    read. *)
Theorem set_then_get_k1 :
  set nodeCrypto wholeNumber k1 1000 freshCache = Returns tt afterSet /\
  memoryCache afterSet = [(Sha256.hex "k1", k1Entry 0)] /\
  get "k1" 2000 afterSet = Returns None afterSet /\
  get "k1" 3000 afterSet = Returns None afterSet /\
  get (Sha256.hex "k1") 2000 afterSet
  = Returns (Some (k1Entry 1)) (withMemory freshCache [(Sha256.hex "k1", k1Entry 1)]) /\
  get (Sha256.hex "k1") 3000 (withMemory freshCache [(Sha256.hex "k1", k1Entry 1)])
  = Returns (Some (k1Entry 2)) (withMemory freshCache [(Sha256.hex "k1", k1Entry 2)]).
Proof.
  split; [vm_compute; reflexivity|]. split; [reflexivity|].
  split; [vm_compute; reflexivity|]. split; [vm_compute; reflexivity|].
  split; vm_compute; reflexivity.
Qed.

(** ** C8: the time to live that [set] stores *)

(** Without a [ttl] parameter (and with [ttl: 0]) the entry gets the global
    default; [perModel] is not read. *)
Lemma set_ttl_default createHash numberToString digest params now s :
  enabled (config s) = true ->
  isMemory s = true ->
  createHash (algorithm (hashing (config s))) = Some digest ->
  temperature params = None -> maxTokens params = None ->
  set_ttl params = None ->
  exists s' e,
    set createHash numberToString params now s = Returns tt s' /\
    Map_get (memoryCache s') (digest (key params)) = Some e /\
    ttl e = default (ttl_config (config s)).
Proof.
  intros Hen Hm Hh Ht Hx Httl.
  destruct (set_memory createHash numberToString digest params now s Hen Hm Hh Ht Hx)
    as (m & _ & Hset). rewrite Httl in Hset.
  eexists _, _. split; [exact Hset|]. split; [apply Map_get_set_same|reflexivity].
Qed.

(** C8 at a concrete input.  The default configuration gives "gpt-4o" a
    time to live of 7200 seconds; [set] has no model parameter, and the entry
    it stores without a [ttl] parameter gets the global default 3600,
    whichever model produced the response. *)
Theorem set_ignores_perModel :
  Map_get (perModel (ttl_config (config freshCache))) "gpt-4o" = Some 7200 /\
  default (ttl_config (config freshCache)) = 3600 /\
  exists s' e,
    set nodeCrypto wholeNumber k1 1000 freshCache = Returns tt s' /\
    Map_get (memoryCache s') (Sha256.hex "k1") = Some e /\
    ttl e = 3600.
Proof.
  split; [reflexivity|]. split; [reflexivity|].
  apply (set_ttl_default nodeCrypto wholeNumber Sha256.hex k1 1000 freshCache);
    reflexivity.
Qed.

(** ** C9: [clear] *)

Lemma clear_memory s :
  isMemory s = true ->
  clear s = Returns tt (withMemory s []) /\
  exists stats, getStats (withMemory s []) = Returns stats (withMemory s []) /\
    size stats = 0.
Proof.
  intros Hm. split.
  - unfold clear, bind, getState, putState. now rewrite Hm.
  - apply (getStats_size (withMemory s []) []).
    unfold allEntries, bind, getState, ret. now rewrite isMemory_withMemory, Hm.
Qed.

(** On the disk backend [clear] reads the storage path with [readFileSync];
    the path is a directory, so the read throws and no file is deleted. *)
Lemma clear_disk_throws s files :
  isMemory s = false -> node s = Directory files ->
  clear s = Throws "EISDIR: illegal operation on a directory, read" s.
Proof.
  intros Hm Hn. unfold clear, bind, getState, throw. now rewrite Hm, Hn.
Qed.

(** A disk cache that was just constructed has a directory (or a regular
    file that was there before) at its storage path. *)
Lemma new_disk_node partial home fs :
  isMemory (new partial home fs) = false -> node (new partial home fs) <> Absent.
Proof.
  destruct partial as [[en [[[|] pth mx]|] tl hs]|]; unfold new, isMemory;
    cbn [orDefault partial_enabled partial_storage partial_ttl partial_hashing
         storage storage_type config node defaultConfig];
    try discriminate.
  intros _. match goal with |- context [fs ?p] => destruct (fs p) end; discriminate.
Qed.

(** [getDiskCacheFiles] lists no file, whatever the directory holds: its
    [require] throws and the error is caught. *)
Lemma getDiskCacheFiles_empty s : getDiskCacheFiles s = [].
Proof. unfold getDiskCacheFiles. destruct (node s); reflexivity. Qed.

(** So [getStats] counts nothing on the disk backend. *)
Lemma getStats_disk s :
  isMemory s = false ->
  getStats s
  = Returns {| size := 0; totalHits := 0; totalCostSaved := 0%float;
               averageHitRate := 0%float |} s.
Proof.
  intros Hm. unfold getStats, allEntries, getAllDiskCache, bind, getState.
  rewrite Hm, getDiskCacheFiles_empty. reflexivity.
Qed.

(** C9 at a concrete input.  A disk cache that holds one entry: [clear]
    throws and deletes nothing, the cache file is still there with its
    entry, and [getStats] reports size 0 all the same, as it does on every
    disk cache ([getStats_disk]).  (On the memory backend [clear] does empty
    the map: [clear_memory].) *)
Theorem clear_disk_fails :
  set nodeCrypto wholeNumber k1 1000 freshDiskCache = Returns tt diskAfterSet /\
  clear diskAfterSet
  = Throws "EISDIR: illegal operation on a directory, read" diskAfterSet /\
  stored diskAfterSet (Sha256.hex "k1") (k1Entry 0) /\
  getStats diskAfterSet
  = Returns {| size := 0; totalHits := 0; totalCostSaved := 0%float;
               averageHitRate := 0%float |} diskAfterSet.
Proof.
  split; [vm_compute; reflexivity|]. split; [vm_compute; reflexivity|]. split.
  - unfold stored. replace (isMemory diskAfterSet) with false by reflexivity.
    exists [(fileName (Sha256.hex "k1"), {| content := Json (k1Entry 0); mtime := 1000 |})],
      {| content := Json (k1Entry 0); mtime := 1000 |}.
    split; [reflexivity|]. split; [vm_compute; reflexivity|reflexivity].
  - apply getStats_disk. reflexivity.
Qed.

End CacheFacts.

Section FloatOrder.

Local Open Scope float_scope.

Lemma SFleb_trans (a x b : spec_float) :
  SFleb a x = true -> SFleb x b = true -> SFleb a b = true.
Proof.
  unfold SFleb.
  destruct a as [sa|sa| |sa ma ea], x as [sx|sx| |sx mx ex], b as [sb|sb| |sb mb eb];
    cbn [SFcompare]; try discriminate; try reflexivity;
    repeat match goal with s : bool |- _ => destruct s end;
    try discriminate; try reflexivity.
  all: change (Pos.compare_cont Eq ma mx) with (Pos.compare ma mx);
       change (Pos.compare_cont Eq mx mb) with (Pos.compare mx mb);
       change (Pos.compare_cont Eq ma mb) with (Pos.compare ma mb).
  all: destruct (Z.compare_spec ea ex); try discriminate;
       destruct (Z.compare_spec ex eb); try discriminate;
       destruct (Z.compare_spec ea eb); try reflexivity; try lia; subst.
  all: destruct (Pos.compare_spec ma mx); try discriminate;
       destruct (Pos.compare_spec mx mb); try discriminate;
       destruct (Pos.compare_spec ma mb); try reflexivity; try discriminate; try lia.
Qed.

Lemma leb_trans (a x b : float) :
  (a <=? x) = true -> (x <=? b) = true -> (a <=? b) = true.
Proof. rewrite !leb_spec. apply SFleb_trans. Qed.

End FloatOrder.

Section SortedFacts.

Context {A : Type}.

(** Every element of the sorted array is above the ones behind it, for an
    order [R] that the test decides on the elements (those with [P]). *)
Lemma toSortedBy_sorted (behind : A -> A -> bool) (P : A -> Prop) (R : A -> A -> Prop) :
  (forall x y, P x -> P y -> behind x y = true -> R y x) ->
  (forall x y, P x -> P y -> behind x y = false -> R x y) ->
  (forall x y z, P x -> P y -> P z -> R x y -> R y z -> R x z) ->
  forall l, Forall P l -> StronglySorted R (toSortedBy behind l).
Proof.
  intros Hgt Hle Htrans.
  assert (Hins : forall x s, P x -> Forall P s -> StronglySorted R s ->
            StronglySorted R (insert_sorted behind x s)).
  { intros x s Px. induction s as [|y s IH]; intros Ps Hs; simpl.
    - constructor; constructor.
    - inversion Ps as [|? ? Py Ps']; subst. inversion Hs as [|? ? Hs' Hy]; subst.
      destruct (behind x y) eqn:B.
      + constructor; [now apply IH|].
        apply Forall_forall. intros z Hz. apply insert_sorted_In in Hz.
        destruct Hz as [->|Hz]; [now apply Hgt|].
        rewrite Forall_forall in Hy. now apply Hy.
      + constructor; [exact Hs|].
        constructor; [now apply Hle|].
        apply Forall_forall. intros z Hz.
        rewrite Forall_forall in Hy, Ps'.
        apply (Htrans x y z); auto. }
  induction l as [|x l IH]; intros HP; simpl; [constructor|].
  inversion HP; subst. apply Hins; auto.
  apply Forall_forall. intros z Hz. apply toSortedBy_In in Hz.
  rewrite Forall_forall in H2. now apply H2.
Qed.

Lemma filter_sorted (R : A -> A -> Prop) (f : A -> bool) (l : list A) :
  StronglySorted R l -> StronglySorted R (filter f l).
Proof.
  induction 1 as [|x l Hl IH Hx]; simpl; [constructor|].
  destruct (f x); [|exact IH].
  constructor; [exact IH|].
  apply Forall_forall. intros z Hz. apply filter_In in Hz.
  rewrite Forall_forall in Hx. now apply Hx.
Qed.

Lemma sorted_head (R : A -> A -> Prop) (h : A) (t : list A) :
  StronglySorted R (h :: t) -> forall y, In y t -> R h y.
Proof.
  intros H y Hy. inversion H as [|? ? _ Hh]; subst.
  rewrite Forall_forall in Hh. now apply Hh.
Qed.

End SortedFacts.

Section SelectionFacts.

Import ModelSelector.
Local Open Scope float_scope.

Ltac each_model H :=
  apply knownModel_cases in H;
  destruct H as [H|[H|[H|[H|[H|H]]]]]; subst.

Lemma scoreModels_score models criteria s :
  In s (scoreModels models criteria) ->
  score s = modelScore criteria (model (scored_model s)).
Proof.
  unfold scoreModels. rewrite in_flat_map. intros [m [Hin H]].
  unfold modelScore.
  destruct (Map_get modelProfiles (model m)) as [profile|] eqn:G; [|destruct H].
  destruct H as [<-|[]]. cbn [score scored_model]. rewrite G. reflexivity.
Qed.

(** The comparator of the sort agrees with the order of the scores, for
    every pair of registry models and every criteria. *)
Lemma modelScore_order criteria a b :
  knownModel a -> knownModel b ->
  (if 0 <? modelScore criteria b - modelScore criteria a
   then modelScore criteria a <=? modelScore criteria b
   else modelScore criteria b <=? modelScore criteria a) = true.
Proof.
  intros Ha Hb.
  destruct criteria as [tt [] [] [] br cl [[]|] rm];
    each_model Ha; each_model Hb; vm_compute; reflexivity.
Qed.


(** The sorted candidates of [selectOptimalModel] are in descending order of
    score. *)
Lemma sortedModels_descending models criteria :
  StronglySorted
    (fun a b => (modelScore criteria (model (scored_model b))
                 <=? modelScore criteria (model (scored_model a))) = true)
    (toSorted (fun a b => score b - score a) (scoreModels models criteria)).
Proof.
  apply (toSortedBy_sorted _ (fun s => In s (scoreModels models criteria))).
  - intros x y Hx Hy. cbv beta.
    rewrite (scoreModels_score _ _ _ Hx), (scoreModels_score _ _ _ Hy).
    apply scoreModels_In in Hx, Hy.
    pose proof (modelScore_order criteria _ _ (proj2 Hx) (proj2 Hy)) as O.
    intros B. rewrite B in O. exact O.
  - intros x y Hx Hy. cbv beta.
    rewrite (scoreModels_score _ _ _ Hx), (scoreModels_score _ _ _ Hy).
    apply scoreModels_In in Hx, Hy.
    pose proof (modelScore_order criteria _ _ (proj2 Hx) (proj2 Hy)) as O.
    intros B. rewrite B in O. exact O.
  - intros x y z _ _ _ H1 H2. exact (leb_trans _ _ _ H2 H1).
  - apply Forall_forall. auto.
Qed.

Lemma modelScore_refl criteria a :
  knownModel a -> (modelScore criteria a <=? modelScore criteria a) = true.
Proof.
  intros Ha. pose proof (modelScore_order criteria a a Ha Ha) as O.
  destruct (0 <? modelScore criteria a - modelScore criteria a); exact O.
Qed.

(** The head of any filtered part of the sorted candidates has the highest
    score among the available models that the filter keeps. *)
Lemma filtered_head_best config criteria f h t :
  filter f (toSorted (fun a b => score b - score a)
              (scoreModels (getAvailableModels config criteria) criteria)) = h :: t ->
  In (scored_model h) (getAvailableModels config criteria) /\
  f h = true /\
  forall s, In s (scoreModels (getAvailableModels config criteria) criteria) ->
    f s = true ->
    (modelScore criteria (model (scored_model s))
     <=? modelScore criteria (model (scored_model h))) = true.
Proof.
  intros F.
  pose proof (filter_sorted _ f _
    (sortedModels_descending (getAvailableModels config criteria) criteria)) as S.
  rewrite F in S.
  assert (Hh : In h (filter f (toSorted (fun a b => score b - score a)
              (scoreModels (getAvailableModels config criteria) criteria))))
    by (rewrite F; now left).
  apply filter_In in Hh. destruct Hh as [Hh Hf].
  apply toSorted_In in Hh. pose proof (scoreModels_In _ _ _ Hh) as [Ha Hk].
  split; [exact Ha|]. split; [exact Hf|].
  intros s Hs Hfs.
  assert (Hin : In s (h :: t)).
  { rewrite <- F. apply filter_In. split; [|exact Hfs]. now apply toSorted_In. }
  destruct Hin as [<-|Hin].
  - now apply modelScore_refl.
  - exact (sorted_head _ _ _ S s Hin).
Qed.

Lemma filter_true {A} (l : list A) : filter (fun _ => true) l = l.
Proof. induction l as [|x l IH]; simpl; congruence. Qed.

(** X1.  Without a budget (none given, or a falsy one), the selected model has
    the highest score among the available models. *)
Theorem selector_best_score config criteria r :
  truthy_opt (budgetRemaining criteria) = false ->
  selectOptimalModel config criteria = Ok r ->
  In r (getAvailableModels config criteria) /\
  forall m, In m (getAvailableModels config criteria) ->
    (modelScore criteria (model m) <=? modelScore criteria (model r)) = true.
Proof.
  intros Hb. unfold selectOptimalModel.
  match goal with |- context [toSorted ?c ?l] =>
    destruct (toSorted c l) as [|h t] eqn:S end; [discriminate|].
  assert (E : applyBudgetConstraints (h :: t) criteria = Ok (scored_model h)).
  { unfold applyBudgetConstraints.
    destruct (budgetRemaining criteria) as [b|]; [|reflexivity].
    simpl in Hb. rewrite Hb. reflexivity. }
  rewrite E. intros H. inversion H; subst r. clear H E.
  rewrite <- (filter_true (toSorted _ _)) in S.
  destruct (filtered_head_best _ _ _ _ _ S) as (Ha & _ & Hmax).
  split; [exact Ha|]. intros m Hm.
  destruct (scoreModels_known _ criteria m Hm (getAvailableModels_known _ _ _ Hm))
    as (s & Hs & <-).
  now apply Hmax.
Qed.

Lemma selector_best_score_witness :
  In {| provider := "openai"; model := "gpt-4o" |}
     (getAvailableModels fullConfig (textCriteria None)) /\
  forall m, In m (getAvailableModels fullConfig (textCriteria None)) ->
    (modelScore (textCriteria None) (model m)
     <=? modelScore (textCriteria None) "gpt-4o") = true.
Proof.
  apply (selector_best_score fullConfig (textCriteria None)
           {| provider := "openai"; model := "gpt-4o" |}).
  - reflexivity.
  - vm_compute. reflexivity.
Defined.

(** X2.  With a budget that some available model fits, the selected model fits
    the budget and has the highest score among the available models that fit. *)
Theorem selector_best_affordable config criteria budget m0 :
  budgetRemaining criteria = Some budget ->
  truthy budget = true ->
  In m0 (getAvailableModels config criteria) ->
  (getModelCostEstimate (model m0) 1000 500 <=? budget) = true ->
  exists r,
    selectOptimalModel config criteria = Ok r /\
    In r (getAvailableModels config criteria) /\
    (getModelCostEstimate (model r) 1000 500 <=? budget) = true /\
    forall m, In m (getAvailableModels config criteria) ->
      (getModelCostEstimate (model m) 1000 500 <=? budget) = true ->
      (modelScore criteria (model m) <=? modelScore criteria (model r)) = true.
Proof.
  intros Hb Ht Hm0 Hfit0.
  set (fits := fun s : Scored =>
         match Map_get modelProfiles (model (scored_model s)) with
         | None => false
         | Some _ => getModelCostEstimate (model (scored_model s)) 1000 500 <=? budget
         end).
  assert (Hfits : forall s, knownModel (model (scored_model s)) ->
            fits s = (getModelCostEstimate (model (scored_model s)) 1000 500 <=? budget)).
  { intros s Hk. apply knownModel_get in Hk. destruct Hk as [p Hp].
    unfold fits. rewrite Hp. reflexivity. }
  destruct (scoreModels_known _ criteria m0 Hm0 (getAvailableModels_known _ _ _ Hm0))
    as (s0 & Hs0 & E0).
  assert (Hf0 : fits s0 = true).
  { rewrite Hfits; rewrite E0; [exact Hfit0|]. eapply getAvailableModels_known; eauto. }
  destruct (filter fits (toSorted (fun a b => score b - score a)
              (scoreModels (getAvailableModels config criteria) criteria)))
    as [|h t] eqn:F.
  { assert (In s0 []) as [].
    rewrite <- F. apply filter_In. split; [|exact Hf0]. now apply toSorted_In. }
  destruct (filtered_head_best _ _ _ _ _ F) as (Ha & Hfh & Hmax).
  exists (scored_model h). split; [|split; [exact Ha|split]].
  - unfold selectOptimalModel.
    match goal with |- context [toSorted ?c ?l] =>
      destruct (toSorted c l) as [|h1 t1] eqn:S end; [discriminate|].
    unfold applyBudgetConstraints. rewrite Hb, Ht.
    cbv beta iota delta [negb]. fold fits. rewrite F. reflexivity.
  - rewrite <- Hfits; [exact Hfh|]. eapply getAvailableModels_known; eauto.
  - intros m Hm Hfit.
    destruct (scoreModels_known _ criteria m Hm (getAvailableModels_known _ _ _ Hm))
      as (s & Hs & <-).
    apply Hmax; [exact Hs|].
    rewrite Hfits; [exact Hfit|]. apply scoreModels_In in Hs. tauto.
Qed.

Lemma selector_best_affordable_witness :
  exists r,
    selectOptimalModel fullConfig (textCriteria (Some 0.003)) = Ok r /\
    In r (getAvailableModels fullConfig (textCriteria (Some 0.003))) /\
    (getModelCostEstimate (model r) 1000 500 <=? 0.003) = true /\
    forall m, In m (getAvailableModels fullConfig (textCriteria (Some 0.003))) ->
      (getModelCostEstimate (model m) 1000 500 <=? 0.003) = true ->
      (modelScore (textCriteria (Some 0.003)) (model m)
       <=? modelScore (textCriteria (Some 0.003)) (model r)) = true.
Proof.
  apply (selector_best_affordable fullConfig (textCriteria (Some 0.003)) 0.003
           {| provider := "openai"; model := "gpt-4o-mini" |}).
  - reflexivity.
  - reflexivity.
  - vm_compute. tauto.
  - reflexivity.
Defined.

(** X3.  [selectOptimalModel] returns a model exactly when some model is
    available; its only error is the one for the empty candidate list. *)
Theorem selector_returns_iff_available config criteria :
  match selectOptimalModel config criteria with
  | Ok r => In r (getAvailableModels config criteria)
  | Throw message =>
      message = no_suitable_models /\ getAvailableModels config criteria = []
  end.
Proof.
  destruct (selectOptimalModel config criteria) as [r|message] eqn:E.
  - now apply selectOptimalModel_In.
  - destruct (getAvailableModels config criteria) as [|m0 l] eqn:A.
    + rewrite (selectOptimalModel_none _ _ A) in E. inversion E. auto.
    + exfalso.
      assert (Hm0 : In m0 (getAvailableModels config criteria)) by (rewrite A; now left).
      destruct (scoreModels_known _ criteria m0 Hm0 (getAvailableModels_known _ _ _ Hm0))
        as (s0 & Hs0 & E0).
      unfold selectOptimalModel in E. rewrite A in E. rewrite A in Hs0.
      match type of E with context [toSorted ?c ?l] =>
        destruct (toSorted c l) as [|h t] eqn:S end.
      { apply toSorted_nil in S. rewrite S in Hs0. destruct Hs0. }
      unfold applyBudgetConstraints in E.
      destruct (budgetRemaining criteria) as [b|]; [|discriminate].
      destruct (negb (truthy b)); [discriminate|].
      match type of E with context [filter ?f (h :: t)] =>
        destruct (filter f (h :: t)) as [|h2 t2] end; [|discriminate].
      match type of E with context [toSorted ?c (h :: t)] =>
        destruct (toSorted c (h :: t)) as [|h3 t3] eqn:S3 end; [|discriminate].
      apply toSorted_nil in S3. discriminate.
Qed.


(** ** Upgrades *)

Lemma findBetterModels_In config currentProfile criteria r :
  In r (findBetterModels config currentProfile criteria) <->
  exists profile,
    In (model r, profile) modelProfiles /\
    (perf_quality (performance profile)
     <=? perf_quality (performance currentProfile)) = false /\
    capability (capabilities profile) (taskType criteria) = true /\
    findModelInConfig config (model r) = Some r.
Proof.
  unfold findBetterModels. rewrite in_flat_map. split.
  - intros [[modelId profile] [Hin H]].
    destruct (perf_quality (performance profile)
              <=? perf_quality (performance currentProfile)) eqn:Q; [destruct H|].
    destruct (capability (capabilities profile) (taskType criteria)) eqn:C; [|destruct H].
    simpl in H.
    destruct (findModelInConfig config modelId) as [r'|] eqn:Hf; [|destruct H].
    destruct H as [->|[]].
    destruct (findModelInConfig_Some _ _ _ Hf) as [Hm _]. subst modelId.
    exists profile. auto.
  - intros (profile & Hin & Q & C & Hf).
    exists (model r, profile). split; [exact Hin|].
    rewrite Q, C, Hf. now left.
Qed.

(** On the registry, "not at most" is "above": no quality is [NaN]. *)
Lemma quality_above p q a b :
  In (a, p) modelProfiles -> In (b, q) modelProfiles ->
  (perf_quality (performance p) <=? perf_quality (performance q)) = false ->
  (perf_quality (performance q) <? perf_quality (performance p)) = true.
Proof.
  simpl. intros Hp Hq.
  repeat (destruct Hp as [Hp|Hp]; [inversion Hp; subst; clear Hp|]); [..|destruct Hp];
  repeat (destruct Hq as [Hq|Hq]; [inversion Hq; subst; clear Hq|]); try (destruct Hq);
  vm_compute; intros H; first [reflexivity | discriminate].
Qed.

(** X4.  [shouldUpgradeModel] proposes an upgrade only for a task of high
    complexity and a registry model of quality below 7; the model it
    recommends is of strictly higher quality, handles text, is listed in the
    configuration under the returned provider, and fits a non-zero budget. *)
Theorem shouldUpgradeModel_sound config params r :
  recommendedModel (shouldUpgradeModel config params) = Some r ->
  shouldUpgrade (shouldUpgradeModel config params) = true /\
  taskComplexity params = high /\
  (modelQuality (model (currentModel params)) <? 7) = true /\
  (modelQuality (model (currentModel params)) <? modelQuality (model r)) = true /\
  (exists profile, Map_get modelProfiles (model r) = Some profile /\
                   cap_text (capabilities profile) = true) /\
  findModelInConfig config (model r) = Some r /\
  forall budget, upgrade_budgetRemaining params = Some budget -> truthy budget = true ->
    (getModelCostEstimate (model r) 1000 500 <=? budget) = true.
Proof.
  unfold shouldUpgradeModel, modelQuality.
  destruct (Map_get modelProfiles (model (currentModel params))) as [cur|] eqn:G;
    [|discriminate].
  destruct (taskComplexity params) eqn:C; try discriminate.
  cbv beta iota delta [andb].
  destruct (perf_quality (performance cur) <? 7) eqn:Q; [|discriminate].
  match goal with |- context [findBetterModels config cur ?c] =>
    destruct (findBetterModels config cur c) as [|first rest] eqn:B end; [discriminate|].
  destruct (checkAffordability first (upgrade_budgetRemaining params)) eqn:Af;
    [|discriminate].
  cbn [recommendedModel shouldUpgrade]. intros H. inversion H; subst first. clear H.
  assert (Hr : In r (r :: rest)) by now left.
  rewrite <- B in Hr. apply findBetterModels_In in Hr.
  destruct Hr as (profile & Hin & Hq & Hc & Hf).
  destruct (modelProfiles_get _ _ Hin) as [Hg _]. rewrite Hg.
  split; [reflexivity|]. split; [reflexivity|]. split; [reflexivity|].
  split; [eapply quality_above; eauto using Map_get_In|].
  split; [exists profile; split; [reflexivity|exact Hc]|].
  split; [exact Hf|].
  intros budget Hb Ht. unfold checkAffordability in Af.
  rewrite Hb, Ht, Hg in Af. exact Af.
Qed.

Lemma shouldUpgradeModel_sound_witness :
  shouldUpgrade (shouldUpgradeModel fullConfig (upgradeFrom "gpt-3.5-turbo" (Some 0.02))) = true /\
  taskComplexity (upgradeFrom "gpt-3.5-turbo" (Some 0.02)) = high /\
  (modelQuality "gpt-3.5-turbo" <? 7) = true /\
  (modelQuality "gpt-3.5-turbo" <? modelQuality "claude-3-5-sonnet-20241022") = true /\
  (exists profile, Map_get modelProfiles "claude-3-5-sonnet-20241022" = Some profile /\
                   cap_text (capabilities profile) = true) /\
  findModelInConfig fullConfig "claude-3-5-sonnet-20241022"
    = Some {| provider := "anthropic"; model := "claude-3-5-sonnet-20241022" |} /\
  forall budget, Some 0.02 = Some budget -> truthy budget = true ->
    (getModelCostEstimate "claude-3-5-sonnet-20241022" 1000 500 <=? budget) = true.
Proof.
  apply (shouldUpgradeModel_sound fullConfig (upgradeFrom "gpt-3.5-turbo" (Some 0.02))
           {| provider := "anthropic"; model := "claude-3-5-sonnet-20241022" |}).
  vm_compute. reflexivity.
Defined.

(** X5.  Only the first better model, in the order of the registry, is tried:
    when it does not fit the budget no upgrade is proposed, whatever the
    other better models cost. *)
Theorem shouldUpgradeModel_first_only config params cur first rest budget :
  Map_get modelProfiles (model (currentModel params)) = Some cur ->
  findBetterModels config cur
    {| taskType := text; complexity := taskComplexity params; urgency := medium;
       costSensitivity := upgrade_costSensitivity params;
       budgetRemaining := upgrade_budgetRemaining params;
       contextLength := None; requiresReasoning := None;
       requiresMultimodal := None |} = first :: rest ->
  upgrade_budgetRemaining params = Some budget ->
  truthy budget = true ->
  (budget <? getModelCostEstimate (model first) 1000 500) = true ->
  shouldUpgradeModel config params = noUpgrade.
Proof.
  intros G B Hb Ht Hlt. unfold shouldUpgradeModel. rewrite G.
  destruct (_ && _); [|reflexivity].
  cbv zeta. rewrite B.
  assert (Af : checkAffordability first (upgrade_budgetRemaining params) = false).
  { unfold checkAffordability. rewrite Hb, Ht. cbv beta iota delta [negb].
    destruct (Map_get modelProfiles (model first)); [|reflexivity].
    now apply ltb_leb_false. }
  rewrite Af. reflexivity.
Qed.

Lemma shouldUpgradeModel_first_only_witness :
  shouldUpgradeModel fullConfig (upgradeFrom "gpt-3.5-turbo" (Some 0.005)) = noUpgrade.
Proof.
  refine (shouldUpgradeModel_first_only fullConfig
            (upgradeFrom "gpt-3.5-turbo" (Some 0.005)) _
            {| provider := "anthropic"; model := "claude-3-5-sonnet-20241022" |}
            _ 0.005 _ _ _ _ _).
  - vm_compute. reflexivity.
  - vm_compute. reflexivity.
  - reflexivity.
  - reflexivity.
  - reflexivity.
Defined.

(** The cheaper better model that is passed over in the sample. *)
Example upgrade_passes_over_haiku :
  shouldUpgradeModel fullConfig (upgradeFrom "gpt-3.5-turbo" (Some 0.005)) = noUpgrade
  /\ (getModelCostEstimate "claude-3-5-haiku-20241022" 1000 500 <=? 0.005) = true
  /\ (modelQuality "gpt-3.5-turbo" <? modelQuality "claude-3-5-haiku-20241022") = true.
Proof. vm_compute. auto. Qed.

End SelectionFacts.

Section SwitchFacts.

Import BudgetEnforcer.
Local Open Scope float_scope.

(** [shouldUseCheaperModel] says to switch exactly when the configuration
    gives the current model a cost threshold that counts and the estimated
    cost is above it; the enforcer's own cost controls play no part. *)
Lemma shouldUseCheaperModel_switch this currentModel estimatedCost complexity sensitivity config :
  shouldSwitch (shouldUseCheaperModel this currentModel estimatedCost complexity
                  sensitivity config) =
  match thresholdOf config currentModel with
  | Some threshold => threshold <? estimatedCost
  | None => false
  end.
Proof.
  unfold shouldUseCheaperModel, thresholdOf.
  destruct (configuredModelBudgets config) as [budgets|]; [|reflexivity].
  destruct (Map_get budgets currentModel) as [b|]; [|reflexivity].
  destruct (costThreshold b) as [threshold|]; [|reflexivity].
  cbn [truthy_opt]. destruct (truthy threshold); [|reflexivity].
  cbn [negb]. destruct (threshold <? estimatedCost); reflexivity.
Qed.

(** X6.  A recommendation comes only with a switch; it is the entry of the
    fallback table for the current model, is never the current model itself,
    is cheaper than the current model by the selector's price table, and is
    always attributed to the provider "openai". *)
Theorem shouldUseCheaperModel_recommendation this currentModel estimatedCost complexity
    sensitivity config r :
  recommendedModel (shouldUseCheaperModel this currentModel estimatedCost complexity
                      sensitivity config) = Some r ->
  shouldSwitch (shouldUseCheaperModel this currentModel estimatedCost complexity
                  sensitivity config) = true /\
  provider r = "openai" /\
  Map_get modelFallbacks currentModel = Some (model r) /\
  model r <> currentModel /\
  (ModelSelector.priceSum (model r) <? ModelSelector.priceSum currentModel) = true.
Proof.
  unfold shouldUseCheaperModel, findCheaperModel.
  destruct (configuredModelBudgets config) as [budgets|]; [|discriminate].
  destruct (Map_get budgets currentModel) as [b|]; [|discriminate].
  destruct (negb (truthy_opt (costThreshold b))); [discriminate|].
  destruct (costThreshold b) as [threshold|]; [|discriminate].
  destruct (threshold <? estimatedCost); [|discriminate].
  cbn [recommendedModel shouldSwitch].
  destruct (Map_get modelFallbacks currentModel) as [cheaper|] eqn:G; [|discriminate].
  destruct (String.eqb cheaper ""); [discriminate|].
  intros H. inversion H; subst r. cbn [provider model].
  split; [reflexivity|]. split; [reflexivity|]. split; [reflexivity|].
  apply Map_get_In in G. simpl in G.
  destruct G as [G|[G|[G|[]]]]; inversion G; subst;
    (split; [discriminate | vm_compute; reflexivity]).
Qed.

Lemma shouldUseCheaperModel_recommendation_witness :
  shouldSwitch (shouldUseCheaperModel (new None) "claude-3-5-sonnet-20241022" 0.5 ModelSelector.low
                  ModelSelector.low
                  (Some (thresholdConfig "claude-3-5-sonnet-20241022" 0.1))) = true /\
  "openai" = "openai" /\
  Map_get modelFallbacks "claude-3-5-sonnet-20241022" = Some "claude-3-5-haiku-20241022" /\
  "claude-3-5-haiku-20241022" <> "claude-3-5-sonnet-20241022" /\
  (ModelSelector.priceSum "claude-3-5-haiku-20241022"
   <? ModelSelector.priceSum "claude-3-5-sonnet-20241022") = true.
Proof.
  apply (shouldUseCheaperModel_recommendation (new None) "claude-3-5-sonnet-20241022" 0.5
           ModelSelector.low ModelSelector.low
           (Some (thresholdConfig "claude-3-5-sonnet-20241022" 0.1))
           {| provider := "openai"; model := "claude-3-5-haiku-20241022" |}).
  vm_compute. reflexivity.
Defined.

(** The recommendation for Anthropic's model names "openai" as provider,
    under which no configuration of the samples lists the model. *)
Example cheaper_than_sonnet :
  shouldUseCheaperModel (new None) "claude-3-5-sonnet-20241022" 0.5 ModelSelector.low
    ModelSelector.low (Some (thresholdConfig "claude-3-5-sonnet-20241022" 0.1))
  = {| shouldSwitch := true;
       recommendedModel :=
         Some {| provider := "openai"; model := "claude-3-5-haiku-20241022" |} |}
  /\ ModelSelector.findModelInConfig fullConfig "claude-3-5-haiku-20241022"
     = Some {| provider := "anthropic"; model := "claude-3-5-haiku-20241022" |}.
Proof. vm_compute. split; reflexivity. Qed.

(** A switch without a recommendation: the model has no cheaper fallback. *)
Example switch_without_recommendation :
  shouldUseCheaperModel (new None) "gpt-3.5-turbo" 0.5 ModelSelector.low ModelSelector.low
    (Some (thresholdConfig "gpt-3.5-turbo" 0.1))
  = {| shouldSwitch := true; recommendedModel := None |}.
Proof. vm_compute. reflexivity. Qed.

End SwitchFacts.

Section CalendarFacts.

Import Date.
Local Open Scope Z_scope.

Ltac divlia := Z.div_mod_to_equations; lia.

Lemma dayOfEraOf_range days : 0 <= dayOfEraOf days < 146097.
Proof. unfold dayOfEraOf. apply Z.mod_pos_bound. lia. Qed.

Lemma era_split days : days + 719468 = eraOf days * 146097 + dayOfEraOf days.
Proof. unfold eraOf, dayOfEraOf. divlia. Qed.

(** Days of one era: the era and the day of the era of a day that lies
    between the start of the era of [days] and [days]. *)
Lemma same_era days days' :
  days - dayOfEraOf days <= days' <= days ->
  eraOf days' = eraOf days /\ dayOfEraOf days' = dayOfEraOf days - (days - days').
Proof. unfold eraOf, dayOfEraOf. intros H. divlia. Qed.

(** A day number splits into its era and its day of the era. *)
Lemma civil_era (days : Z) :
  civil days =
  (fst (fst (civilOfEra (dayOfEraOf days))) + eraOf days * 400,
   snd (fst (civilOfEra (dayOfEraOf days))),
   snd (civilOfEra (dayOfEraOf days))).
Proof.
  unfold civil, civilOfEra, dayOfEraOf, eraOf. cbv zeta.
  rewrite Z.mod_eq by lia.
  replace (days + 719468 - 146097 * ((days + 719468) / 146097))
    with (days + 719468 - (days + 719468) / 146097 * 146097) by lia.
  set (doe := days + 719468 - (days + 719468) / 146097 * 146097).
  cbn [fst snd].
  f_equal. f_equal.
  match goal with |- context [if ?c <=? 2 then _ else _] => destruct (c <=? 2) end; lia.
Qed.

Lemma yoe_range doe : 0 <= doe < 146097 ->
  let yoe := (doe - doe / 1460 + doe / 36524 - doe / 146096) / 365 in
  0 <= yoe <= 399 /\ 0 <= doe - (365 * yoe + yoe / 4 - yoe / 100) <= 365.
Proof. intros H. cbv zeta. divlia. Qed.

(** The year of the era is the same from the first day of the year on. *)
Lemma yoe_of_year_day doe doe' :
  0 <= doe < 146097 ->
  let yoe := (doe - doe / 1460 + doe / 36524 - doe / 146096) / 365 in
  365 * yoe + yoe / 4 - yoe / 100 <= doe' <= doe ->
  (doe' - doe' / 1460 + doe' / 36524 - doe' / 146096) / 365 = yoe.
Proof. intros H. cbv zeta. intros H'. divlia. Qed.

Lemma civilOfEra_range doe : 0 <= doe < 146097 ->
  let '(y, m, d) := civilOfEra doe in
  0 <= y <= 400 /\ 1 <= m <= 12 /\ 1 <= d <= 31 /\ d - 1 <= doe.
Proof.
  intros H. unfold civilOfEra. cbv zeta.
  pose proof (yoe_range doe H) as R. cbv zeta in R.
  set (yoe := (doe - doe / 1460 + doe / 36524 - doe / 146096) / 365) in *.
  set (doy := doe - (365 * yoe + yoe / 4 - yoe / 100)) in *.
  assert (Hdoy : doy <= doe) by (subst doy; divlia).
  clearbody doy. clearbody yoe.
  set (mp := (5 * doy + 2) / 153).
  assert (Hmp : 0 <= mp <= 11) by (subst mp; divlia).
  assert (Hd : 1 <= doy - (153 * mp + 2) / 5 + 1 <= 31) by (subst mp; divlia).
  clearbody mp.
  destruct (mp <? 10) eqn:C1;
    [destruct (mp + 3 <=? 2) eqn:C2 | destruct (mp - 9 <=? 2) eqn:C2];
    rewrite ?Z.ltb_lt, ?Z.leb_le, ?Z.ltb_ge, ?Z.leb_gt in *; divlia.
Qed.

(** The year of the era of January and February is the one that began in
    the March before. *)
Lemma civilOfEra_year doe : 0 <= doe < 146097 ->
  (snd (fst (civilOfEra doe)) <= 2 -> 1 <= fst (fst (civilOfEra doe)) <= 400) /\
  (2 < snd (fst (civilOfEra doe)) -> 0 <= fst (fst (civilOfEra doe)) <= 399).
Proof.
  intros H. unfold civilOfEra. cbv zeta. cbn [fst snd].
  pose proof (yoe_range doe H) as R. cbv zeta in R.
  set (yoe := (doe - doe / 1460 + doe / 36524 - doe / 146096) / 365) in *.
  set (doy := doe - (365 * yoe + yoe / 4 - yoe / 100)) in *.
  set (mp := (5 * doy + 2) / 153).
  destruct (mp <? 10);
    match goal with |- context [if ?c <=? 2 then _ else _] =>
      destruct (Z.leb_spec c 2) end; split; intros; lia.
Qed.

(** Going back within the month: the days from the first of the month to
    [doe] have the year and the month of [doe]. *)
Lemma civilOfEra_back doe k : 0 <= doe < 146097 ->
  0 <= k < snd (civilOfEra doe) ->
  civilOfEra (doe - k)
  = (fst (fst (civilOfEra doe)), snd (fst (civilOfEra doe)), snd (civilOfEra doe) - k).
Proof.
  intros H Hk.
  pose proof (yoe_of_year_day doe (doe - k) H) as U.
  unfold civilOfEra in *. cbv zeta in *. cbn [fst snd] in *.
  pose proof (yoe_range doe H) as Y. cbv zeta in Y.
  set (yoe := (doe - doe / 1460 + doe / 36524 - doe / 146096) / 365) in *.
  set (doy := doe - (365 * yoe + yoe / 4 - yoe / 100)) in *.
  set (mp := (5 * doy + 2) / 153) in *.
  assert (Hmp : 0 <= mp <= 11) by (subst mp; divlia).
  assert (Hd : (153 * mp + 2) / 5 <= doy < (153 * (mp + 1) + 2) / 5) by (subst mp; divlia).
  rewrite U by (subst doy; divlia).
  fold yoe.
  replace (doe - k - (365 * yoe + yoe / 4 - yoe / 100)) with (doy - k) by (subst doy; lia).
  assert (M : (5 * (doy - k) + 2) / 153 = mp).
  { clearbody mp. clear - Hmp Hd Hk. divlia. }
  rewrite M. f_equal. lia.
Qed.

Lemma dayOfEra_civilOfEra doe : 0 <= doe < 146097 -> dayOfEra (civilOfEra doe) = doe.
Proof.
  intros H. unfold civilOfEra, dayOfEra. cbv zeta.
  pose proof (yoe_range doe H) as R. cbv zeta in R.
  set (yoe := (doe - doe / 1460 + doe / 36524 - doe / 146096) / 365) in *.
  set (doy := doe - (365 * yoe + yoe / 4 - yoe / 100)) in *.
  assert (E : doe = 365 * yoe + yoe / 4 - yoe / 100 + doy) by (subst doy; lia).
  clearbody doy. clearbody yoe.
  set (mp := (5 * doy + 2) / 153).
  assert (Hmp : 0 <= mp <= 11) by (subst mp; divlia).
  assert (Hd : (153 * mp + 2) / 5 <= doy < (153 * (mp + 1) + 2) / 5) by (subst mp; divlia).
  destruct (Z.ltb_spec mp 10).
  - destruct (Z.leb_spec (mp + 3) 2); [lia|].
    replace (mp + 3 - 3) with mp by lia. divlia.
  - destruct (Z.leb_spec (mp - 9) 2); [|lia].
    replace (mp - 9 + 9) with mp by lia.
    replace (yoe + 1 - 1) with yoe by lia. divlia.
Qed.

(** ** The calendar getters *)

Lemma getDate_range t : 1 <= getDate t <= 31.
Proof.
  unfold getDate. rewrite civil_era. cbn [snd].
  pose proof (civilOfEra_range _ (dayOfEraOf_range (dayNumber t))) as R.
  destruct (civilOfEra (dayOfEraOf (dayNumber t))) as [[y m] d]. cbn [snd]. lia.
Qed.

Lemma getMonth_range t : 0 <= getMonth t <= 11.
Proof.
  unfold getMonth. rewrite civil_era. cbn [fst snd].
  pose proof (civilOfEra_range _ (dayOfEraOf_range (dayNumber t))) as R.
  destruct (civilOfEra (dayOfEraOf (dayNumber t))) as [[y m] d]. cbn [fst snd]. lia.
Qed.

Lemma getDay_range t : 0 <= getDay t <= 6.
Proof. unfold getDay. pose proof (Z.mod_pos_bound (dayNumber t + 4) 7). lia. Qed.

(** The days from the first of the month of [days] up to [days] have its
    year and month. *)
Lemma civil_back days k :
  0 <= k < snd (civil days) ->
  civil (days - k) = (fst (fst (civil days)), snd (fst (civil days)), snd (civil days) - k).
Proof.
  rewrite !civil_era. cbn [fst snd]. intros Hk.
  pose proof (dayOfEraOf_range days) as R.
  pose proof (civilOfEra_range _ R) as C.
  destruct (civilOfEra (dayOfEraOf days)) as [[y m] d] eqn:E. cbn [fst snd] in *.
  destruct (same_era days (days - k)) as [He Hd]; [lia|].
  rewrite He, Hd. replace (days - (days - k)) with k by lia.
  rewrite civilOfEra_back by (rewrite ?E; cbn [snd]; lia).
  rewrite E. reflexivity.
Qed.

(** [civil] is one to one: the date determines the day number. *)
Lemma civil_inj d1 d2 : civil d1 = civil d2 -> d1 = d2.
Proof.
  rewrite !civil_era. intros H.
  pose proof (dayOfEraOf_range d1) as R1. pose proof (dayOfEraOf_range d2) as R2.
  pose proof (civilOfEra_range _ R1) as C1. pose proof (civilOfEra_range _ R2) as C2.
  pose proof (dayOfEra_civilOfEra _ R1) as I1. pose proof (dayOfEra_civilOfEra _ R2) as I2.
  pose proof (era_split d1) as S1. pose proof (era_split d2) as S2.
  pose proof (civilOfEra_year _ R1) as Y1. pose proof (civilOfEra_year _ R2) as Y2.
  destruct (civilOfEra (dayOfEraOf d1)) as [[y1 m1] dd1].
  destruct (civilOfEra (dayOfEraOf d2)) as [[y2 m2] dd2].
  cbn [fst snd] in H. inversion H; subst m2 dd2. clear H.
  cbn [fst snd] in Y1, Y2.
  assert (E : eraOf d1 = eraOf d2 /\ y1 = y2) by lia.
  destruct E as [E ->]. rewrite E in S1. lia.
Qed.

End CalendarFacts.

Section KeyFacts.

Import Date UsageTracker.
Local Open Scope Z_scope.

Lemma checkFrom_spec (n : nat) (z0 : Z) (f : Z -> bool) :
  checkFrom n z0 f = true -> forall z, z0 <= z < z0 + Z.of_nat n -> f z = true.
Proof.
  revert z0. induction n as [|n IH]; intros z0 H z Hz; [lia|].
  simpl in H. apply andb_true_iff in H. destruct H as [H0 H].
  destruct (Z.eq_dec z z0) as [->|N]; [exact H0|].
  apply (IH (z0 + 1) H). lia.
Qed.

Lemma checkBelow_spec (n : Z) (f : Z -> bool) :
  checkBelow n f = true -> forall z, 0 <= z < n -> f z = true.
Proof.
  unfold checkBelow. intros H z Hz. apply (checkFrom_spec _ 0 f H). lia.
Qed.

Lemma String_of_Z_inj (n n' : Z) : String_of_Z n = String_of_Z n' -> n = n'.
Proof.
  unfold String_of_Z. intros H. apply DecimalZ.to_int_inj.
  assert (N : forall z, DecimalString.NilZero.int_of_string
                (DecimalString.NilZero.string_of_int (Z.to_int z)) = Some (Z.to_int z)).
  { intros z. apply DecimalString.NilZero.isi; destruct z; simpl; try discriminate;
      intros E; inversion E as [E'];
      try (now apply DecimalPos.Unsigned.to_uint_nonnil in E'). }
  pose proof (N n) as N1. rewrite H, N in N1. now inversion N1.
Qed.

(** Two digits: the text of a number below 100, padded, has length two and
    is read back as the number. *)
Lemma two_digits (n : Z) : 0 <= n < 100 ->
  String.length (padStart2 (String_of_Z n)) = 2%nat /\
  numberOf (padStart2 (String_of_Z n)) = n.
Proof.
  intros H.
  assert (C : ((String.length (padStart2 (String_of_Z n)) =? 2)%nat
               && (numberOf (padStart2 (String_of_Z n)) =? n)) = true).
  { revert n H. apply (checkBelow_spec 100). vm_compute. reflexivity. }
  apply andb_true_iff in C. destruct C as [C1 C2].
  split; [now apply Nat.eqb_eq | now apply Z.eqb_eq].
Qed.

Lemma length_append (a b : string) :
  String.length (a ++ b) = (String.length a + String.length b)%nat.
Proof. induction a as [|c a IH]; simpl; congruence. Qed.

(** Two texts with tails of one length are equal part by part. *)
Lemma append_inj (a a' b b' : string) :
  String.length b = String.length b' -> a ++ b = a' ++ b' -> a = a' /\ b = b'.
Proof.
  intros L. revert a'. induction a as [|c a IH]; intros [|c' a'] H; simpl in H.
  - auto.
  - exfalso. apply (f_equal String.length) in H. simpl in H.
    rewrite length_append in H. lia.
  - exfalso. apply (f_equal String.length) in H. simpl in H.
    rewrite length_append in H. lia.
  - inversion H; subst. destruct (IH a' H2) as [-> ->]. auto.
Qed.

(** The three parts of a key are read off the text, whatever follows. *)
Lemma key_parts (a a' : string) (m m' d d' : Z) (tail : string) :
  0 <= m < 100 -> 0 <= m' < 100 -> 0 <= d < 100 -> 0 <= d' < 100 ->
  a ++ "-" ++ padStart2 (String_of_Z m) ++ "-" ++ padStart2 (String_of_Z d) ++ tail
  = a' ++ "-" ++ padStart2 (String_of_Z m') ++ "-" ++ padStart2 (String_of_Z d') ++ tail ->
  a = a' /\ m = m' /\ d = d'.
Proof.
  intros Hm Hm' Hd Hd' H.
  destruct (two_digits m Hm) as [Lm Nm]. destruct (two_digits m' Hm') as [Lm' Nm'].
  destruct (two_digits d Hd) as [Ld Nd]. destruct (two_digits d' Hd') as [Ld' Nd'].
  apply append_inj in H; [|simpl; rewrite !length_append; simpl; rewrite !length_append; lia].
  destruct H as [Hy H]. simpl in H. inversion H as [H1]. clear H.
  apply append_inj in H1; [|simpl; rewrite !length_append; lia].
  destruct H1 as [H1 H2]. simpl in H2. inversion H2 as [H3]. clear H2.
  apply append_inj in H3; [|reflexivity]. destruct H3 as [H3 _].
  split; [exact Hy|]. split; congruence.
Qed.

Lemma key_parts_month (y y' m m' : Z) :
  0 <= m < 100 -> 0 <= m' < 100 ->
  String_of_Z y ++ "-" ++ padStart2 (String_of_Z m)
  = String_of_Z y' ++ "-" ++ padStart2 (String_of_Z m') ->
  y = y' /\ m = m'.
Proof.
  intros Hm Hm' H.
  destruct (two_digits m Hm) as [Lm Nm]. destruct (two_digits m' Hm') as [Lm' Nm'].
  apply append_inj in H; [|simpl; lia].
  destruct H as [Hy H]. simpl in H. inversion H as [H1].
  split; [now apply String_of_Z_inj | congruence].
Qed.

Lemma dayNumber_addDays t n : dayNumber (addDays t n) = dayNumber t + n.
Proof. unfold dayNumber, addDays, msPerDay. rewrite Z.div_add by lia. reflexivity. Qed.

Lemma dayNumber_startOfDay t : dayNumber (startOfDay t) = dayNumber t.
Proof. unfold startOfDay, dayNumber, msPerDay. rewrite Z.div_mul by lia. reflexivity. Qed.

Lemma civil_parts t :
  civil (dayNumber t) = (getFullYear t, getMonth t + 1, getDate t).
Proof.
  unfold getFullYear, getMonth, getDate.
  destruct (civil (dayNumber t)) as [[y m] d]. cbn [fst snd]. f_equal. f_equal. lia.
Qed.

(** What the key of a time value depends on. *)
Lemma getPeriodKey_day t :
  getPeriodKey t day
  = String_of_Z (getFullYear t) ++ "-" ++ padStart2 (String_of_Z (getMonth t + 1))
    ++ "-" ++ padStart2 (String_of_Z (getDate t)) ++ "".
Proof.
  unfold getPeriodKey.
  assert (E : forall s, s ++ "" = s) by (induction s; simpl; congruence).
  rewrite E. reflexivity.
Qed.

Lemma getPeriodKey_week t :
  getPeriodKey t week
  = getPeriodKey (addDays t (- getDay t)) day ++ " (Week)".
Proof.
  rewrite getPeriodKey_day. unfold getPeriodKey.
  assert (A : forall a b c, (a ++ b) ++ c = a ++ b ++ c).
  { induction a; simpl; congruence. }
  rewrite !A. reflexivity.
Qed.

Lemma getPeriodKey_bucketOf (p : Period) (t1 t2 : Date) :
  getPeriodKey t1 p = getPeriodKey t2 p <-> bucketOf p t1 = bucketOf p t2.
Proof.
  assert (D : forall a b, getPeriodKey a day = getPeriodKey b day <-> dayNumber a = dayNumber b).
  { intros a b. split.
    - rewrite !getPeriodKey_day. intros H.
      pose proof (getMonth_range a). pose proof (getMonth_range b).
      pose proof (getDate_range a). pose proof (getDate_range b).
      apply key_parts in H; try lia. destruct H as (Hy & Hm & Hd).
      apply String_of_Z_inj in Hy.
      apply civil_inj. rewrite !civil_parts. congruence.
    - intros H. unfold getPeriodKey, getFullYear, getMonth, getDate. rewrite H. reflexivity. }
  destruct p; unfold bucketOf.
  - rewrite D. split; [congruence|]. intros H. now inversion H.
  - rewrite !getPeriodKey_week. split.
    + intros H. apply append_inj in H; [|reflexivity]. destruct H as [H _].
      apply D in H. rewrite !dayNumber_addDays in H.
      unfold weekStartDay. f_equal. lia.
    + intros H. inversion H as [H1]. unfold weekStartDay in H1.
      assert (E : getPeriodKey (addDays t1 (- getDay t1)) day
                  = getPeriodKey (addDays t2 (- getDay t2)) day).
      { apply D. rewrite !dayNumber_addDays. lia. }
      rewrite E. reflexivity.
  - unfold yearMonth. split.
    + unfold getPeriodKey. intros H.
      pose proof (getMonth_range t1). pose proof (getMonth_range t2).
      apply key_parts_month in H; try lia. destruct H as [Hy Hm].
      f_equal; lia.
    + intros H. inversion H as [[Hy Hm]]. unfold getPeriodKey. rewrite Hy, Hm. reflexivity.
Qed.

(** X7.  Two time values get the same period key exactly when they lie in
    the same day, the same week (Sunday to Saturday) or the same month. *)
Theorem getPeriodKey_same_bucket (p : Period) (t1 t2 : Date) :
  getPeriodKey t1 p = getPeriodKey t2 p <-> bucketOf p t1 = bucketOf p t2.
Proof. apply getPeriodKey_bucketOf. Qed.

End KeyFacts.

Section PeriodFacts.

Import Date UsageTracker.
Local Open Scope Z_scope.

Lemma dayNumber_le a b : a <= b -> dayNumber a <= dayNumber b.
Proof. unfold dayNumber, msPerDay. intros H. apply Z.div_le_mono; lia. Qed.

Lemma startOfDay_le t : startOfDay t <= t < startOfDay t + msPerDay.
Proof. unfold startOfDay, dayNumber, msPerDay. Z.div_mod_to_equations; lia. Qed.

(** The day number of the start of a period. *)
Lemma getPeriodStart_day p t :
  getPeriodStart p t = dayNumber (getPeriodStart p t) * msPerDay /\
  dayNumber (getPeriodStart p t) =
  match p with
  | day => dayNumber t
  | week => weekStartDay t
  | month => dayNumber t - (getDate t - 1)
  end.
Proof.
  destruct p; unfold getPeriodStart, setDate; cbv zeta;
    rewrite ?dayNumber_startOfDay, ?dayNumber_addDays; unfold startOfDay;
    rewrite ?dayNumber_addDays; (split; [reflexivity|]); unfold weekStartDay; lia.
Qed.

(** The first of the month of a time value. *)
Lemma civil_first t :
  civil (dayNumber t - (getDate t - 1)) = (getFullYear t, getMonth t + 1, 1).
Proof.
  pose proof (getDate_range t) as R.
  rewrite civil_back by (rewrite civil_parts; cbn [snd]; lia).
  rewrite civil_parts. cbn [fst snd]. f_equal. lia.
Qed.

(** X8.  [getPeriodStart] gives a midnight at or before the date, in the bucket
    of the date. *)
Theorem getPeriodStart_in_bucket (p : Period) (date : Date) :
  getPeriodStart p date <= date /\
  getPeriodStart p date mod msPerDay = 0 /\
  getPeriodKey (getPeriodStart p date) p = getPeriodKey date p.
Proof.
  destruct (getPeriodStart_day p date) as [E D].
  pose proof (getDay_range date) as W. pose proof (getDate_range date) as M.
  pose proof (startOfDay_le date) as S. unfold startOfDay in S.
  split; [|split].
  - rewrite E, D. destruct p; unfold weekStartDay; unfold msPerDay in *; lia.
  - rewrite E. apply Z.mod_mul. unfold msPerDay. lia.
  - apply getPeriodKey_bucketOf. destruct p; unfold bucketOf.
    + now rewrite D.
    + unfold weekStartDay at 1. rewrite D. f_equal.
      unfold getDay. rewrite D. unfold weekStartDay, getDay.
      Z.div_mod_to_equations; lia.
    + unfold yearMonth, getFullYear, getMonth. rewrite D, civil_first. cbn [fst snd].
      unfold getFullYear, getMonth. f_equal. lia.
Qed.

(** X9.  The window from the start of the period up to [now] holds exactly the
    time values up to [now] that fall in the bucket of [now]. *)
Theorem getPeriodStart_window (p : Period) (now t : Date) :
  t <= now ->
  (getPeriodStart p now <= t <-> getPeriodKey t p = getPeriodKey now p).
Proof.
  intros Ht.
  destruct (getPeriodStart_day p now) as [E D].
  pose proof (dayNumber_le _ _ Ht) as L.
  pose proof (startOfDay_le t) as S. unfold startOfDay in S.
  rewrite getPeriodKey_bucketOf. split.
  - intros H. pose proof (dayNumber_le _ _ H) as L'. rewrite D in L'.
    destruct p; unfold bucketOf.
    + f_equal. lia.
    + unfold weekStartDay in *. f_equal. unfold getDay in *.
      Z.div_mod_to_equations; lia.
    + unfold yearMonth, getFullYear, getMonth.
      replace (dayNumber t) with (dayNumber now - (dayNumber now - dayNumber t)) by lia.
      rewrite civil_back by (rewrite civil_parts; cbn [snd]; lia).
      reflexivity.
  - intros B. rewrite E, D. unfold msPerDay in *.
    destruct p; unfold bucketOf in B.
    + inversion B. lia.
    + inversion B as [B1]. pose proof (getDay_range t). unfold weekStartDay in *. lia.
    + unfold yearMonth in B. inversion B as [[By Bm]].
      pose proof (civil_first t) as F1. pose proof (civil_first now) as F2.
      rewrite By, Bm, <- F2 in F1. apply civil_inj in F1.
      pose proof (getDate_range t). lia.
Qed.

Lemma getPeriodStart_window_witness :
  getPeriodStart week noon <= 1710400000000
  <-> getPeriodKey 1710400000000 week = getPeriodKey noon week.
Proof.
  apply (getPeriodStart_window week noon 1710400000000). vm_compute. discriminate.
Defined.

Example getPeriodStart_samples :
  getPeriodStart day noon = 1710460800000 /\
  getPeriodStart week noon = 1710028800000 /\
  getPeriodStart month noon = 1709251200000.
Proof. vm_compute. auto. Qed.

End PeriodFacts.

Section FileNameFacts.

Import Date UsageTracker UsageFiles.
Local Open Scope Z_scope.

(** Four digits: the padded text of a year from 0 to 9999 is read back as
    the year. *)
Lemma four_digits (y : Z) : 0 <= y < 10000 ->
  numberOf (padStart 4 (String_of_Z y)) = y.
Proof.
  intros H. apply Z.eqb_eq. revert y H.
  apply (checkBelow_spec 10000). vm_compute. reflexivity.
Qed.

(** Two time values with four-digit years are filed under one name exactly
    when they lie in the same day. *)
Lemma fileOf_same_day (t1 t2 : Date) :
  fourDigitYear t1 -> fourDigitYear t2 ->
  fileOf t1 = fileOf t2 -> dayNumber t1 = dayNumber t2.
Proof.
  unfold fourDigitYear, fileOf, isoDate. intros Y1 Y2 H. cbv zeta in H.
  replace ((0 <=? getFullYear t1) && (getFullYear t1 <=? 9999)) with true in H
    by (symmetry; apply andb_true_iff; split; apply Z.leb_le; lia).
  replace ((0 <=? getFullYear t2) && (getFullYear t2 <=? 9999)) with true in H
    by (symmetry; apply andb_true_iff; split; apply Z.leb_le; lia).
  assert (A : forall a b c, (a ++ b) ++ c = a ++ b ++ c).
  { induction a; simpl; congruence. }
  rewrite !A in H.
  pose proof (getMonth_range t1). pose proof (getMonth_range t2).
  pose proof (getDate_range t1). pose proof (getDate_range t2).
  apply key_parts in H; try lia. destruct H as (Hy & Hm & Hd).
  apply (f_equal numberOf) in Hy. rewrite !four_digits in Hy by lia.
  apply civil_inj. rewrite !civil_parts. congruence.
Qed.

End FileNameFacts.

Section FilesFacts.

Import Date UsageTracker UsageFiles.
Local Open Scope Z_scope.
Local Open Scope list_scope.

Lemma setDate_next t : setDate t (getDate t + 1) = addDays t 1.
Proof. unfold setDate. f_equal. lia. Qed.

Lemma daysFrom_In n cur d :
  In d (daysFrom n cur) <-> exists k, 0 <= k < Z.of_nat n /\ d = addDays cur k.
Proof.
  revert cur. induction n as [|n IH]; intros cur; simpl.
  - split; [intros []|]. intros (k & Hk & _). lia.
  - rewrite IH. split.
    + intros [<-|(k & Hk & ->)].
      * exists 0. split; [lia|]. unfold addDays. lia.
      * exists (k + 1). split; [lia|]. unfold addDays. lia.
    + intros (k & Hk & ->). destruct (Z.eq_dec k 0) as [->|N].
      * left. unfold addDays. lia.
      * right. exists (k - 1). split; [lia|]. unfold addDays. lia.
Qed.

(** The loop reads the files of the days it visits, in their order. *)
Lemma loadLoop_days this keep endDate n :
  forall cur acc,
  (forall k, 0 <= k < Z.of_nat n -> addDays cur k <= endDate) ->
  loadLoop n this keep cur endDate acc
  = acc ++ flat_map (loadDay this keep) (daysFrom n cur).
Proof.
  induction n as [|n IH]; intros cur acc H; simpl.
  - now rewrite app_nil_r.
  - assert (H0 : cur <= endDate).
    { specialize (H 0). unfold addDays in H. lia. }
    apply Z.leb_le in H0. rewrite H0. rewrite setDate_next.
    rewrite IH.
    + now rewrite <- app_assoc.
    + intros k Hk. specialize (H (k + 1)). unfold addDays in *. lia.
Qed.

(** The turns of [loadRecords] are the turns that the loop needs: after
    them the date is past the end, and more fuel changes nothing. *)
Lemma turns_enough startDate endDate :
  (forall k, 0 <= k < Z.of_nat (turns startDate endDate) -> addDays startDate k <= endDate)
  /\ endDate < addDays startDate (Z.of_nat (turns startDate endDate)).
Proof.
  unfold turns, addDays, msPerDay. split.
  - intros k Hk. Z.div_mod_to_equations; lia.
  - Z.div_mod_to_equations; lia.
Qed.

Lemma loadLoop_stops this keep endDate n extra :
  forall cur acc,
  (forall k, 0 <= k < Z.of_nat n -> addDays cur k <= endDate) ->
  endDate < addDays cur (Z.of_nat n) ->
  loadLoop (n + extra) this keep cur endDate acc = loadLoop n this keep cur endDate acc.
Proof.
  induction n as [|n IH]; intros cur acc H E.
  - simpl. destruct extra; [reflexivity|]. simpl.
    replace (cur <=? endDate) with false; [reflexivity|].
    symmetry. apply Z.leb_gt. unfold addDays in E. simpl in E. lia.
  - simpl. destruct (cur <=? endDate); [|reflexivity].
    rewrite setDate_next. apply IH.
    + intros k Hk. specialize (H (k + 1)). unfold addDays in *. lia.
    + unfold addDays in *. lia.
Qed.

Lemma loadRecords_days this agentId provider model startDate endDate now :
  loadRecords this agentId provider model (Some startDate) (Some endDate) now
  = flat_map (loadDay this (inWindow agentId provider model startDate endDate))
      (daysFrom (turns startDate endDate) startDate).
Proof.
  unfold loadRecords. rewrite loadLoop_days; [reflexivity|].
  apply turns_enough.
Qed.

Lemma inWindow_spec agentId provider model startDate endDate r :
  inWindow agentId provider model startDate endDate r = true <->
  startDate <= recordDate r <= endDate /\ wanted agentId provider model r.
Proof.
  unfold inWindow, wanted.
  destruct (Z.ltb_spec (recordDate r) startDate), (Z.ltb_spec endDate (recordDate r)); simpl;
    try (split; [discriminate | lia]).
  destruct (differs agentId _), (differs provider _), (differs model _); simpl;
    intuition (try discriminate; try lia).
Qed.

Lemma loadDay_In this keep d r :
  In r (loadDay this keep d) <->
  exists records, Map_get (files this) (fileOf d) = Some (Json records)
                  /\ In r records /\ keep r = true.
Proof.
  unfold loadDay. destruct (Map_get (files this) (fileOf d)) as [[records|]|].
  - rewrite filter_In. split.
    + intros [H1 H2]. exists records. auto.
    + intros (records' & E & H1 & H2). inversion E; subst. auto.
  - split; [intros []|]. intros (records' & E & _). discriminate.
  - split; [intros []|]. intros (records' & E & _). discriminate.
Qed.

(** What [loadRecords] returns was read from the file of a visited day and
    passes the filter. *)
Lemma loadRecords_In this agentId provider model startDate endDate now r :
  In r (loadRecords this agentId provider model (Some startDate) (Some endDate) now) <->
  exists k records,
    0 <= k /\ addDays startDate k <= endDate /\
    Map_get (files this) (fileOf (addDays startDate k)) = Some (Json records) /\
    In r records /\
    startDate <= recordDate r <= endDate /\ wanted agentId provider model r.
Proof.
  rewrite loadRecords_days, in_flat_map.
  destruct (turns_enough startDate endDate) as [T1 T2]. split.
  - intros (d & Hd & Hr). apply daysFrom_In in Hd. destruct Hd as (k & Hk & ->).
    apply loadDay_In in Hr. destruct Hr as (records & E & Hin & Hkeep).
    apply inWindow_spec in Hkeep.
    exists k, records. split; [lia|]. split; [now apply T1|].
    split; [exact E|]. split; [exact Hin|]. exact Hkeep.
  - intros (k & records & Hk & Hle & E & Hin & Hw & Hwanted).
    exists (addDays startDate k). split.
    + apply daysFrom_In. exists k. split; [|reflexivity].
      split; [exact Hk|]. unfold addDays, msPerDay in *. nia.
    + apply loadDay_In. exists records. split; [exact E|]. split; [exact Hin|].
      apply inWindow_spec. tauto.
Qed.

Lemma fileOf_dayNumber t1 t2 : dayNumber t1 = dayNumber t2 -> fileOf t1 = fileOf t2.
Proof.
  intros H. unfold fileOf, isoDate, getFullYear, getMonth, getDate. now rewrite H.
Qed.

(** X10.  [loadRecords] returns exactly the records on file that lie in the
    window and pass the filters, when the start is not later in its day than
    the end is in its own: then the loop reaches the day of the end. *)
Theorem loadRecords_exact this agentId provider model startDate endDate now r :
  wellFiled this ->
  timeOfDay startDate <= timeOfDay endDate ->
  (In r (loadRecords this agentId provider model (Some startDate) (Some endDate) now) <->
   onFile this r /\ startDate <= recordDate r <= endDate /\
   wanted agentId provider model r).
Proof.
  intros W T. rewrite loadRecords_In. split.
  - intros (k & records & Hk & Hle & E & Hin & Hw & Hwanted).
    split; [|tauto]. exists records. split; [|exact Hin].
    rewrite <- (W _ _ _ E Hin). exact E.
  - intros ((records & E & Hin) & Hw & Hwanted).
    exists (dayNumber (recordDate r) - dayNumber startDate), records.
    assert (L : dayNumber startDate <= dayNumber (recordDate r)) by (apply dayNumber_le; lia).
    assert (D : dayNumber (addDays startDate (dayNumber (recordDate r) - dayNumber startDate))
                = dayNumber (recordDate r)) by (rewrite dayNumber_addDays; lia).
    split; [lia|]. split.
    + unfold timeOfDay, addDays, dayNumber, msPerDay in *.
      Z.div_mod_to_equations; lia.
    + rewrite (fileOf_dayNumber _ _ D). tauto.
Qed.

End FilesFacts.

Section ZoneFacts.

Import Date UsageTracker.
Local Open Scope Z_scope.
Local Open Scope list_scope.

Lemma toLocal_fromLocal offset w : toLocal offset (fromLocal offset w) = w.
Proof. unfold toLocal, fromLocal. lia. Qed.

(** In the zone of UTC the local fields are the UTC ones. *)
Lemma localGet_utc getter t : localGet 0 getter t = getter t.
Proof. unfold localGet, toLocal. now rewrite Z.add_0_r. Qed.

Lemma localSet_utc setter t : localSet 0 setter t = setter t.
Proof. unfold localSet, toLocal, fromLocal. now rewrite Z.add_0_r, Z.sub_0_r. Qed.

(** A setter that moves a date by whole days moves it as much in every
    zone: the step of the loop of [loadRecords] is its UTC step. *)
Lemma localSet_days offset n t :
  localSet offset (fun d => setDate d (getDate d + n)) t = addDays t n.
Proof. unfold localSet, toLocal, fromLocal, setDate, addDays. lia. Qed.

(** [getPeriodStart] in a zone is the start of the period of the wall
    clock, read back from the wall clock. *)
Lemma getPeriodStart_local offset p t :
  UsageFiles.getPeriodStart offset p t
  = fromLocal offset (getPeriodStart p (toLocal offset t)).
Proof.
  destruct p; unfold UsageFiles.getPeriodStart, getPeriodStart, localSet, localGet;
    cbv zeta; rewrite ?toLocal_fromLocal; reflexivity.
Qed.

Lemma getPeriodStart_utc p t : UsageFiles.getPeriodStart 0 p t = getPeriodStart p t.
Proof.
  rewrite getPeriodStart_local. unfold toLocal, fromLocal.
  now rewrite Z.add_0_r, Z.sub_0_r.
Qed.

(** The start of the local period is not after the date, and the start of
    the local day is less than a day before it. *)
Lemma localStart_le offset p t : UsageFiles.getPeriodStart offset p t <= t.
Proof.
  rewrite getPeriodStart_local.
  destruct (getPeriodStart_day p (toLocal offset t)) as [E D].
  assert (L : dayNumber (getPeriodStart p (toLocal offset t)) <= dayNumber (toLocal offset t)).
  { rewrite D. destruct p; [lia| |].
    - unfold weekStartDay. pose proof (getDay_range (toLocal offset t)). lia.
    - pose proof (getDate_range (toLocal offset t)). lia. }
  pose proof (startOfDay_le (toLocal offset t)) as S. unfold startOfDay in S.
  unfold fromLocal, toLocal in *. nia.
Qed.

Lemma localDay_window offset t :
  UsageFiles.getPeriodStart offset day t <= t
  < UsageFiles.getPeriodStart offset day t + msPerDay.
Proof.
  rewrite getPeriodStart_local. unfold getPeriodStart.
  pose proof (startOfDay_le (toLocal offset t)) as S.
  unfold fromLocal, toLocal in *. lia.
Qed.

End ZoneFacts.

Section RecordingFacts.

Import Date UsageTracker UsageFiles.
Local Open Scope Z_scope.
Local Open Scope list_scope.

(** The records of a file before [saveRecord] appends to it. *)
Lemma saveRecord_files this record :
  exists old,
    files (saveRecord this record)
    = Map_set (files this) (fileOf (timestamp record)) (Json (old ++ [Parsed record])) /\
    (forall records, Map_get (files this) (fileOf (timestamp record)) = Some (Json records)
                     -> old = records) /\
    (forall r, In r old ->
       Map_get (files this) (fileOf (timestamp record)) = Some (Json old)).
Proof.
  unfold saveRecord. cbn [files withFiles].
  destruct (Map_get (files this) (fileOf (timestamp record))) as [[records|]|].
  - exists records. split; [reflexivity|]. split; [congruence|auto].
  - exists []. split; [reflexivity|]. split; [discriminate|intros r []].
  - exists []. split; [reflexivity|]. split; [discriminate|intros r []].
Qed.

(** X11.  [saveRecord] keeps what is on file and adds the record. *)
Theorem saveRecord_onFile this record q :
  onFile (saveRecord this record) q <-> onFile this q \/ q = Parsed record.
Proof.
  destruct (saveRecord_files this record) as (old & E & Hold & Hin).
  unfold onFile. rewrite E.
  destruct (String.eqb (fileOf (timestamp record)) (fileOf (recordDate q))) eqn:N.
  - apply String.eqb_eq in N. rewrite <- N. rewrite Map_get_set_same. split.
    + intros (records & R & Hq). inversion R; subst records.
      apply in_app_iff in Hq. destruct Hq as [Hq|[<-|[]]]; [left|now right].
      exists old. split; [now apply (Hin q)|exact Hq].
    + intros [(records & R & Hq)| ->].
      * exists (old ++ [Parsed record]). split; [reflexivity|].
        apply in_app_iff. left. now rewrite (Hold _ R).
      * exists (old ++ [Parsed record]). split; [reflexivity|].
        apply in_app_iff. right. now left.
  - apply String.eqb_neq in N. rewrite Map_get_set_other by congruence. split.
    + intros H. now left.
    + intros [H| ->]; [exact H|]. exfalso. apply N. reflexivity.
Qed.

(** [saveRecord] leaves every record in the file of its day. *)
Lemma saveRecord_wellFiled this record :
  wellFiled this -> wellFiled (saveRecord this record).
Proof.
  intros W name records r.
  destruct (saveRecord_files this record) as (old & E & Hold & Hin). rewrite E.
  destruct (String.eqb (fileOf (timestamp record)) name) eqn:N.
  - apply String.eqb_eq in N. subst name. rewrite Map_get_set_same.
    intros R Hr. inversion R; subst records.
    apply in_app_iff in Hr. destruct Hr as [Hr|[<-|[]]]; [|reflexivity].
    apply (W _ old r); [now apply (Hin r)|exact Hr].
  - apply String.eqb_neq in N. rewrite Map_get_set_other by congruence. apply W.
Qed.

Lemma newTracker_wellFiled : wellFiled newTracker.
Proof. intros name records r H. discriminate. Qed.

Lemma fourDigitYear_range t : 0 <= t < year10000 -> fourDigitYear t.
Proof.
  unfold year10000, fourDigitYear, getFullYear. intros H.
  rewrite civil_era. cbn [fst snd].
  pose proof (dayOfEraOf_range (dayNumber t)) as R.
  pose proof (civilOfEra_year _ R) as Y.
  pose proof (era_split (dayNumber t)) as S.
  assert (D : 0 <= dayNumber t < 2932897).
  { unfold dayNumber, msPerDay. Z.div_mod_to_equations; lia. }
  assert (Hera : 4 <= eraOf (dayNumber t) <= 24) by lia.
  split; [lia|].
  destruct (Z.eq_dec (eraOf (dayNumber t)) 24) as [E24|N]; [|lia].
  assert (Hdoe : dayOfEraOf (dayNumber t) < 146037) by lia.
  clear - R Hdoe E24. rewrite E24.
  set (doe := dayOfEraOf (dayNumber t)) in *. clearbody doe.
  unfold civilOfEra. cbv zeta. cbn [fst snd].
  pose proof (yoe_range doe R) as Y. cbv zeta in Y.
  set (yoe := (doe - doe / 1460 + doe / 36524 - doe / 146096) / 365) in *.
  set (doy := doe - (365 * yoe + yoe / 4 - yoe / 100)) in *.
  set (mp := (5 * doy + 2) / 153).
  assert (Hmp : 0 <= mp <= 11) by (subst mp; Z.div_mod_to_equations; lia).
  assert (Hy : yoe <= 398 \/ mp < 10).
  { destruct (Z.eq_dec yoe 399) as [E|N]; [right|left; lia].
    assert (Hdoy : doy < 306) by (subst doy; rewrite E; Z.div_mod_to_equations; lia).
    subst mp. Z.div_mod_to_equations; lia. }
  clearbody mp. clearbody yoe.
  destruct (Z.ltb_spec mp 10);
    match goal with |- context [if ?c <=? 2 then _ else _] =>
      destruct (Z.leb_spec c 2) end; lia.
Qed.

Section Recorded.

Variable ModelCostConfig : Type.
Variable estimateUsageCost : ResponseCache.NormalizedUsage -> ModelCostConfig -> option number.

Lemma recordUsage_enabled this params uuid now :
  enabled this = true ->
  recordUsage _ estimateUsageCost this params uuid now
  = saveRecord this (newRecord _ estimateUsageCost params uuid now).
Proof.
  intros H. unfold recordUsage. rewrite H. cbn [negb].
  destruct (aggregation_enabled _); reflexivity.
Qed.

(** A window of less than a day is read in one turn, from the file of the
    UTC day of its start. *)
Lemma loadRecords_one_turn this agentId provider model startDate endDate now :
  startDate <= endDate < startDate + msPerDay ->
  loadRecords this agentId provider model (Some startDate) (Some endDate) now
  = loadDay this (inWindow agentId provider model startDate endDate) startDate.
Proof.
  intros H. rewrite loadRecords_days.
  assert (T : turns startDate endDate = 1%nat).
  { unfold turns. replace ((endDate - startDate) / msPerDay) with 0; [reflexivity|].
    symmetry. apply Z.div_small. lia. }
  rewrite T. cbn [daysFrom flat_map]. now rewrite app_nil_r.
Qed.

(** What [saveRecord] leaves in the file of the record and in the others. *)
Lemma loadDay_saved this keep record d :
  fileOf d = fileOf (timestamp record) ->
  loadDay (saveRecord this record) keep d
  = loadDay this keep d ++ (if keep (Parsed record) then [Parsed record] else []).
Proof.
  intros F. destruct (saveRecord_files this record) as (old & E & Hold & Hin).
  unfold loadDay. rewrite E, F, Map_get_set_same.
  rewrite filter_app. cbn [filter]. f_equal.
  destruct (Map_get (files this) (fileOf (timestamp record))) as [[records|]|] eqn:G.
  - now rewrite (Hold _ eq_refl).
  - destruct old as [|r old]; [reflexivity|].
    specialize (Hin r (or_introl eq_refl)). discriminate.
  - destruct old as [|r old]; [reflexivity|].
    specialize (Hin r (or_introl eq_refl)). discriminate.
Qed.

Lemma loadDay_other this keep record d :
  fileOf d <> fileOf (timestamp record) ->
  loadDay (saveRecord this record) keep d = loadDay this keep d.
Proof.
  intros F. destruct (saveRecord_files this record) as (old & E & _).
  unfold loadDay. rewrite E. now rewrite Map_get_set_other by congruence.
Qed.

(** X12.  A usage that is recorded within the local day adds its cost to what
    [checkBudget] reports as spent for the day when its UTC date is the UTC
    date of the local midnight, and adds nothing otherwise: the window is
    read from the one file that is named by the UTC date of its start. *)
Theorem checkBudget_after_recordUsage offset toFixed this
    (params : RecordParams ModelCostConfig) uuid now later agent budget :
  enabled this = true ->
  0 <= UsageFiles.getPeriodStart offset day later -> later < year10000 ->
  UsageFiles.getPeriodStart offset day later <= now <= later ->
  differs agent (param_agentId _ params) = false ->
  spent (checkBudget offset toFixed
           (recordUsage _ estimateUsageCost this params uuid now) agent day budget later)
  = if dayNumber now =? dayNumber (UsageFiles.getPeriodStart offset day later)
    then (spent (checkBudget offset toFixed this agent day budget later)
          + cost (newRecord _ estimateUsageCost params uuid now))%float
    else spent (checkBudget offset toFixed this agent day budget later).
Proof.
  intros En H0 H1 Hw Hagent. rewrite (recordUsage_enabled _ _ _ _ En).
  unfold checkBudget, UsageTracker.checkBudget. cbn [spent].
  pose proof (localDay_window offset later) as W.
  rewrite !loadRecords_one_turn by exact W.
  set (start := UsageFiles.getPeriodStart offset day later) in *.
  set (record := newRecord _ estimateUsageCost params uuid now).
  set (keep := inWindow agent None None start later).
  assert (T : timestamp record = now) by reflexivity.
  destruct (Z.eqb_spec (dayNumber now) (dayNumber start)) as [D|D].
  - rewrite loadDay_saved by (apply fileOf_dayNumber; rewrite T; congruence).
    assert (K : keep (Parsed record) = true).
    { apply inWindow_spec. unfold recordDate, wanted. cbn [written]. rewrite T.
      split; [exact Hw|]. split; [exact Hagent|]. split; reflexivity. }
    rewrite K, map_app, fold_left_app. reflexivity.
  - rewrite loadDay_other; [reflexivity|].
    intros F. apply D. symmetry. rewrite <- T. apply fileOf_same_day; [| |exact F].
    + apply fourDigitYear_range. lia.
    + apply fourDigitYear_range. rewrite T. lia.
Qed.

(** ** [aggregateRecords] at run time *)

(** On a [Date], [getPeriodKey] gives the key of the wall clock; on a
    text, its first call of a getter throws. *)
Lemma getPeriodKey_date offset t p :
  UsageFiles.getPeriodKey offset (DateObject t) p
  = Ok (UsageTracker.getPeriodKey (toLocal offset t) p).
Proof.
  unfold UsageFiles.getPeriodKey, UsageTracker.getPeriodKey, callGetter, newDate,
    localGet, localSet, JS.bind. cbv zeta. rewrite toLocal_fromLocal.
  replace (setDate (toLocal offset t)
             (getDate (toLocal offset t) - getDay (toLocal offset t)))
    with (addDays (toLocal offset t) (- getDay (toLocal offset t)))
    by (unfold setDate; f_equal; lia).
  destruct p; reflexivity.
Qed.

Lemma getPeriodKey_text offset t p :
  UsageFiles.getPeriodKey offset (IsoText t) p
  = Throw "TypeError: date.getFullYear is not a function".
Proof. reflexivity. Qed.

(** After an exception the loop adds nothing. *)
Lemma addRecord_thrown offset p e records :
  fold_left (UsageFiles.addRecord offset p) records (Throw e) = Throw e.
Proof. induction records as [|r records IH]; [reflexivity|exact IH]. Qed.

(** On records with a [Date], [aggregateRecords] returns the aggregates of
    the records on the wall clock. *)
Lemma aggregateRecords_built offset records p :
  UsageFiles.aggregateRecords offset (map Built records) p
  = Ok (UsageTracker.aggregateRecords (map (inZone offset) records) p).
Proof.
  unfold UsageFiles.aggregateRecords, UsageTracker.aggregateRecords.
  assert (F : forall acc,
            fold_left (UsageFiles.addRecord offset p) (map Built records) (Ok acc)
            = Ok (fold_left (UsageTracker.addRecord p) (map (inZone offset) records) acc)).
  { induction records as [|r records IH]; intros acc; [reflexivity|].
    cbn [map fold_left]. unfold UsageFiles.addRecord at 2.
    cbn [JS.bind timestampOf fieldsOf]. rewrite getPeriodKey_date. cbn [JS.bind].
    rewrite IH. reflexivity. }
  rewrite F. reflexivity.
Qed.

(** On records that were read from the files, it throws at the first. *)
Lemma aggregateRecords_read offset records p :
  UsageFiles.aggregateRecords offset (map Read records) p
  = match records with
    | [] => Ok []
    | _ :: _ => Throw "TypeError: date.getFullYear is not a function"
    end.
Proof.
  unfold UsageFiles.aggregateRecords. destruct records as [|r records]; [reflexivity|].
  cbn [map fold_left]. unfold UsageFiles.addRecord at 2.
  cbn [JS.bind timestampOf]. rewrite getPeriodKey_text. cbn [JS.bind].
  now rewrite addRecord_thrown.
Qed.

Lemma getUsageHistory_result offset this agentId provider model p startDate endDate now :
  match getUsageHistory offset this agentId provider model p startDate endDate now with
  | Ok history => history = []
  | Throw message => message = "TypeError: date.getFullYear is not a function"
  end.
Proof.
  unfold getUsageHistory. rewrite aggregateRecords_read.
  destruct (loadRecords _ _ _ _ _ _ _); reflexivity.
Qed.

(** The record that was saved comes back when the loop reaches the file of
    its UTC day. *)
Lemma getUsageHistory_throws offset this (params : RecordParams ModelCostConfig)
    uuid now later agent p :
  enabled this = true ->
  UsageFiles.getPeriodStart offset p later <= now <= later ->
  startOfDay now + timeOfDay (UsageFiles.getPeriodStart offset p later) <= later ->
  differs agent (param_agentId _ params) = false ->
  getUsageHistory offset (recordUsage _ estimateUsageCost this params uuid now)
    agent None None p None None later
  = Throw "TypeError: date.getFullYear is not a function".
Proof.
  intros En Hw Hreach Hagent. rewrite (recordUsage_enabled _ _ _ _ En).
  unfold getUsageHistory. rewrite aggregateRecords_read.
  set (start := UsageFiles.getPeriodStart offset p later) in *.
  set (record := newRecord _ estimateUsageCost params uuid now).
  assert (Hin : In (Parsed record)
                  (loadRecords (saveRecord this record) agent None None
                     (Some start) (Some later) later)).
  { apply loadRecords_In.
    destruct (saveRecord_files this record) as (old & E & _).
    assert (T : timestamp record = now) by reflexivity.
    exists (dayNumber now - dayNumber start), (old ++ [Parsed record]).
    assert (L : dayNumber start <= dayNumber now) by (apply dayNumber_le; lia).
    split; [lia|]. split.
    { unfold startOfDay, timeOfDay, addDays, dayNumber, msPerDay in *.
      Z.div_mod_to_equations; lia. }
    split.
    { rewrite E.
      replace (fileOf (addDays start (dayNumber now - dayNumber start)))
        with (fileOf (timestamp record)); [apply Map_get_set_same|].
      apply fileOf_dayNumber. rewrite dayNumber_addDays, T. lia. }
    split; [apply in_app_iff; right; now left|].
    unfold recordDate, wanted. cbn [written]. rewrite T.
    split; [lia|]. split; [exact Hagent|]. split; reflexivity. }
  destruct (loadRecords _ _ _ _ _ _ _) as [|r rs]; [destruct Hin|reflexivity].
Qed.

(** X13.  [getUsageHistory] never returns an aggregate: it returns the
    empty list when no record is in its window and throws otherwise, because
    the records come back from the files with their time stamps as text and
    [getPeriodKey] calls [getFullYear] on the text.  On records whose time
    stamp is a [Date], [aggregateRecords] does return their aggregates. *)
Theorem getUsageHistory_no_aggregate offset this agentId provider model p startDate
    endDate now :
  match getUsageHistory offset this agentId provider model p startDate endDate now with
  | Ok history => history = []
  | Throw message => message = "TypeError: date.getFullYear is not a function"
  end /\
  forall records,
    UsageFiles.aggregateRecords offset (map Built records) p
    = Ok (UsageTracker.aggregateRecords (map (inZone offset) records) p).
Proof.
  split; [apply getUsageHistory_result|].
  intros records. apply aggregateRecords_built.
Qed.

(** X14.  After a usage was recorded, [getUsageHistory] throws for every
    period whose window (from the local start of the period up to now) holds
    the record, when the loop reaches the file of the UTC day of the record:
    the turn for that day, at the time of day of the start, is not after
    now. *)
Theorem getUsageHistory_after_recordUsage offset this
    (params : RecordParams ModelCostConfig) uuid now later agent p :
  enabled this = true ->
  UsageFiles.getPeriodStart offset p later <= now <= later ->
  startOfDay now + timeOfDay (UsageFiles.getPeriodStart offset p later) <= later ->
  differs agent (param_agentId _ params) = false ->
  getUsageHistory offset (recordUsage _ estimateUsageCost this params uuid now)
    agent None None p None None later
  = Throw "TypeError: date.getFullYear is not a function".
Proof. apply getUsageHistory_throws. Qed.

End Recorded.

(** ** The day of the end can be missed *)

(** X15.  When the start is later in its day than the end is in its own, the
    loop stops a day short: no record of the day of the end is returned,
    although such records lie in the window. *)
Theorem loadRecords_misses_last_day this agentId provider model startDate endDate now r :
  wellFiled this ->
  0 <= startDate -> endDate < year10000 ->
  timeOfDay endDate < timeOfDay startDate ->
  In r (loadRecords this agentId provider model (Some startDate) (Some endDate) now) ->
  dayNumber (recordDate r) < dayNumber endDate.
Proof.
  intros W H0 H1 T Hin. apply loadRecords_In in Hin.
  destruct Hin as (k & records & Hk & Hle & E & Hr & Hw & _).
  pose proof (W _ _ _ E Hr) as F.
  apply fileOf_same_day in F.
  - rewrite <- F, dayNumber_addDays.
    unfold timeOfDay, addDays, dayNumber, msPerDay in *.
    Z.div_mod_to_equations; lia.
  - apply fourDigitYear_range. unfold addDays, msPerDay, year10000 in *. lia.
  - apply fourDigitYear_range. unfold year10000 in *. lia.
Qed.

End RecordingFacts.

Section FilesWitnesses.

Import Date UsageTracker UsageFiles.
Local Open Scope Z_scope.
Local Open Scope list_scope.

Lemma loadRecords_exact_witness :
  In (Parsed sampleRecord)
     (loadRecords sampleTracker None None None
        (Some (UsageTracker.getPeriodStart week noon)) (Some noon) noon)
  <-> onFile sampleTracker (Parsed sampleRecord) /\
      UsageTracker.getPeriodStart week noon <= recordDate (Parsed sampleRecord) <= noon /\
      wanted None None None (Parsed sampleRecord).
Proof.
  apply (loadRecords_exact sampleTracker None None None
           (UsageTracker.getPeriodStart week noon) noon noon).
  - apply saveRecord_wellFiled, newTracker_wellFiled.
  - vm_compute. discriminate.
Defined.

(** Seven hours behind UTC: a usage of 11:00 is counted, one of 19:00 is
    not. *)
Lemma checkBudget_after_recordUsage_witness :
  spent (checkBudget utcMinus7 toFixedDecimal
           (recordUsage unit flatPrice sampleTracker sampleUsage "id-2" evening)
           None day (Some 1%float) (evening + 1000)%Z)
  = (if dayNumber evening
        =? dayNumber (UsageFiles.getPeriodStart utcMinus7 day (evening + 1000)%Z)
     then (spent (checkBudget utcMinus7 toFixedDecimal sampleTracker None day
                    (Some 1%float) (evening + 1000)%Z)
           + cost (newRecord unit flatPrice sampleUsage "id-2" evening))%float
     else spent (checkBudget utcMinus7 toFixedDecimal sampleTracker None day
                   (Some 1%float) (evening + 1000)%Z))
  /\
  spent (checkBudget utcMinus7 toFixedDecimal
           (recordUsage unit flatPrice sampleTracker sampleUsage "id-2" lateEvening)
           None day (Some 1%float) (lateEvening + 1000)%Z)
  = (if dayNumber lateEvening
        =? dayNumber (UsageFiles.getPeriodStart utcMinus7 day (lateEvening + 1000)%Z)
     then (spent (checkBudget utcMinus7 toFixedDecimal sampleTracker None day
                    (Some 1%float) (lateEvening + 1000)%Z)
           + cost (newRecord unit flatPrice sampleUsage "id-2" lateEvening))%float
     else spent (checkBudget utcMinus7 toFixedDecimal sampleTracker None day
                   (Some 1%float) (lateEvening + 1000)%Z)).
Proof.
  split.
  - apply (checkBudget_after_recordUsage unit flatPrice utcMinus7 toFixedDecimal
             sampleTracker sampleUsage "id-2" evening (evening + 1000)%Z None (Some 1%float)).
    + reflexivity.
    + vm_compute. discriminate.
    + vm_compute. reflexivity.
    + vm_compute. split; discriminate.
    + reflexivity.
  - apply (checkBudget_after_recordUsage unit flatPrice utcMinus7 toFixedDecimal
             sampleTracker sampleUsage "id-2" lateEvening (lateEvening + 1000)%Z None
             (Some 1%float)).
    + reflexivity.
    + vm_compute. discriminate.
    + vm_compute. reflexivity.
    + vm_compute. split; discriminate.
    + reflexivity.
Defined.

(** The two cases in figures: the usage of 11:00 raises what is spent from
    0 to 0.25, the one of 19:00 leaves it at 0, although both are usages of
    the local day. *)
Example checkBudget_counts_morning_only :
  spent (checkBudget utcMinus7 toFixedDecimal
           (recordUsage unit flatPrice newTracker sampleUsage "id-1" evening)
           None day None (evening + 1000)%Z)
  = 0.25%float /\
  spent (checkBudget utcMinus7 toFixedDecimal
           (recordUsage unit flatPrice newTracker sampleUsage "id-1" lateEvening)
           None day None (lateEvening + 1000)%Z)
  = 0%float /\
  UsageFiles.getPeriodStart utcMinus7 day (lateEvening + 1000)%Z <= lateEvening.
Proof.
  split; [vm_compute; reflexivity|]. split; [vm_compute; reflexivity|].
  vm_compute. discriminate.
Qed.

(** Seven hours ahead of UTC, at 01:00 of the next local day: the loop,
    which turns at 17:00 UTC, has reached the file of the record. *)
Lemma getUsageHistory_after_recordUsage_witness :
  getUsageHistory utcPlus7
    (recordUsage unit flatPrice newTracker sampleUsage "id-1" noon)
    (Some "agent") None None month None None evening
  = Throw "TypeError: date.getFullYear is not a function".
Proof.
  apply (getUsageHistory_after_recordUsage unit flatPrice utcPlus7 newTracker
           sampleUsage "id-1" noon evening (Some "agent") month).
  - reflexivity.
  - vm_compute. split; discriminate.
  - vm_compute. discriminate.
  - reflexivity.
Defined.

(** One second after the usage was recorded the loop has not reached that
    file, and the history is empty. *)
Example getUsageHistory_misses_afternoon :
  getUsageHistory utcPlus7
    (recordUsage unit flatPrice newTracker sampleUsage "id-1" noon)
    (Some "agent") None None month None None (noon + 1000)%Z
  = Ok [].
Proof. vm_compute. reflexivity. Qed.

Lemma loadRecords_misses_last_day_witness :
  dayNumber (recordDate (Parsed eveningRecord))
  < dayNumber morningAfter.
Proof.
  apply (loadRecords_misses_last_day eveningTracker None None None evening morningAfter
           morningAfter (Parsed eveningRecord)).
  - apply saveRecord_wellFiled, newTracker_wellFiled.
  - vm_compute. discriminate.
  - vm_compute. reflexivity.
  - vm_compute. reflexivity.
  - vm_compute. left. reflexivity.
Defined.

(** A record of 08:00 on the day of the end is on file and in the window,
    and is not returned. *)
Example loadRecords_skips_morning :
  onFile (saveRecord newTracker morningRecord) (Parsed morningRecord) /\
  evening <= timestamp morningRecord <= morningAfter /\
  loadRecords (saveRecord newTracker morningRecord) None None None
    (Some evening) (Some morningAfter) morningAfter = [].
Proof.
  split; [|split].
  - eexists. split; [vm_compute; reflexivity|]. now left.
  - vm_compute. split; discriminate.
  - vm_compute. reflexivity.
Qed.

End FilesWitnesses.

Section RankingFacts.

Import UsageTracker UsageFiles.
Local Open Scope Z_scope.
Local Open Scope list_scope.

(** The statistics that the records of one key add up to. *)
Lemma addStats_fold (records : list ParsedRecord) :
  NoDup (Map_keys (fold_left addStats records [])) /\
  forall k,
    Map_get (fold_left addStats records []) k =
    match countedAs k records with
    | [] => None
    | mine =>
        Some {| stats_cost := sumNumbers (writtenCosts mine);
                stats_requests := Z.of_nat (List.length mine) |}
    end.
Proof.
  induction records as [|r records IH] using rev_ind.
  - split; [constructor|reflexivity].
  - destruct IH as [ND IH]. rewrite fold_left_app. cbn [fold_left]. split.
    + unfold addStats. now apply Map_set_NoDup.
    + intros k. unfold countedAs. rewrite filter_app. cbn [filter].
      fold (countedAs k records).
      unfold addStats at 1. fold (statsKey r).
      destruct (String.eqb_spec (statsKey r) k) as [<-|N].
      * rewrite Map_get_set_same, IH.
        destruct (countedAs (statsKey r) records) as [|r0 mine]; [reflexivity|].
        cbn [app stats_cost stats_requests]. f_equal. f_equal.
        -- unfold writtenCosts, sumNumbers.
           change (r0 :: mine ++ [r]) with ((r0 :: mine) ++ [r]).
           rewrite map_app, fold_left_app. reflexivity.
        -- change (r0 :: mine ++ [r]) with ((r0 :: mine) ++ [r]).
           rewrite length_app. cbn [List.length]. lia.
      * rewrite Map_get_set_other by congruence. rewrite IH, app_nil_r. reflexivity.
Qed.

Lemma split_absent (sep : ascii) (p rest : string) :
  absent sep p ->
  split sep (p ++ String sep rest) = p :: split sep rest.
Proof.
  induction p as [|c p IH]; intros H.
  - cbn [append split]. now rewrite Ascii.eqb_refl.
  - destruct H as [Hc Hp]. cbn [append split].
    destruct (Ascii.eqb_spec c sep) as [E|_]; [contradiction|].
    now rewrite IH.
Qed.

Lemma split_head (sep : ascii) (s : string) :
  exists rest, split sep s = upTo sep s :: rest.
Proof.
  induction s as [|c s IH]; cbn [split upTo].
  - now exists [].
  - destruct (Ascii.eqb c sep); [now eexists|].
    destruct IH as [rest ->]. now eexists.
Qed.

Lemma slice0_In {A} (n : Z) (l : list A) (x : A) : In x (slice0 n l) -> In x l.
Proof.
  assert (F : forall k, In x (firstn k l) -> In x l).
  { intros k H. rewrite <- (firstn_skipn k l). apply in_app_iff. now left. }
  unfold slice0. destruct (0 <=? n); apply F.
Qed.

(** X16.  Every entry of the ranking stands for the records of one key: it counts
    them and adds up their costs in the order of the records.  When the
    name of the provider holds no colon, the entry names the provider, and as
    model the name of the model up to its first colon. *)
Theorem rankModels_entries (records : list ParsedRecord) (limit : option Z) (x : TopModel) :
  In x (rankModels records limit) ->
  exists r, In r records /\
    top_requests x = Z.of_nat (List.length (countedAs (statsKey r) records)) /\
    1 <= top_requests x /\
    top_cost x = sumNumbers (writtenCosts (countedAs (statsKey r) records)) /\
    (noColon (provider (written r)) ->
     top_provider x = Some (provider (written r)) /\
     top_model x = Some (beforeColon (model (written r)))).
Proof.
  unfold rankModels. intros H. apply slice0_In in H. apply toSorted_In in H.
  apply in_map_iff in H. destruct H as ([k s] & <- & Hin).
  destruct (addStats_fold records) as [ND G].
  apply (Map_In_get _ _ _ ND) in Hin. rewrite G in Hin.
  destruct (countedAs k records) as [|r mine] eqn:C; [discriminate|].
  assert (Hr : In r (countedAs k records)) by (rewrite C; now left).
  apply filter_In in Hr. destruct Hr as [Hr Hk]. apply String.eqb_eq in Hk.
  exists r. split; [exact Hr|]. rewrite Hk, C. inversion Hin; subst s.
  cbn [toTopModel top_requests top_cost top_provider top_model fst snd
       stats_cost stats_requests].
  split; [reflexivity|]. split; [cbn [List.length]; lia|]. split; [reflexivity|].
  intros NC. rewrite <- Hk. unfold statsKey.
  change (provider (written r) ++ ":" ++ model (written r))%string
    with (provider (written r) ++ String ":" (model (written r)))%string.
  rewrite (split_absent _ _ _ NC).
  destruct (split_head ":" (model (written r))) as [rest ->]. split; reflexivity.
Qed.

Lemma rankModels_entries_witness :
  exists r, In r llamaUsage /\
    top_requests (llamaTop 2%float) = Z.of_nat (List.length (countedAs (statsKey r) llamaUsage)) /\
    1 <= top_requests (llamaTop 2%float) /\
    top_cost (llamaTop 2%float) = sumNumbers (writtenCosts (countedAs (statsKey r) llamaUsage)) /\
    (noColon (provider (written r)) ->
     top_provider (llamaTop 2%float) = Some (provider (written r)) /\
     top_model (llamaTop 2%float) = Some (beforeColon (model (written r)))).
Proof.
  apply (rankModels_entries llamaUsage None (llamaTop 2%float)).
  vm_compute. left. reflexivity.
Defined.

(** Two models of one family that differ after the colon are ranked as
    two entries of the same name. *)
Example rankModels_truncates_names :
  rankModels llamaUsage None = [llamaTop 2%float; llamaTop 0.5%float].
Proof. vm_compute. reflexivity. Qed.

(** Without a limit the ranking has at most ten entries. *)
Lemma rankModels_default_length (records : list ParsedRecord) :
  (List.length (rankModels records None) <= 10)%nat.
Proof.
  unfold rankModels, slice0. cbn [Z.leb Z.compare Z.to_nat Pos.to_nat].
  apply firstn_le_length.
Qed.

End RankingFacts.

Section CapacityFacts.

Import ResponseCache.
Local Open Scope Z_scope.
Local Open Scope list_scope.

Lemma generateCacheKey_digest createHash numberToString digest params s :
  createHash (algorithm (hashing (config s))) = Some digest ->
  generateCacheKey createHash numberToString params s
  = Returns (digest (keyText numberToString s params)) s.
Proof.
  intros H. unfold generateCacheKey, bind, getState, keyText. cbv zeta. rewrite H. reflexivity.
Qed.

Lemma Map_delete_length {V} (m : Map V) (k : string) :
  Map_has m k = true -> (List.length (Map_delete m k) < List.length m)%nat.
Proof.
  unfold Map_has, Map_delete.
  induction m as [|[k' v] m IH]; simpl; [discriminate|].
  destruct (String.eqb_spec k' k) as [->|N]; simpl.
  - intros _. pose proof (filter_length_le (fun kv => negb (fst kv =? k)%string) m). lia.
  - intros H. specialize (IH H). lia.
Qed.

Lemma Map_set_length {V} (m : Map V) (k : string) (v : V) :
  (List.length (Map_set m k v) <= S (List.length m))%nat.
Proof.
  induction m as [|[k' v'] m IH]; simpl; [lia|].
  destruct (String.eqb k' k); simpl; lia.
Qed.

Lemma Map_delete_keys {V} (m : Map V) (k k' : string) :
  In k' (Map_keys (Map_delete m k)) -> In k' (Map_keys m) /\ k' <> k.
Proof.
  unfold Map_keys, Map_delete. rewrite !in_map_iff.
  intros ([k0 v] & <- & H). apply filter_In in H. destruct H as [H N]. simpl in *.
  split; [exists (k0, v); auto|].
  destruct (String.eqb_spec k0 k); [discriminate|assumption].
Qed.

(** What [set] does to the memory cache: when the cache is full the oldest
    entry goes first, then the new entry is stored under the digest. *)
Lemma set_memory_steps createHash numberToString digest params now s :
  enabled (config s) = true ->
  isMemory s = true ->
  createHash (algorithm (hashing (config s))) = Some digest ->
  set createHash numberToString params now s
  = Returns tt
      (withMemory s
         (Map_set
            (if Map_size (memoryCache s) >=? maxSize (storage (config s))
             then match Map_keys (memoryCache s) with
                  | oldestKey :: _ =>
                      if String.eqb oldestKey "" then memoryCache s
                      else Map_delete (memoryCache s) oldestKey
                  | [] => memoryCache s
                  end
             else memoryCache s)
            (digest (keyText numberToString s (keyParamsOf params)))
            (entryOf s params now))).
Proof.
  intros Hen Hm Hh. unfold set. unfold bind at 1. unfold getState at 1.
  rewrite Hen. cbn [negb]. unfold bind at 1.
  rewrite (generateCacheKey_digest _ _ digest _ _ Hh). fold (keyParamsOf params).
  rewrite Hm. fold (entryOf s params now).
  unfold bind, getState, putState, ret, evictOldest.
  destruct (Map_size (memoryCache s) >=? maxSize (storage (config s))).
  - unfold bind, getState. rewrite Hm.
    destruct (Map_keys (memoryCache s)) as [|oldestKey rest]; [destruct s; reflexivity|].
    destruct (String.eqb oldestKey ""); [destruct s; reflexivity|reflexivity].
  - destruct s; reflexivity.
Qed.

(** X17.  The memory cache never grows beyond [maxSize]: a [set] on a cache
    within its limit leaves it within its limit, holding the new entry. *)
Theorem set_memory_capacity createHash numberToString digest params now s :
  enabled (config s) = true ->
  isMemory s = true ->
  createHash (algorithm (hashing (config s))) = Some digest ->
  digest (keyText numberToString s (keyParamsOf params)) <> "" ->
  1 <= maxSize (storage (config s)) ->
  Map_size (memoryCache s) <= maxSize (storage (config s)) ->
  properKeys s ->
  exists s',
    set createHash numberToString params now s = Returns tt s' /\
    config s' = config s /\
    Map_size (memoryCache s') <= maxSize (storage (config s')) /\
    properKeys s' /\
    Map_get (memoryCache s') (digest (keyText numberToString s (keyParamsOf params)))
    = Some (entryOf s params now).
Proof.
  intros Hen Hm Hh Hd Hmax Hsize Hkeys.
  eexists. split; [apply (set_memory_steps _ _ digest); assumption|].
  cbn [config memoryCache withMemory]. split; [reflexivity|].
  set (m := if Map_size (memoryCache s) >=? maxSize (storage (config s)) then _ else _).
  assert (Hm' : Map_size m <= maxSize (storage (config s)) - 1 \/
                (m = memoryCache s /\ Map_size m < maxSize (storage (config s))) \/
                (m = [] )).
  { subst m. unfold Map_size in *.
    destruct (Z.geb_spec (Z.of_nat (List.length (memoryCache s))) (maxSize (storage (config s)))).
    - destruct (memoryCache s) as [|[k0 v0] rest] eqn:E; [right; right; reflexivity|].
      cbn [Map_keys map fst].
      assert (K : k0 <> "") by (apply Hkeys; rewrite E; now left).
      apply String.eqb_neq in K. rewrite K. left.
      assert (L : (List.length (Map_delete ((k0, v0) :: rest) k0)
                   < List.length ((k0, v0) :: rest))%nat).
      { apply Map_delete_length. unfold Map_has. cbn [Map_get]. now rewrite String.eqb_refl. }
      lia.
    - right. left. split; [reflexivity|lia]. }
  assert (Hk' : forall k, In k (Map_keys m) -> k <> "").
  { intros k Hk. apply Hkeys. subst m.
    destruct (Map_size (memoryCache s) >=? maxSize (storage (config s))); [|exact Hk].
    destruct (Map_keys (memoryCache s)) as [|oldestKey rest] eqn:E; [now rewrite E in Hk|].
    rewrite <- E. destruct (String.eqb oldestKey ""); [exact Hk|].
    now apply Map_delete_keys in Hk. }
  clearbody m. split; [|split].
  - pose proof (Map_set_length m (digest (keyText numberToString s (keyParamsOf params)))
                  (entryOf s params now)) as L.
    unfold Map_size in *.
    destruct Hm' as [H|[[_ H]| ->]]; [lia|lia|]. simpl. lia.
  - intros k Hk. unfold properKeys in *. cbn [memoryCache withMemory] in Hk.
    rewrite Map_set_keys in Hk.
    destruct (Map_has m _); [now apply Hk'|].
    apply in_app_iff in Hk. destruct Hk as [Hk|[<-|[]]]; [now apply Hk'|exact Hd].
  - apply Map_get_set_same.
Qed.

(** X18.  A [set] that overwrites an entry of a full cache still evicts the oldest
    entry, although no room is needed. *)
Theorem set_overwrite_evicts createHash numberToString digest params now s oldest rest e :
  enabled (config s) = true ->
  isMemory s = true ->
  createHash (algorithm (hashing (config s))) = Some digest ->
  maxSize (storage (config s)) <= Map_size (memoryCache s) ->
  Map_keys (memoryCache s) = oldest :: rest ->
  oldest <> "" ->
  Map_get (memoryCache s) (digest (keyText numberToString s (keyParamsOf params))) = Some e ->
  digest (keyText numberToString s (keyParamsOf params)) <> oldest ->
  exists s',
    set createHash numberToString params now s = Returns tt s' /\
    Map_get (memoryCache s') oldest = None /\
    Map_size (memoryCache s') < Map_size (memoryCache s).
Proof.
  intros Hen Hm Hh Hfull Hkeys Hold Hget Hne.
  eexists. split; [apply (set_memory_steps _ _ digest); assumption|].
  cbn [memoryCache withMemory].
  replace (Map_size (memoryCache s) >=? maxSize (storage (config s))) with true
    by (symmetry; apply Z.geb_le; lia).
  rewrite Hkeys. apply String.eqb_neq in Hold. rewrite Hold. split.
  - rewrite Map_get_set_other by congruence. apply Map_delete_get_same.
  - set (k := digest _) in *.
    assert (Hhas : Map_has (Map_delete (memoryCache s) oldest) k = true).
    { unfold Map_has.
      assert (G : Map_get (Map_delete (memoryCache s) oldest) k = Some e).
      { clear - Hget Hne. unfold Map_delete.
        induction (memoryCache s) as [|[k0 v0] m IH]; simpl in *; [discriminate|].
        destruct (String.eqb_spec k0 k) as [->|N].
        - apply String.eqb_neq in Hne. rewrite Hne. simpl. rewrite String.eqb_refl. exact Hget.
        - destruct (negb (k0 =? oldest)%string); simpl.
          + apply String.eqb_neq in N. rewrite N. now apply IH.
          + now apply IH. }
      now rewrite G. }
    assert (L1 : List.length (Map_set (Map_delete (memoryCache s) oldest) k (entryOf s params now))
                 = List.length (Map_delete (memoryCache s) oldest)).
    { pose proof (Map_set_keys (Map_delete (memoryCache s) oldest) k (entryOf s params now)) as K.
      rewrite Hhas in K. apply (f_equal (@List.length string)) in K.
      unfold Map_keys in K. rewrite !length_map in K. exact K. }
    assert (L2 : (List.length (Map_delete (memoryCache s) oldest)
                  < List.length (memoryCache s))%nat).
    { apply Map_delete_length. unfold Map_has.
      destruct (memoryCache s) as [|[k0 v0] m]; [discriminate|].
      cbn [Map_keys map fst] in Hkeys. inversion Hkeys; subst. cbn [Map_get].
      now rewrite String.eqb_refl. }
    unfold Map_size. lia.
Qed.

Lemma set_memory_capacity_witness :
  exists s',
    set nodeCrypto wholeNumber k1 1000 freshCache = Returns tt s' /\
    config s' = config freshCache /\
    Map_size (memoryCache s') <= maxSize (storage (config s')) /\
    properKeys s' /\
    Map_get (memoryCache s') (Sha256.hex (keyText wholeNumber freshCache (keyParamsOf k1)))
    = Some (entryOf freshCache k1 1000).
Proof.
  apply (set_memory_capacity nodeCrypto wholeNumber Sha256.hex k1 1000 freshCache).
  - reflexivity.
  - reflexivity.
  - reflexivity.
  - vm_compute. discriminate.
  - vm_compute. discriminate.
  - vm_compute. discriminate.
  - intros k [].
Defined.

Lemma set_overwrite_evicts_witness :
  exists s',
    set nodeCrypto wholeNumber k1 2000 fullCache = Returns tt s' /\
    Map_get (memoryCache s') "old" = None /\
    Map_size (memoryCache s') < Map_size (memoryCache fullCache).
Proof.
  apply (set_overwrite_evicts nodeCrypto wholeNumber Sha256.hex k1 2000 fullCache
           "old" [Sha256.hex "k1"] (k1Entry 0)).
  - reflexivity.
  - reflexivity.
  - reflexivity.
  - vm_compute. discriminate.
  - vm_compute. reflexivity.
  - discriminate.
  - vm_compute. reflexivity.
  - vm_compute. discriminate.
Defined.

End CapacityFacts.

Section DiskFacts.

Import ResponseCache.
Local Open Scope Z_scope.
Local Open Scope list_scope.

Lemma get_disk_hit s files f k e now :
  enabled (config s) = true -> isMemory s = false ->
  node s = Directory files ->
  Map_get files (fileName k) = Some f -> content f = Json e ->
  now - timestamp e <= ttl e * 1000 ->
  get k now s
  = Returns (Some (hit e))
      (withNode s (Directory (Map_set files (fileName k)
                                {| content := Json (hit e); mtime := now |}))).
Proof.
  intros Hen Hm Hn Hf Hc Hcmp.
  unfold get, bind, getState, ret. rewrite Hen. cbn [negb]. rewrite Hm.
  unfold getDiskCache, bind, getState, ret. rewrite Hn, Hf, Hc.
  replace (now - timestamp e >? ttl e * 1000) with false
    by (symmetry; rewrite Z.gtb_ltb; apply Z.ltb_ge; lia).
  rewrite Hm. unfold setDiskCache. rewrite Hn. reflexivity.
Qed.

(** X19.  A cache file that does not parse is deleted by the [get] that finds
    it; the [get] returns null and nothing else changes. *)
Theorem get_corrupted_file s files f k now :
  enabled (config s) = true -> isMemory s = false ->
  node s = Directory files ->
  Map_get files (fileName k) = Some f -> content f = Garbage ->
  get k now s = Returns None (withNode s (Directory (Map_delete files (fileName k)))).
Proof.
  intros Hen Hm Hn Hf Hc.
  unfold get, bind, getState, ret. rewrite Hen. cbn [negb]. rewrite Hm.
  unfold getDiskCache, bind, getState, ret. rewrite Hn, Hf, Hc.
  unfold tryCatch, unlinkSync. rewrite Hn. unfold Map_has. rewrite Hf. reflexivity.
Qed.

Lemma hits_hit n e : 0 <= n -> hits n (hit e) = hits (n + 1) e.
Proof. intros H. unfold hits, hit. cbn. f_equal. lia. Qed.

Lemma hits_zero e : hits 0 e = e.
Proof. destruct e. unfold hits. cbn. f_equal. lia. Qed.

(** X20.  Every [get] within the time to live counts: after [n] of them the
    entry is stored with its hit count raised by [n], on either backend. *)
Theorem getEach_hits k times :
  forall s e,
  enabled (config s) = true ->
  stored s k e ->
  (forall now, In now times -> now - timestamp e <= ttl e * 1000) ->
  exists s',
    getEach k times s = Returns tt s' /\
    config s' = config s /\
    stored s' k (hits (Z.of_nat (List.length times)) e).
Proof.
  induction times as [|now times IH]; intros s e Hen Hst Hfresh.
  - exists s. split; [reflexivity|]. split; [reflexivity|].
    cbn [List.length Z.of_nat]. now rewrite hits_zero.
  - assert (Hnow : now - timestamp e <= ttl e * 1000) by (apply Hfresh; now left).
    assert (Step : exists s1, get k now s = Returns (Some (hit e)) s1 /\
                     config s1 = config s /\ stored s1 k (hit e)).
    { unfold stored in Hst. destruct (isMemory s) eqn:Hm.
      - eexists. split; [apply get_memory_hit; assumption|].
        split; [reflexivity|]. unfold stored. rewrite isMemory_withMemory, Hm.
        apply Map_get_set_same.
      - destruct Hst as (files & f & Hn & Hf & Hc).
        eexists. split; [eapply get_disk_hit; eassumption|].
        split; [reflexivity|]. unfold stored. rewrite isMemory_withNode, Hm.
        eexists. eexists. split; [reflexivity|]. split; [apply Map_get_set_same|reflexivity]. }
    destruct Step as (s1 & Hget & Hc1 & Hst1).
    destruct (IH s1 (hit e)) as (s' & Hrest & Hc' & Hst').
    + now rewrite Hc1.
    + exact Hst1.
    + intros t Ht. cbn [hit timestamp ttl]. apply Hfresh. now right.
    + exists s'. split; [|split].
      * unfold getEach in *. cbn [forEach]. unfold bind at 1. unfold bind at 1.
        rewrite Hget. unfold ret at 1. exact Hrest.
      * congruence.
      * rewrite hits_hit in Hst' by lia.
        replace (Z.of_nat (List.length (now :: times)))
          with (Z.of_nat (List.length times) + 1) by (cbn [List.length]; lia).
        exact Hst'.
Qed.

Lemma getEach_hits_witness :
  exists s',
    getEach (Sha256.hex "k1") [2000; 3000; 4000] diskAfterSet = Returns tt s' /\
    config s' = config diskAfterSet /\
    stored s' (Sha256.hex "k1") (hits (Z.of_nat (List.length [2000; 3000; 4000])) (k1Entry 0)).
Proof.
  apply (getEach_hits (Sha256.hex "k1") [2000; 3000; 4000] diskAfterSet (k1Entry 0)).
  - reflexivity.
  - unfold stored. cbn [isMemory diskAfterSet]. eexists. eexists.
    split; [reflexivity|].
    split; [cbn [Map_get]; rewrite String.eqb_refl; reflexivity|reflexivity].
  - intros now [<-|[<-|[<-|[]]]]; vm_compute; discriminate.
Defined.

Lemma get_corrupted_file_witness :
  get "k" 1000 (withNode freshDiskCache
                  (Directory [(fileName "k", {| content := Garbage; mtime := 1 |})]))
  = Returns None
      (withNode (withNode freshDiskCache
                   (Directory [(fileName "k", {| content := Garbage; mtime := 1 |})]))
                (Directory (Map_delete [(fileName "k", {| content := Garbage; mtime := 1 |})]
                              (fileName "k")))).
Proof.
  apply (get_corrupted_file _ [(fileName "k", {| content := Garbage; mtime := 1 |})]
           {| content := Garbage; mtime := 1 |}).
  - reflexivity.
  - reflexivity.
  - reflexivity.
  - reflexivity.
  - reflexivity.
Defined.

End DiskFacts.

Section DiskLimitFacts.

Import ResponseCache.
Local Open Scope Z_scope.
Local Open Scope list_scope.

Lemma insert_sorted_perm {A} (behind : A -> A -> bool) (x : A) (l : list A) :
  Permutation (insert_sorted behind x l) (x :: l).
Proof.
  induction l as [|y l IH]; simpl; [reflexivity|].
  destruct (behind x y); [|reflexivity].
  rewrite IH. apply perm_swap.
Qed.

Lemma toSortedBy_perm {A} (behind : A -> A -> bool) (l : list A) :
  Permutation (toSortedBy behind l) l.
Proof.
  induction l as [|x l IH]; simpl; [reflexivity|].
  rewrite insert_sorted_perm. now constructor.
Qed.

Lemma substring_append (a b : string) (n : nat) :
  String.substring (String.length a) n (a ++ b) = String.substring 0 n b.
Proof. induction a as [|c a IH]; simpl; [reflexivity|exact IH]. Qed.

Lemma endsWith_fileName (k : string) : endsWith ".json" (fileName k) = true.
Proof.
  unfold endsWith, fileName. rewrite length_append.
  apply andb_true_iff. split.
  - apply Nat.leb_le. simpl. lia.
  - apply String.eqb_eq.
    replace (String.length k + String.length ".json" - String.length ".json")%nat
      with (String.length k) by lia.
    rewrite substring_append. reflexivity.
Qed.

(** A key that is new goes to the end of a map, one that is present keeps
    its place. *)
Lemma Map_keys_set {V} (m : Map V) (k : string) (v : V) :
  Map_keys (Map_set m k v)
  = if Map_has m k then Map_keys m else Map_keys m ++ [k].
Proof.
  unfold Map_keys, Map_has. induction m as [|[k' v'] m IH]; simpl; [reflexivity|].
  destruct (String.eqb_spec k' k) as [->|N]; simpl; [reflexivity|].
  rewrite IH. destruct (Map_get m k); reflexivity.
Qed.

(** [getDiskCacheFiles] finds no file, so that [enforceDiskCacheLimit]
    deletes none, whatever the limit is. *)
Lemma enforceDiskCacheLimit_idle s : enforceDiskCacheLimit s = Returns tt s.
Proof.
  unfold enforceDiskCacheLimit, bind, getState. rewrite getDiskCacheFiles_empty.
  cbn [List.length Z.of_nat].
  destruct (0 <=? maxSize (storage (config s))); [reflexivity|].
  unfold toSortedBy. cbn [fold_right]. rewrite firstn_nil. reflexivity.
Qed.

(** X21.  On the disk backend [set] writes the file of the key and deletes
    nothing: every cache file that was in the directory is still there, and
    a key that is new adds a file, whatever [maxSize] is.  The limit of the
    disk cache is never enforced. *)
Theorem set_disk_keeps_files createHash numberToString digest params now s files :
  enabled (config s) = true ->
  isMemory s = false ->
  createHash (algorithm (hashing (config s))) = Some digest ->
  node s = Directory files ->
  exists s',
    set createHash numberToString params now s = Returns tt s' /\
    config s' = config s /\
    node s'
    = Directory
        (Map_set files (fileName (digest (keyText numberToString s (keyParamsOf params))))
           {| content := Json (entryOf s params now); mtime := now |}) /\
    incl (jsonFiles s) (jsonFiles s') /\
    (Map_has files (fileName (digest (keyText numberToString s (keyParamsOf params))))
     = false ->
     List.length (jsonFiles s') = S (List.length (jsonFiles s))).
Proof.
  intros Hen Hm Hh Hn.
  set (k := digest (keyText numberToString s (keyParamsOf params))).
  set (file := {| content := Json (entryOf s params now); mtime := now |}).
  exists (withNode s (Directory (Map_set files (fileName k) file))).
  split.
  { unfold set. unfold bind at 1. unfold getState at 1.
    rewrite Hen. cbn [negb]. unfold bind at 1.
    rewrite (generateCacheKey_digest _ _ digest _ _ Hh). rewrite Hm.
    unfold bind at 1. unfold setDiskCache. rewrite Hn.
    apply enforceDiskCacheLimit_idle. }
  split; [reflexivity|]. split; [reflexivity|].
  unfold jsonFiles. rewrite Hn. cbn [node withNode]. rewrite Map_keys_set.
  destruct (Map_has files (fileName k)).
  - split; [apply incl_refl|discriminate].
  - rewrite filter_app. cbn [filter]. rewrite endsWith_fileName. split.
    + apply incl_appl, incl_refl.
    + intros _. rewrite length_app. simpl. lia.
Qed.

Lemma set_disk_keeps_files_witness :
  exists s',
    set nodeCrypto wholeNumber k1 1000 crowdedDiskCache = Returns tt s' /\
    config s' = config crowdedDiskCache /\
    node s'
    = Directory
        (Map_set [("a.json", {| content := Json (k1Entry 0); mtime := 10 |});
                  ("b.json", {| content := Json (k1Entry 0); mtime := 20 |})]
           (fileName (Sha256.hex (keyText wholeNumber crowdedDiskCache (keyParamsOf k1))))
           {| content := Json (entryOf crowdedDiskCache k1 1000); mtime := 1000 |}) /\
    incl (jsonFiles crowdedDiskCache) (jsonFiles s') /\
    (Map_has [("a.json", {| content := Json (k1Entry 0); mtime := 10 |});
              ("b.json", {| content := Json (k1Entry 0); mtime := 20 |})]
       (fileName (Sha256.hex (keyText wholeNumber crowdedDiskCache (keyParamsOf k1))))
     = false ->
     List.length (jsonFiles s') = S (List.length (jsonFiles crowdedDiskCache))).
Proof.
  apply (set_disk_keeps_files nodeCrypto wholeNumber Sha256.hex k1 1000 crowdedDiskCache
           [("a.json", {| content := Json (k1Entry 0); mtime := 10 |});
            ("b.json", {| content := Json (k1Entry 0); mtime := 20 |})]).
  - reflexivity.
  - reflexivity.
  - reflexivity.
  - reflexivity.
Defined.

(** A cache of one place: after the [set] its directory holds three cache
    files. *)
Example set_disk_over_limit :
  maxSize (storage (config crowdedDiskCache)) = 1 /\
  exists s',
    set nodeCrypto wholeNumber k1 1000 crowdedDiskCache = Returns tt s' /\
    jsonFiles s' = ["a.json"; "b.json"; fileName (Sha256.hex "k1")].
Proof.
  split; [reflexivity|]. eexists. split; vm_compute; reflexivity.
Qed.

End DiskLimitFacts.

Section DashboardFacts.

Import UsageTracker UsageDashboard.
Local Open Scope float_scope.





(** X23.  Once a usage is recorded, [getMetrics] throws at every later time of
    the local day, for the agent of the record as for all agents, when the
    UTC date of the record is the UTC date of the local midnight: the window
    of the first call of [getPeriodMetrics] then opens the file of the
    record, and that call fails. *)
Theorem getMetrics_after_recordUsage toFixed offset config ModelCostConfig
    estimateUsageCost this (params : UsageFiles.RecordParams ModelCostConfig)
    uuid now agent clock :
  UsageFiles.enabled this = true ->
  (UsageFiles.getPeriodStart offset day (clock 0%nat) <= now <= clock 0%nat)%Z ->
  Date.dayNumber now = Date.dayNumber (UsageFiles.getPeriodStart offset day (clock 0%nat)) ->
  UsageFiles.differs agent (UsageFiles.param_agentId _ params) = false ->
  getMetrics toFixed offset config
    (UsageFiles.recordUsage ModelCostConfig estimateUsageCost this params uuid now)
    agent clock
  = Throw "TypeError: date.getFullYear is not a function".
Proof.
  intros En Hw Hday Hagent. unfold getMetrics, getPeriodMetrics.
  assert (Hreach : (Date.startOfDay now
                    + timeOfDay (UsageFiles.getPeriodStart offset day (clock 0%nat))
                    <= clock 0%nat)%Z).
  { unfold Date.startOfDay, timeOfDay. rewrite Hday.
    unfold Date.dayNumber, Date.msPerDay in *. Z.div_mod_to_equations; lia. }
  rewrite (getUsageHistory_throws _ estimateUsageCost offset this params uuid now
             (clock 0%nat) agent day En Hw Hreach Hagent).
  reflexivity.
Qed.

Lemma getMetrics_after_recordUsage_witness :
  getMetrics toFixedDecimal utcMinus7 emptyConfig
    (UsageFiles.recordUsage unit flatPrice newTracker sampleUsage "id-1" evening)
    None (still (evening + 1000)%Z)
  = Throw "TypeError: date.getFullYear is not a function".
Proof.
  apply (getMetrics_after_recordUsage toFixedDecimal utcMinus7 emptyConfig unit flatPrice
           newTracker sampleUsage "id-1" evening None (still (evening + 1000)%Z)).
  - reflexivity.
  - vm_compute. split; discriminate.
  - vm_compute. reflexivity.
  - reflexivity.
Defined.

(** Seven hours behind UTC, a usage that is recorded at 19:00 is in the
    file of the next UTC day, which the window of the local day does not
    open: the metrics of the day show no usage.  The window of the trends
    starts at the time of day of its end and does open that file. *)
Example getPeriodMetrics_misses_evening :
  getPeriodMetrics utcMinus7
    (UsageFiles.recordUsage unit flatPrice newTracker sampleUsage "id-1" lateEvening)
    day None (lateEvening + 1000)%Z
  = Ok noMetrics /\
  calculateTrends utcMinus7
    (UsageFiles.recordUsage unit flatPrice newTracker sampleUsage "id-1" lateEvening)
    None (lateEvening + 1000)%Z (lateEvening + 1000)%Z
  = Throw "TypeError: date.getFullYear is not a function".
Proof. split; vm_compute; reflexivity. Qed.

(** ** The trends *)

Lemma nan_ltb (x : float) : (nan <? x) = false.
Proof. rewrite ltb_spec. reflexivity. Qed.

Lemma ltb_nan (x : float) : (x <? nan) = false.
Proof.
  rewrite ltb_spec. unfold SFltb. change (Prim2SF nan) with S754_nan.
  destruct (Prim2SF x) as [s|s| |s m e]; try reflexivity; destruct s; reflexivity.
Qed.

(** X24.  With fewer than four days of history both trends are "stable",
    whatever the figures: the average of the earlier days is then zero
    divided by zero. *)
Theorem trendsOf_few_days (dailyData : list UsageAggregate) :
  (List.length dailyData < 4)%nat ->
  costTrend (trendsOf dailyData) = stable /\ usageTrend (trendsOf dailyData) = stable.
Proof.
  intros H. destruct dailyData as [|a [|b [|c [|d rest]]]]; simpl in H; try lia.
  - split; reflexivity.
  - split; reflexivity.
  - unfold trendsOf. cbn [List.length Nat.ltb Nat.leb firstn skipn costTrend usageTrend].
    unfold trendOf.
    change (sumCost [] / lengthOf (@nil UsageAggregate) * (1 + 0.1)) with nan.
    change (sumCost [] / lengthOf (@nil UsageAggregate) * (1 - 0.1)) with nan.
    change (sumTokens [] / lengthOf (@nil UsageAggregate) * (1 + 0.1)) with nan.
    change (sumTokens [] / lengthOf (@nil UsageAggregate) * (1 - 0.1)) with nan.
    rewrite !nan_ltb, !ltb_nan. split; reflexivity.
  - unfold trendsOf. cbn [List.length Nat.ltb Nat.leb firstn skipn costTrend usageTrend].
    unfold trendOf.
    change (sumCost [] / lengthOf (@nil UsageAggregate) * (1 + 0.1)) with nan.
    change (sumCost [] / lengthOf (@nil UsageAggregate) * (1 - 0.1)) with nan.
    change (sumTokens [] / lengthOf (@nil UsageAggregate) * (1 + 0.1)) with nan.
    change (sumTokens [] / lengthOf (@nil UsageAggregate) * (1 - 0.1)) with nan.
    rewrite !nan_ltb, !ltb_nan. split; reflexivity.
Qed.

Lemma trendsOf_few_days_witness :
  costTrend (trendsOf risingDays) = stable /\ usageTrend (trendsOf risingDays) = stable.
Proof.
  apply (trendsOf_few_days risingDays). vm_compute. lia.
Defined.

End DashboardFacts.

Section TopFacts.

Import UsageTracker UsageDashboard.
Local Open Scope float_scope.

(** A number that is not above the old maximum is not above a new, higher
    one. *)
Lemma SFltb_raise (m c m' : spec_float) :
  SFltb m c = false -> SFltb m m' = true -> SFltb m' c = false.
Proof.
  unfold SFltb.
  destruct m as [sa|sa| |sa ma ea], c as [sx|sx| |sx mx ex], m' as [sb|sb| |sb mb eb];
    cbn [SFcompare]; try discriminate; try reflexivity;
    repeat match goal with s : bool |- _ => destruct s end;
    try discriminate; try reflexivity.
  all: change (Pos.compare_cont Eq ma mx) with (Pos.compare ma mx);
       change (Pos.compare_cont Eq ma mb) with (Pos.compare ma mb);
       change (Pos.compare_cont Eq mb mx) with (Pos.compare mb mx).
  all: destruct (Z.compare_spec ea ex); try discriminate;
       destruct (Z.compare_spec ea eb); try discriminate;
       destruct (Z.compare_spec eb ex); try reflexivity; try lia; subst.
  all: destruct (Pos.compare_spec ma mx); try discriminate;
       destruct (Pos.compare_spec ma mb); try discriminate;
       destruct (Pos.compare_spec mb mx); try reflexivity; try discriminate; try lia.
Qed.

Lemma ltb_raise (m c m' : float) :
  (m <? c) = false -> (m <? m') = true -> (m' <? c) = false.
Proof. rewrite !ltb_spec. apply SFltb_raise. Qed.

(** What the inner loop keeps: the maximum is the cost of the leaf that is
    named, unless it is the one that came in; no leaf that was seen is above
    it, and nothing that was not above it before is above it now. *)
Lemma topOfModels_spec provider models : forall top,
  let top' := topOfModels provider models top in
  (top' = top \/
   (top_provider top' = provider /\
    exists leaf, In (top_model top', leaf) models /\ maxCost top' = leaf_cost leaf)) /\
  (forall model leaf, In (model, leaf) models -> (maxCost top' <? leaf_cost leaf) = false) /\
  (forall c, (maxCost top <? c) = false -> (maxCost top' <? c) = false).
Proof.
  unfold topOfModels. induction models as [|[model leaf] models IH]; intros top; cbn [fold_left].
  - split; [now left|]. split; [intros ? ? []|auto].
  - cbv zeta in IH. cbn [fst snd].
    destruct (maxCost top <? leaf_cost leaf) eqn:C.
    + destruct (IH {| top_provider := provider; top_model := model; maxCost := leaf_cost leaf |})
        as (Hname & Hseen & Hkeep).
      split; [|split].
      * right. destruct Hname as [->|[Hp (leaf' & Hin & Hc)]].
        -- split; [reflexivity|]. exists leaf. split; [now left|reflexivity].
        -- split; [exact Hp|]. exists leaf'. split; [now right|exact Hc].
      * intros model' leaf' [E|Hin]; [|now apply (Hseen model')].
        inversion E; subst. apply Hkeep. cbn [maxCost].
        destruct (leaf_cost leaf' <? leaf_cost leaf') eqn:R; [|reflexivity].
        apply ltb_leb_false in R.
        rewrite ltb_spec in C. rewrite leb_spec in R. unfold SFltb, SFleb in *.
        destruct (SFcompare (Prim2SF (maxCost top)) (Prim2SF (leaf_cost leaf'))) as [[]|] eqn:E1;
          try discriminate.
        destruct (Prim2SF (leaf_cost leaf')) as [s|s| |s m e]; try discriminate;
          try (destruct s; discriminate).
        -- destruct (Prim2SF (maxCost top)) as [s'|s'| |s' m' e']; try discriminate;
             destruct s', s; discriminate.
        -- rewrite SFcompare_refl_finite in R. discriminate.
      * intros c Hc. apply Hkeep. cbn [maxCost]. exact (ltb_raise _ _ _ Hc C).
    + destruct (IH top) as (Hname & Hseen & Hkeep).
      split; [|split].
      * destruct Hname as [E|[Hp (leaf' & Hin & Hc)]]; [now left|right].
        split; [exact Hp|]. exists leaf'. split; [now right|exact Hc].
      * intros model' leaf' [E|Hin]; [|now apply (Hseen model')].
        inversion E; subst. now apply Hkeep.
      * exact Hkeep.
Qed.

Lemma topOf_spec breakdown : forall top,
  let top' := fold_left (fun top entry => topOfModels (fst entry) (snd entry) top)
                breakdown top in
  (top' = top \/
   exists leaf, leafOf breakdown (top_provider top') (top_model top') leaf /\
                maxCost top' = leaf_cost leaf) /\
  (forall provider model leaf, leafOf breakdown provider model leaf ->
     (maxCost top' <? leaf_cost leaf) = false) /\
  (forall c, (maxCost top <? c) = false -> (maxCost top' <? c) = false).
Proof.
  induction breakdown as [|[provider models] breakdown IH]; intros top; cbn [fold_left].
  - split; [now left|]. split; [|auto]. intros ? ? ? (models & [] & _).
  - cbv zeta in IH. cbn [fst snd].
    destruct (topOfModels_spec provider models top) as (Hname1 & Hseen1 & Hkeep1).
    cbv zeta in Hname1, Hseen1, Hkeep1.
    destruct (IH (topOfModels provider models top)) as (Hname & Hseen & Hkeep).
    split; [|split].
    + destruct Hname as [E|(leaf & (models' & Hin & Hl) & Hc)].
      * rewrite E. destruct Hname1 as [E1|[Hp (leaf & Hin & Hc)]]; [now left|right].
        exists leaf. split; [|exact Hc]. exists models. split; [left; now rewrite Hp|exact Hin].
      * right. exists leaf. split; [|exact Hc]. exists models'. split; [now right|exact Hl].
    + intros provider' model leaf (models' & [E|Hin] & Hl).
      * inversion E; subst. apply Hkeep. now apply (Hseen1 model).
      * apply (Hseen provider' model). exists models'. auto.
    + intros c Hc. apply Hkeep. now apply Hkeep1.
Qed.

(** X25.  The top model of [getPeriodMetrics] is a leaf of the breakdown whose
    cost no leaf is above; no model is named when no leaf costs more than
    zero. *)
Theorem topOf_maximal breakdown provider model leaf :
  leafOf breakdown provider model leaf ->
  (maxCost (topOf breakdown) <? leaf_cost leaf) = false /\
  (topOf breakdown = {| top_provider := ""; top_model := ""; maxCost := 0 |} \/
   exists top, leafOf breakdown (top_provider (topOf breakdown))
                 (top_model (topOf breakdown)) top /\
               maxCost (topOf breakdown) = leaf_cost top).
Proof.
  intros H. unfold topOf.
  destruct (topOf_spec breakdown {| top_provider := ""; top_model := ""; maxCost := 0 |})
    as (Hname & Hseen & _).
  cbv zeta in Hname, Hseen. split; [now apply (Hseen provider model)|exact Hname].
Qed.

Lemma topOf_maximal_witness :
  (maxCost (topOf sampleBreakdown)
   <? leaf_cost {| leaf_cost := 2; leaf_tokens := 10; leaf_requests := 1 |}) = false /\
  (topOf sampleBreakdown = {| top_provider := ""; top_model := ""; maxCost := 0 |} \/
   exists top, leafOf sampleBreakdown (top_provider (topOf sampleBreakdown))
                 (top_model (topOf sampleBreakdown)) top /\
               maxCost (topOf sampleBreakdown) = leaf_cost top).
Proof.
  apply (topOf_maximal sampleBreakdown "openai" "gpt-4o").
  eexists. split; [left; reflexivity|left; reflexivity].
Defined.

Example topOf_sample :
  topOf sampleBreakdown
  = {| top_provider := "anthropic"; top_model := "claude"; maxCost := 3 |}.
Proof. vm_compute. reflexivity. Qed.

End TopFacts.

Section ManagerFacts.

Import CostOptimizationManager.
Local Open Scope list_scope.

Lemma includes_absent (sep : ascii) (p rest : string) :
  includes sep (p ++ String sep rest) = true.
Proof.
  induction p as [|c p IH]; cbn [append includes].
  - now rewrite Ascii.eqb_refl.
  - rewrite IH. apply orb_true_r.
Qed.

(** X26.  A default model "provider/model" is cut at its second slash: what
    follows the second slash is dropped from the name of the model. *)
Theorem getDefaultModel_parse (this : Manager) (p rest : string) :
  defaultModel this = Some (ModelName (p ++ "/" ++ rest)) ->
  absent "/" p ->
  getDefaultModel this = {| provider := p; model := upTo "/" rest |}.
Proof.
  intros H A. unfold getDefaultModel. rewrite H. unfold parseModel.
  change (p ++ "/" ++ rest)%string with (p ++ String "/" rest)%string.
  rewrite includes_absent, (split_absent _ _ _ A).
  destruct (split_head "/" rest) as [tail ->]. reflexivity.
Qed.

Lemma getDefaultModel_parse_witness :
  getDefaultModel (namedDefault "openrouter/meta-llama/llama-3-70b")
  = {| provider := "openrouter"; model := upTo "/" "meta-llama/llama-3-70b" |}.
Proof.
  apply (getDefaultModel_parse (namedDefault "openrouter/meta-llama/llama-3-70b")
           "openrouter" "meta-llama/llama-3-70b").
  - reflexivity.
  - cbn. repeat split; discriminate.
Defined.

(** The model of the sample loses its last part. *)
Example getDefaultModel_truncates :
  getDefaultModel (namedDefault "openrouter/meta-llama/llama-3-70b")
  = {| provider := "openrouter"; model := "meta-llama" |}.
Proof. vm_compute. reflexivity. Qed.

(** Without a selector the manager answers with the default model and
    never throws; with one it answers as the selector does. *)
Lemma selectOptimalModel_without_selector this params :
  modelSelector this = false ->
  selectOptimalModel this params = Ok (getDefaultModel this).
Proof. intros H. unfold selectOptimalModel. now rewrite H. Qed.



Section Runtime.

Variable createHash : string -> option (string -> string).
Variable numberToString : number -> string.
Variable ModelCostConfig : Type.
Variable resolveModelCostConfig : string -> string -> OpenClawConfig -> option ModelCostConfig.
Variable price_input price_output : ModelCostConfig -> number.

(** X28.  A response that the manager stores is never found again: the manager
    hashes the prompt and [set] hashes that key once more, while [get] looks
    up the key as it is given.  (It would be found if the digest of the key
    were the key itself.) *)
Theorem cacheResponse_then_miss this cache digest (params : StoreParams) now later :
  responseCache this = Some cache ->
  ResponseCache.enabled (ResponseCache.config cache) = true ->
  ResponseCache.isMemory cache = true ->
  createHash (ResponseCache.algorithm (ResponseCache.hashing (ResponseCache.config cache)))
  = Some digest ->
  digest (digest (keyText numberToString cache (storeKey params)))
  <> digest (keyText numberToString cache (storeKey params)) ->
  Map_get (ResponseCache.memoryCache cache)
    (digest (keyText numberToString cache (storeKey params))) = None ->
  exists this',
    cacheResponse createHash numberToString ModelCostConfig resolveModelCostConfig
      price_input price_output this params now = Returned tt this' /\
    getCachedResponse createHash numberToString this' (lookupOf params) later
    = Returned None this'.
Proof.
  intros Hc Hen Hm Hh Hd Hnone.
  set (k := digest (keyText numberToString cache (storeKey params))) in *.
  unfold cacheResponse, onCache. rewrite Hc.
  unfold ResponseCache.bind at 1.
  rewrite (generateCacheKey_digest _ _ digest _ _ Hh). fold (storeKey params). fold k.
  match goal with |- context [ResponseCache.set _ _ ?sp now cache] =>
    destruct (set_then_get_misses createHash numberToString digest sp now later cache
                Hen Hm Hh eq_refl eq_refl Hd Hnone) as (cache' & Hset & Hget);
    pose proof (set_memory_steps createHash numberToString digest sp now cache Hen Hm Hh)
      as Steps;
    cbn [ResponseCache.key] in Hset, Hget; rewrite Hset
  end.
  eexists. split; [reflexivity|].
  unfold getCachedResponse, onCache. cbn [responseCache withCache].
  assert (Cfg : ResponseCache.config cache' = ResponseCache.config cache).
  { rewrite Steps in Hset. inversion Hset. reflexivity. }
  unfold ResponseCache.bind at 1.
  assert (Hh' : createHash (ResponseCache.algorithm
                  (ResponseCache.hashing (ResponseCache.config cache'))) = Some digest)
    by (now rewrite Cfg).
  rewrite (generateCacheKey_digest _ _ digest _ _ Hh').
  assert (K : keyText numberToString cache'
                {| ResponseCache.prompt := lookup_prompt (lookupOf params);
                   ResponseCache.key_temperature := lookup_temperature (lookupOf params);
                   ResponseCache.key_maxTokens := lookup_maxTokens (lookupOf params) |}
              = keyText numberToString cache (storeKey params)).
  { unfold keyText, storeKey, lookupOf. cbn. now rewrite Cfg. }
  rewrite K. fold k. unfold ResponseCache.bind. rewrite Hget. reflexivity.
Qed.

End Runtime.

Lemma cacheResponse_then_miss_witness :
  exists this',
    cacheResponse nodeCrypto wholeNumber unit noPrices noPrice noPrice
      (cachingManager freshCache) helloStore 1000 = Returned tt this' /\
    getCachedResponse nodeCrypto wholeNumber this' (lookupOf helloStore) 2000
    = Returned None this'.
Proof.
  apply (cacheResponse_then_miss nodeCrypto wholeNumber unit noPrices noPrice noPrice
           (cachingManager freshCache) freshCache Sha256.hex helloStore 1000 2000).
  - reflexivity.
  - reflexivity.
  - reflexivity.
  - reflexivity.
  - vm_compute. discriminate.
  - reflexivity.
Defined.

End ManagerFacts.

Section KeyCollisions.

Import ResponseCache.

Variable createHash : string -> option (string -> string).
Variable numberToString : number -> string.

(** The key does not tell a parameter from a prompt that ends in its
    text: a prompt with a temperature and the prompt that spells the
    temperature out get the same key, whatever the digest. *)
Lemma generateCacheKey_collision (s : State) (p : string) (t : number) :
  includeTemperature (hashing (config s)) = true ->
  generateCacheKey createHash numberToString
    {| prompt := p; key_temperature := Some t; key_maxTokens := None |} s
  = generateCacheKey createHash numberToString
      {| prompt := p ++ "|temp:" ++ numberToString t; key_temperature := None;
         key_maxTokens := None |} s.
Proof.
  intros H. unfold generateCacheKey, bind, getState. cbn [prompt key_temperature key_maxTokens].
  rewrite H. reflexivity.
Qed.

End KeyCollisions.

Section BucketFacts.

Import UsageTracker.
Local Open Scope list_scope.

(** Every key of the map of aggregates is the key of a record. *)
Lemma fold_addRecord_keys p rs k :
  In k (Map_keys (fold_left (addRecord p) rs [])) ->
  exists r, In r rs /\ getPeriodKey (timestamp r) p = k.
Proof.
  induction rs as [|r rs IH] using rev_ind; [intros []|].
  rewrite fold_left_app. cbn [fold_left]. unfold addRecord at 1.
  rewrite Map_set_keys. intros H.
  assert (Old : In k (Map_keys (fold_left (addRecord p) rs [])) ->
                exists r0, In r0 (rs ++ [r]) /\ getPeriodKey (timestamp r0) p = k).
  { intros Hk. destruct (IH Hk) as (r0 & Hin & E). exists r0. split; [|exact E].
    apply in_app_iff. now left. }
  destruct (Map_has _ _); [now apply Old|].
  apply in_app_iff in H. destruct H as [H|[<-|[]]]; [now apply Old|].
  exists r. split; [apply in_app_iff; right; now left|reflexivity].
Qed.

Lemma bucket_In p records k r :
  In r (bucket p records k) <-> In r records /\ getPeriodKey (timestamp r) p = k.
Proof.
  unfold bucket. rewrite filter_In. now rewrite String.eqb_eq.
Qed.

Lemma withAverage_period a : period (withAverage a) = period a.
Proof. reflexivity. Qed.

(** X29.  [aggregateRecords] makes one aggregate for each day, week or month in
    which a record falls: the periods of the aggregates are distinct, every
    record has its aggregate, and an aggregate stands for the records of the
    calendar bucket of one of the records, with the average cost of a request
    among them. *)
Theorem aggregateRecords_buckets (records : list UsageRecord) (p : Period) :
  NoDup (map period (aggregateRecords records p)) /\
  (forall r, In r records ->
     exists a, In a (aggregateRecords records p) /\
               period a = getPeriodKey (timestamp r) p) /\
  (forall a, In a (aggregateRecords records p) ->
     (exists r, In r records /\ period a = getPeriodKey (timestamp r) p /\
        forall r', In r' (bucket p records (period a)) <->
                   In r' records /\ bucketOf p (timestamp r') = bucketOf p (timestamp r)) /\
     averageCostPerRequest a = (totalCost a / JS.of_Z (requestCount a))%float).
Proof.
  destruct (fold_addRecord_good p records) as [ND Good]. cbv zeta in ND, Good.
  set (aggregates := fold_left (addRecord p) records []) in *.
  assert (Key : forall k a, In (k, a) aggregates -> period a = k /\
                  Map_get aggregates k = Some a).
  { intros k a Hin. pose proof (Map_In_get _ _ _ ND Hin) as G.
    specialize (Good k). rewrite G in Good. split; [apply Good|exact G]. }
  assert (Mem : forall a, In a (aggregateRecords records p) <->
                  exists k a0, In (k, a0) aggregates /\ a = withAverage a0).
  { intros a. unfold aggregateRecords. fold aggregates. rewrite toSorted_In.
    unfold Map_values. rewrite map_map. cbn [snd]. rewrite in_map_iff. split.
    - intros ([k a0] & E & Hin). exists k, a0. auto.
    - intros (k & a0 & Hin & E). exists (k, a0). auto. }
  split; [|split].
  - unfold aggregateRecords. fold aggregates.
    apply (Permutation_NoDup (l := Map_keys aggregates)); [|exact ND].
    symmetry. unfold toSorted.
    rewrite (Permutation_map period (toSortedBy_perm _ _)).
    unfold Map_values, Map_keys. rewrite !map_map. cbn [snd].
    apply Permutation_refl'. apply map_ext_in.
    intros [k a] Hin. cbn [fst snd]. rewrite withAverage_period. now apply Key.
  - intros r Hr. set (k := getPeriodKey (timestamp r) p).
    pose proof (Good k) as G.
    destruct (Map_get aggregates k) as [a|] eqn:E.
    + exists (withAverage a). split.
      * apply Mem. exists k, a. split; [now apply Map_get_In|reflexivity].
      * rewrite withAverage_period. apply G.
    + exfalso. cbn [orElse] in G. pose proof (good_count _ _ _ _ G) as C.
      cbn [emptyAggregate requestCount] in C.
      assert (Hin : In r (bucket p records k)) by (apply bucket_In; auto).
      destruct (bucket p records k); [destruct Hin|discriminate].
  - intros a Ha. apply Mem in Ha. destruct Ha as (k & a0 & Hin & ->).
    destruct (Key _ _ Hin) as [Hp G].
    destruct (fold_addRecord_keys p records k) as (r & Hr & Hk).
    { unfold Map_keys. change k with (fst (k, a0)). now apply in_map. }
    split.
    + exists r. rewrite withAverage_period, Hp. split; [exact Hr|]. split; [now rewrite Hk|].
      intros r'. rewrite bucket_In, <- Hk. now rewrite getPeriodKey_bucketOf.
    + pose proof (Good k) as Gd. rewrite G in Gd. cbn [orElse] in Gd.
      pose proof (good_count _ _ _ _ Gd) as C.
      assert (Hin' : In r (bucket p records k)) by (apply bucket_In; auto).
      unfold withAverage. cbn [averageCostPerRequest totalCost requestCount].
      replace (0 <? requestCount a0)%Z with true; [reflexivity|].
      symmetry. apply Z.ltb_lt. rewrite C.
      destruct (bucket p records k); [destruct Hin'|simpl; lia].
Qed.

End BucketFacts.
